(** * The Gmail connector of [scripts/gmail.py]: codec, threading, credentials

    A shallow embedding of the parts of [GmailConnector] that build outbound
    MIME messages ([send_message], [reply_to_message], [forward_message]),
    decode inbound ones ([get_message_body]), list messages
    ([get_messages]) and obtain the credential ([_get_gmail_service]), with
    the properties of the connector's specification stated and settled
    against them.  What the connector calls outside the repository (the
    [email] serialiser, the remote service, pickle, the OAuth flow) enters
    as parameters, or as a model that says so.

    Representation choices.
    - A Python [str] is a [string] holding the UTF-8 encoding of the text;
      [bytes.decode('utf-8')] is then a validity check and
      [str.encode('utf-8')] the identity.  The separators the connector
      searches for ('<', '>', ':', newline, "Re:", "Fwd:") are ASCII, and an
      ASCII byte never occurs inside a multi-byte UTF-8 sequence, so
      searching bytes and searching code points agree.
    - A Python [bytes] is a [string] as well (a sequence of octets).
    - An exception is a value of [exn]; fallible code returns [result]. *)

From Stdlib Require Import ZArith NArith Lia List Ascii String Bool DecimalString.
From stdpp Require Import gmap strings list fin_maps.

Open Scope string_scope.

(** ** Exceptions and results *)

Inductive exn : Type :=
| KeyError (key : string)
| ValueError (msg : string)
| BinasciiError (msg : string)
| UnicodeDecodeError
| OSError (path : string)
| EOFError (msg : string)
| HeaderParseError (msg : string)
| HttpError (msg : string).

Inductive result (A : Type) : Type :=
| Ok (a : A)
| Raise (e : exn).
Arguments Ok {A} a.
Arguments Raise {A} e.

Definition bind {A B : Type} (r : result A) (k : A → result B) : result B :=
  match r with
  | Ok a => k a
  | Raise e => Raise e
  end.

Notation "'let*' x ':=' r 'in' k" := (bind r (fun x => k))
  (at level 10, x name, r at level 100, k at level 200, only parsing).

(** [d[key]] on a field that may be missing from a JSON object. *)
Definition subscript {A : Type} (key : string) (field : option A) : result A :=
  match field with
  | Some a => Ok a
  | None => Raise (KeyError key)
  end.

(** ** Python string operations used by the connector *)

Module Py.

(** [s.startswith(p)] *)
Definition startswith (s p : string) : bool := String.prefix p s.

(** [sub in s] *)
Fixpoint contains (sub s : string) : bool :=
  match s with
  | "" => String.prefix sub ""
  | String _ s' => String.prefix sub s || contains sub s'
  end.

(** The truth value of a string: [if s:]. *)
Definition truthy (s : string) : bool :=
  match s with "" => false | _ => true end.

(** The truth value of an optional string argument ([None] or [str]). *)
Definition truthy_opt (o : option string) : bool :=
  match o with None => false | Some s => truthy s end.

Definition cons_head (c : ascii) (l : list string) : list string :=
  match l with
  | [] => [String c ""]
  | h :: t => String c h :: t
  end.

(** [s.split(sep, maxsplit)] for a non-empty [sep]: the leftmost
    occurrences of [sep] cut the string, at most [maxsplit] times
    ([None]: no limit).  [skip] counts the characters of a separator that
    has just matched and is still being consumed. *)
Fixpoint split_go (sep : string) (maxsplit : option nat) (skip : nat)
    (s : string) : list string :=
  match s with
  | "" => [""]
  | String c s' =>
      match skip with
      | S k => split_go sep maxsplit k s'
      | O =>
          match maxsplit with
          | Some O => [s]
          | _ =>
              if String.prefix sep s
              then "" :: split_go sep (pred <$> maxsplit) (String.length sep - 1) s'
              else cons_head c (split_go sep maxsplit 0 s')
          end
      end
  end.

Definition split (sep : string) (s : string) : list string :=
  split_go sep None 0 s.

Definition split_max (sep : string) (maxsplit : nat) (s : string) : list string :=
  split_go sep (Some maxsplit) 0 s.

(** [sep.join(parts)] *)
Fixpoint join (sep : string) (parts : list string) : string :=
  match parts with
  | [] => ""
  | [p] => p
  | p :: ps => p +:+ sep +:+ join sep ps
  end.

(** [l[0]] and [l[-1]] on the non-empty lists that [split] returns. *)
Definition first (l : list string) : string := hd "" l.
Definition last (l : list string) : string := List.last l "".

(** *** [s.strip()]

    Python strips the characters for which [str.isspace] holds.  In the
    UTF-8 representation these are the one-byte characters U+0009-U+000D,
    U+001C-U+0020, the two-byte U+0085 and U+00A0 and the three-byte
    U+1680, U+2000-U+200A, U+2028, U+2029, U+202F, U+205F and U+3000. *)
Definition space1 (a : ascii) : bool :=
  let n := N_of_ascii a in
  ((9 <=? n) && (n <=? 13) || (28 <=? n) && (n <=? 32))%N.

Definition space2 (a b : ascii) : bool :=
  let m := N_of_ascii a in
  let n := N_of_ascii b in
  ((m =? 194) && ((n =? 133) || (n =? 160)))%N.

Definition space3 (a b c : ascii) : bool :=
  let l := N_of_ascii a in
  let m := N_of_ascii b in
  let n := N_of_ascii c in
  ((l =? 225) && (m =? 154) && (n =? 128)
   || (l =? 226) && (m =? 128)
      && ((128 <=? n) && (n <=? 138) || (n =? 168) || (n =? 169) || (n =? 175))
   || (l =? 226) && (m =? 129) && (n =? 159)
   || (l =? 227) && (m =? 128) && (n =? 128))%N.

Fixpoint lstrip (s : string) : string :=
  match s with
  | "" => ""
  | String a s1 =>
      if space1 a then lstrip s1
      else match s1 with
           | String b s2 =>
               if space2 a b then lstrip s2
               else match s2 with
                    | String c s3 => if space3 a b c then lstrip s3 else s
                    | "" => s
                    end
           | "" => s
           end
  end.

(** The same scan from the right end, on the reversed string. *)
Fixpoint lstrip_rev (s : string) : string :=
  match s with
  | "" => ""
  | String a s1 =>
      if space1 a then lstrip_rev s1
      else match s1 with
           | String b s2 =>
               if space2 b a then lstrip_rev s2
               else match s2 with
                    | String c s3 => if space3 c b a then lstrip_rev s3 else s
                    | "" => s
                    end
           | "" => s
           end
  end.

Definition rstrip (s : string) : string := String.rev (lstrip_rev (String.rev s)).

Definition strip (s : string) : string := rstrip (lstrip s).

End Py.

(** ** [base64.urlsafe_b64encode] and [base64.urlsafe_b64decode]

    The standard library's codec, as CPython's [binascii] implements it.
    Decoding runs in the default non-strict mode: characters outside the
    alphabet are skipped, and a padding sequence that completes a quad ends
    the input. *)

Module Base64.

Definition alphabet : string :=
  "ABCDEFGHIJKLMNOPQRSTUVWXYZabcdefghijklmnopqrstuvwxyz0123456789+/".

Definition PAD : ascii := "="%char.

(** [table_b2a_base64[n]] *)
Definition table_b2a (n : N) : ascii :=
  match String.get (N.to_nat n) alphabet with
  | Some c => c
  | None => PAD
  end.

Fixpoint index_of (c : ascii) (s : string) (i : N) : N :=
  match s with
  | "" => 255
  | String a s' => if Ascii.eqb a c then i else index_of c s' (N.succ i)
  end.

(** [table_a2b_base64[c]]: the sextet of an alphabet character, and a
    value above 63 for every other character. *)
Definition table_a2b (c : ascii) : N := index_of c alphabet 0.

Definition byte (n : N) : ascii := ascii_of_N (n mod 256).

(** The four sextets of a group of three octets [x], [y], [z]. *)
Definition sextet0 (x : N) : N := N.shiftr x 2.
Definition sextet1 (x y : N) : N := N.lor (N.shiftl (N.land x 3) 4) (N.shiftr y 4).
Definition sextet2 (y z : N) : N := N.lor (N.shiftl (N.land y 15) 2) (N.shiftr z 6).
Definition sextet3 (z : N) : N := N.land z 63.

(** [binascii.b2a_base64(data, newline=False)]: three octets give four
    characters; a last group of one or two octets is completed with zero
    bits and padded with '='. *)
Fixpoint b2a_base64 (data : string) : string :=
  match data with
  | "" => ""
  | String a "" =>
      let x := N_of_ascii a in
      String (table_b2a (sextet0 x))
        (String (table_b2a (sextet1 x 0))
           (String PAD (String PAD "")))
  | String a (String b "") =>
      let x := N_of_ascii a in
      let y := N_of_ascii b in
      String (table_b2a (sextet0 x))
        (String (table_b2a (sextet1 x y))
           (String (table_b2a (sextet2 y 0))
              (String PAD "")))
  | String a (String b (String c rest)) =>
      let x := N_of_ascii a in
      let y := N_of_ascii b in
      let z := N_of_ascii c in
      String (table_b2a (sextet0 x))
        (String (table_b2a (sextet1 x y))
           (String (table_b2a (sextet2 y z))
              (String (table_b2a (sextet3 z)) (b2a_base64 rest))))
  end.

Definition emit (b : N) (r : result string) : result string :=
  match r with
  | Ok s => Ok (String (byte b) s)
  | Raise e => Raise e
  end.

(** [%zd]: a count in decimal. *)
Definition decimal (n : N) : string := NilEmpty.string_of_uint (N.to_uint n).

(** The decoding loop of [binascii.a2b_base64] with [strict_mode] off.
    [quad_pos] is the position inside the current group of four
    characters, [leftchar] the bits left over from the previous character,
    [pads] the run of padding characters seen and [written] the number of
    octets written so far, which the error for a lone last character
    quotes as a number of characters. *)
Fixpoint a2b_loop (ascii_data : string) (quad_pos leftchar pads written : N)
    : result string :=
  match ascii_data with
  | "" =>
      if (quad_pos =? 0)%N then Ok ""
      else if (quad_pos =? 1)%N then
        Raise (BinasciiError
                 ("Invalid base64-encoded string: number of data characters ("
                  +:+ decimal (written / 3 * 4 + 1)
                  +:+ ") cannot be 1 more than a multiple of 4"))
      else Raise (BinasciiError "Incorrect padding")
  | String c rest =>
      if Ascii.eqb c PAD then
        if (2 <=? quad_pos)%N then
          if (4 <=? quad_pos + (pads + 1))%N then Ok ""
          else a2b_loop rest quad_pos leftchar (pads + 1) written
        else a2b_loop rest quad_pos leftchar pads written
      else
        let this_ch := table_a2b c in
        if (64 <=? this_ch)%N then a2b_loop rest quad_pos leftchar pads written
        else if (quad_pos =? 0)%N then a2b_loop rest 1 this_ch 0 written
        else if (quad_pos =? 1)%N then
          emit (N.lor (N.shiftl leftchar 2) (N.shiftr this_ch 4))
               (a2b_loop rest 2 (N.land this_ch 15) 0 (written + 1))
        else if (quad_pos =? 2)%N then
          emit (N.lor (N.shiftl leftchar 4) (N.shiftr this_ch 2))
               (a2b_loop rest 3 (N.land this_ch 3) 0 (written + 1))
        else
          emit (N.lor (N.shiftl leftchar 6) this_ch)
               (a2b_loop rest 0 0 0 (written + 1))
  end.

Definition a2b_base64 (ascii_data : string) : result string :=
  a2b_loop ascii_data 0 0 0 0.

Fixpoint translate (f : ascii → ascii) (s : string) : string :=
  match s with
  | "" => ""
  | String c s' => String (f c) (translate f s')
  end.

(** [_urlsafe_encode_translation]: '+' becomes '-', '/' becomes '_'. *)
Definition urlsafe_encode_translation (c : ascii) : ascii :=
  if Ascii.eqb c "+" then "-"%char
  else if Ascii.eqb c "/" then "_"%char else c.

(** [_urlsafe_decode_translation]: '-' becomes '+', '_' becomes '/'. *)
Definition urlsafe_decode_translation (c : ascii) : ascii :=
  if Ascii.eqb c "-" then "+"%char
  else if Ascii.eqb c "_" then "/"%char else c.

Fixpoint is_ascii (s : string) : bool :=
  match s with
  | "" => true
  | String c s' => (N_of_ascii c <? 128)%N && is_ascii s'
  end.

Definition urlsafe_b64encode (s : string) : string :=
  translate urlsafe_encode_translation (b2a_base64 s).

(** The argument is a [str] here (a JSON string of the API), which
    [_bytes_from_decode_data] first encodes to ASCII. *)
Definition urlsafe_b64decode (s : string) : result string :=
  if is_ascii s
  then a2b_base64 (translate urlsafe_decode_translation s)
  else Raise (ValueError "string argument should contain only ASCII characters").

End Base64.

(** ** [bytes.decode('utf-8')]

    Strict decoding: well-formed UTF-8 only (no overlong forms, no
    surrogates, nothing above U+10FFFF).  With a [str] represented by its
    UTF-8 encoding the decoded value is the byte sequence itself. *)

Module Utf8.

Definition cont (c : ascii) : bool :=
  let n := N_of_ascii c in ((128 <=? n) && (n <=? 191))%N.

Definition between (lo hi : N) (c : ascii) : bool :=
  let n := N_of_ascii c in ((lo <=? n) && (n <=? hi))%N.

Fixpoint valid (bs : string) : bool :=
  match bs with
  | "" => true
  | String a s1 =>
      if between 0 127 a then valid s1
      else match s1 with
      | "" => false
      | String b s2 =>
          if between 194 223 a then cont b && valid s2
          else match s2 with
          | "" => false
          | String c s3 =>
              if between 224 224 a then between 160 191 b && cont c && valid s3
              else if between 237 237 a then between 128 159 b && cont c && valid s3
              else if between 225 239 a then cont b && cont c && valid s3
              else match s3 with
              | "" => false
              | String d s4 =>
                  if between 240 240 a
                  then between 144 191 b && cont c && cont d && valid s4
                  else if between 241 243 a
                  then cont b && cont c && cont d && valid s4
                  else if between 244 244 a
                  then between 128 143 b && cont c && cont d && valid s4
                  else false
              end
          end
      end
  end.

Definition decode (bs : string) : result string :=
  if valid bs then Ok bs else Raise UnicodeDecodeError.

End Utf8.

(** ** The inbound message of the remote API

    [users.messages.get] returns a JSON object.  The fields the connector
    reads are kept.  A field of a message, of a part or of a body that the
    code tests for presence, or subscripts without testing, is optional
    here, and subscripting a missing one raises [KeyError] as it does in
    Python.  A header object is taken as the API defines it, with its
    [name] and its [value]: a header that lacks one of the two, on which
    the comprehension of [reply_to_message] would raise [KeyError], is not
    represented. *)

Record Header : Type := mkHeader {
  name : string;
  value : string
}.

Record MessagePartBody : Type := mkBody {
  data : option string
}.

#[warnings="-register-all"]
Inductive MessagePart : Type := mkPart {
  mimeType : option string;
  headers : option (list Header);
  body : option MessagePartBody;
  parts : option (list MessagePart)
}.

Record Message : Type := mkMessage {
  payload : option MessagePart;
  raw : option string
}.

(** Whether a part, or a part nested anywhere below it, declares the type
    text/plain. *)
Fixpoint has_text_plain (p : MessagePart) : bool :=
  match p with
  | mkPart mt _ _ ps =>
      bool_decide (mt = Some "text/plain")
      || match ps with
         | Some l => existsb has_text_plain l
         | None => false
         end
  end.

(** ** Dictionaries of headers *)

(** [d.get(key, '')] *)
Definition get (d : gmap string string) (key : string) : string :=
  default "" (d !! key).

(** [{header['name']: header['value'] for header in hs}]: a later header
    overwrites an earlier one of the same name. *)
Definition headers_dict (hs : list Header) : gmap string string :=
  foldl (λ d h, <[name h := value h]> d) ∅ hs.

(** [dict(pairs)] over an iterable of lists: every element must have exactly
    two items, else [ValueError]. *)
Fixpoint dict_of_lists (d : gmap string string) (pairs : list (list string))
    : result (gmap string string) :=
  match pairs with
  | [] => Ok d
  | [k; v] :: rest => dict_of_lists (<[k := v]> d) rest
  | _ :: _ => Raise (ValueError "dictionary update sequence element has the wrong length; 2 is required")
  end.

(** ** [get_message_body] *)

Definition LF : string := String "010" "".

(** [base64.urlsafe_b64decode(body_data).decode('utf-8')] *)
Definition decode_data (body_data : string) : result string :=
  let* bytes := Base64.urlsafe_b64decode body_data in
  Utf8.decode bytes.

(** One iteration of the loop over [message['payload']['parts']]; [acc] is
    the list [parts] built so far. *)
Definition body_loop_step (acc : result (list string)) (part : MessagePart)
    : result (list string) :=
  let* texts := acc in
  let* mime_type := subscript "mimeType" (mimeType part) in
  if String.eqb mime_type "text/plain" then
    let* part_body := subscript "body" (body part) in
    match data part_body with
    | Some body_data =>
        let* body_text := decode_data body_data in
        Ok (texts ++ [body_text])%list
    | None => Ok texts
    end
  else Ok texts.

Definition get_message_body (message : Message) : result string :=
  match payload message with
  | None => Ok ""
  | Some p =>
      let* texts :=
        match parts p with
        | Some ps => foldl body_loop_step (Ok []) ps
        | None =>
            match body p with
            | Some (mkBody (Some body_data)) =>
                let* body_text := decode_data body_data in
                Ok [body_text]
            | _ => Ok []
            end
        end in
      Ok (Py.join LF texts)
  end.

(** ** Outbound MIME messages

    The object tree built with [email.mime] before [as_bytes] serialises
    it.  [MIMEMultipart] carries the headers assigned with
    [message[name] = value], in assignment order, and the attached parts in
    attachment order.  [MIMEBase] is an attachment whose payload
    [encoders.encode_base64] encodes and whose Content-Disposition is
    [attachment] with the given file name.

    [send_message], [reply_to_message] and [forward_message] below are the
    message objects the three methods build, up to the call of
    [message.as_bytes()]; a [Raise] is an exception raised while the object
    is built.  Serialising and submitting the object, which can raise as
    well, is [Connector.submit], and the methods as a whole are in
    [Connector]. *)

#[warnings="-register-all"]
Inductive mime : Type :=
| MIMEText (text subtype : string)
| MIMEBase (maintype subtype payload filename : string)
| MIMEMultipart (subtype : string) (hdrs : list (string * string))
    (attached : list mime).

(** The headers set on an outbound message, and the value of the first one
    of a given name. *)
Definition mime_headers (m : mime) : list (string * string) :=
  match m with
  | MIMEMultipart _ hs _ => hs
  | _ => []
  end.

Fixpoint assoc (key : string) (l : list (string * string)) : option string :=
  match l with
  | [] => None
  | (k, v) :: rest => if String.eqb k key then Some v else assoc key rest
  end.

Definition header_of (key : string) (r : result mime) : option string :=
  match r with
  | Ok m => assoc key (mime_headers m)
  | Raise _ => None
  end.

(** ** [send_message] *)

Section Send.

(** The file system and [mimetypes], as the attachment loop sees them. *)
Variable isfile : string → bool.
Variable read_file : string → result string.
Variable guess_type : string → option string * option string.

(** [os.path.basename] *)
Definition basename (path : string) : string := Py.last (Py.split "/" path).

(** The body of the loop over [attachments]: the part to attach for one
    path, or nothing when the path is not a file. *)
Definition attachment_part (file_path : string) : result (option mime) :=
  if isfile file_path then
    let '(content_type, encoding) := guess_type file_path in
    let content_type :=
      match content_type, encoding with
      | Some ct, None => ct
      | _, _ => "application/octet-stream"
      end in
    match Py.split_max "/" 1 content_type with
    | [main_type; sub_type] =>
        let* content := read_file file_path in
        Ok (Some (MIMEBase main_type sub_type content (basename file_path)))
    | _ => Raise (ValueError "not enough values to unpack (expected 2)")
    end
  else Ok None.

Fixpoint attach_all (attachments : list string) : result (list mime) :=
  match attachments with
  | [] => Ok []
  | file_path :: rest =>
      let* part := attachment_part file_path in
      let* others := attach_all rest in
      Ok (match part with Some a => a :: others | None => others end)
  end.

Definition optional_header (key : string) (v : option string)
    : list (string * string) :=
  match v with
  | Some s => if Py.truthy s then [(key, s)] else []
  | None => []
  end.

(** The message object that [send_message] builds. *)
Definition send_message (to subject body : string)
    (cc bcc html_body : option string) (attachments : option (list string))
    : result mime :=
  let subtype := if Py.truthy_opt html_body then "alternative" else "mixed" in
  let hdrs := ([("To", to); ("Subject", subject)]
               ++ optional_header "Cc" cc ++ optional_header "Bcc" bcc)%list in
  let bodies :=
    MIMEText body "plain"
    :: match html_body with
       | Some h => if Py.truthy h then [MIMEText h "html"] else []
       | None => []
       end in
  let* files :=
    match attachments with
    | Some l => attach_all l
    | None => Ok []
    end in
  Ok (MIMEMultipart subtype hdrs (bodies ++ files)%list).

End Send.

(** ** [reply_to_message] and [forward_message] *)

(** The message object that [reply_to_message] builds, given the original
    message fetched with [get_message]. *)
Definition reply_to_message (original_message : Message) (body : string)
    (html_body : option string) : result mime :=
  let* p := subscript "payload" (payload original_message) in
  let* hs := subscript "headers" (headers p) in
  let headers := headers_dict hs in
  let subject := get headers "Subject" in
  let subject :=
    if negb (Py.startswith subject "Re:") then "Re: " +:+ subject else subject in
  let from_email := Py.first (Py.split ">" (Py.last (Py.split "<" (get headers "From")))) in
  let message_id := get headers "Message-ID" in
  let references := get headers "References" in
  let references :=
    if Py.truthy message_id then
      if Py.truthy references then references +:+ " " +:+ message_id
      else message_id
    else references in
  Ok (MIMEMultipart (if Py.truthy_opt html_body then "alternative" else "mixed")
        [("To", from_email); ("Subject", subject);
         ("In-Reply-To", message_id); ("References", references)]
        (MIMEText body "plain"
         :: match html_body with
            | Some h => if Py.truthy h then [MIMEText h "html"] else []
            | None => []
            end)).

(** The header dictionary that [forward_message] builds from the decoded raw
    message: the lines before the first blank line that contain a colon,
    each split at its first colon. *)
Definition raw_headers (raw_message : string) : result (gmap string string) :=
  dict_of_lists ∅
    (map (Py.split_max ":" 1)
       (filter (λ line, Py.contains ":" line = true)
          (Py.split LF (Py.first (Py.split (LF +:+ LF) raw_message))))).

Definition banner : string :=
  "---------- Forwarded Message ----------" +:+ LF +:+ LF.

(** The message object that [forward_message] builds, given the original
    message fetched in raw format. *)
Definition forward_message (original_message : Message) (to : string)
    (additional_body : option string) : result mime :=
  let* raw_data := subscript "raw" (raw original_message) in
  let* raw_bytes := Base64.urlsafe_b64decode raw_data in
  let* raw_message := Utf8.decode raw_bytes in
  let* headers := raw_headers raw_message in
  let subject := Py.strip (get headers "Subject") in
  let subject :=
    if negb (Py.startswith subject "Fwd:") then "Fwd: " +:+ subject else subject in
  let note :=
    match additional_body with
    | Some a => if Py.truthy a then a +:+ LF +:+ LF +:+ banner else banner
    | None => banner
    end in
  let body_parts := Py.split_max (LF +:+ LF) 1 raw_message in
  Ok (MIMEMultipart "mixed" [("To", to); ("Subject", subject)]
        (MIMEText note "plain"
         :: match body_parts with
            | _ :: original_body :: _ => [MIMEText original_body "plain"]
            | _ => []
            end)).

(** ** The methods as a whole

    Each of the three methods ends with the same three statements: the
    message object is serialised with [message.as_bytes()], the bytes are
    encoded in base64url, and the result is submitted with
    [users().messages().send].  [reply_to_message] and [forward_message]
    begin by fetching the original.  Everything happens inside one [try]
    whose handlers log and re-raise, so the first exception is the
    method's.

    The serialiser and the remote service are collaborators.  [as_bytes]
    is the outcome of serialising a message object: its bytes, or the
    exception of the [email] package for a header value it refuses to
    write (a line break followed by what reads as a header name, for
    one).  [get_message] is [self.get_message(message_id, format)] and
    [send] the submission; both raise [HttpError]. *)

Module Connector.

Section Methods.

Variable get_message : string → string → result Message.
Variable as_bytes : mime → result string.
Variable send : string → result Message.

Definition submit (message : mime) : result Message :=
  let* bytes := as_bytes message in
  let encoded_message := Base64.urlsafe_b64encode bytes in
  send encoded_message.

Definition send_message (isfile : string → bool)
    (read_file : string → result string)
    (guess_type : string → option string * option string)
    (to subject body : string) (cc bcc html_body : option string)
    (attachments : option (list string)) : result Message :=
  let* message :=
    send_message isfile read_file guess_type to subject body cc bcc html_body
      attachments in
  submit message.

Definition forward_message (message_id to : string)
    (additional_body : option string) : result Message :=
  let* original_message := get_message message_id "raw" in
  let* message := forward_message original_message to additional_body in
  submit message.

Definition reply_to_message (message_id body : string)
    (html_body : option string) : result Message :=
  let* original_message := get_message message_id "full" in
  let* message := reply_to_message original_message body html_body in
  submit message.

End Methods.

End Connector.

(** ** The text of a part, as [as_bytes] writes it

    What the [email] package does to the text of a [MIMEText] part.  With
    no charset given, [MIMEText] takes us-ascii for a text that is ASCII
    and utf-8 for any other.  A us-ascii text is written 7bit, line by
    line: [Generator._write_lines] splits it at NLCRE, which is
    [\r\n|\r|\n], and writes a line feed for every line end.  A utf-8
    text is written in base64, which keeps every octet. *)

Module Email.

Definition CR : ascii := "013"%char.
Definition NL : ascii := "010"%char.

(** [Generator._write_lines] *)
Fixpoint write_lines (lines : string) : string :=
  match lines with
  | "" => ""
  | String c rest =>
      if Ascii.eqb c CR then
        match rest with
        | String c' rest' =>
            if Ascii.eqb c' NL then String NL (write_lines rest')
            else String NL (write_lines rest)
        | "" => String NL ""
        end
      else String c (write_lines rest)
  end.

(** The content of a serialised text part, read through its transfer
    encoding: [Base64.is_ascii text] is whether [MIMEText] settles on
    us-ascii, that is whether [_text.encode('us-ascii')] succeeds. *)
Definition text_content (text : string) : string :=
  if Base64.is_ascii text then write_lines text else text.

End Email.

(** ** The remote service between [send_message] and [get_message]

    The connector submits the serialised tree and later reads messages back
    as JSON.  The service is not part of the repository; what reading back
    needs of it is stated in [Remote.part_of]. *)

Module Remote.

Definition content_type (m : mime) : string :=
  match m with
  | MIMEText _ subtype => "text/" +:+ subtype
  | MIMEBase maintype subtype _ _ => maintype +:+ "/" +:+ subtype
  | MIMEMultipart subtype _ _ => "multipart/" +:+ subtype
  end.

(** Modelled from the spec: the transport boundary, the remote service that
    accepts the base64url envelope and returns messages as a nested body
    structure, is a collaborator outside the repository.  A message that
    was serialised and submitted comes back with the structure of its
    tree: every part declares its content type; a text part carries the
    base64url encoding of its content as serialised
    ([Email.text_content]), followed by the line ending [nl], possibly
    none, that the service leaves at the end of a part; an attachment is
    carried by reference, without inline [data]. *)
Fixpoint part_of (nl : string) (m : mime) : MessagePart :=
  match m with
  | MIMEText text _ =>
      mkPart (Some (content_type m)) (Some [])
        (Some (mkBody (Some (Base64.urlsafe_b64encode
                               (Email.text_content text +:+ nl))))) None
  | MIMEBase _ _ _ _ =>
      mkPart (Some (content_type m)) (Some []) (Some (mkBody None)) None
  | MIMEMultipart _ hs children =>
      mkPart (Some (content_type m))
        (Some (map (λ kv, mkHeader kv.1 kv.2) hs))
        (Some (mkBody None)) (Some (map (part_of nl) children))
  end.

(** Modelled from the spec: the message the service returns for a
    submitted message, see [part_of]. *)
Definition received (nl : string) (m : mime) : Message :=
  mkMessage (Some (part_of nl m)) None.

Definition newline (c : ascii) : bool :=
  Ascii.eqb c "010" || Ascii.eqb c "013".

Fixpoint newlines (s : string) : bool :=
  match s with
  | "" => true
  | String c s' => newline c && newlines s'
  end.

(** Trailing newline normalisation: the text without the carriage returns
    and line feeds at its end. *)
Fixpoint chomp (s : string) : string :=
  match s with
  | "" => ""
  | String c s' =>
      match chomp s' with
      | "" => if newline c then "" else String c ""
      | r => String c r
      end
  end.

End Remote.

(** ** The credential store

    [with open(self.token_file, 'wb') as token: pickle.dump(creds, token)].
    The file is followed through the operations the statement performs on
    it: opening for writing creates or truncates it, each flush of the
    pickled bytes appends to it, and leaving the [with] block closes it,
    also when [pickle.dump] raises. *)

Module Store.

Record file : Type := mkFile {
  content : option string;      (* [None]: the file does not exist *)
  open_for_writing : bool
}.

Inductive op : Type :=
| OpenWb
| Flush (bytes : string)
| Close.

Definition step (f : file) (o : op) : file :=
  match o with
  | OpenWb => mkFile (Some "") true
  | Flush bytes => mkFile (Some (default "" (content f) +:+ bytes)) (open_for_writing f)
  | Close => mkFile (content f) false
  end.

(** The operations of one save: [flushes] are the portions of the pickle
    that reach the file, in order; when [pickle.dump] raises, only the
    portions flushed before the exception do. *)
Definition save_ops (flushes : list string) : list op :=
  (OpenWb :: map Flush flushes ++ [Close])%list.

(** The states the file goes through, the initial one excluded. *)
Fixpoint run (f : file) (ops : list op) : list file :=
  match ops with
  | [] => []
  | o :: rest => step f o :: run (step f o) rest
  end.

Definition final (f : file) (ops : list op) : file := foldl step f ops.

Definition save (f : file) (flushes : list string) : file :=
  final f (save_ops flushes).

Fixpoint concat (l : list string) : string :=
  match l with
  | [] => ""
  | s :: rest => s +:+ concat rest
  end.

(** What an atomic replace would guarantee: every state a crash or a
    concurrent reader can observe holds the previous contents or the
    complete new ones. *)
Definition atomic (old : file) (new_content : string) (states : list file) : Prop :=
  ∀ f, In f states → content f = content old ∨ content f = Some new_content.

End Store.

(** ** [_get_gmail_service] *)

Module Auth.

Record Credentials : Type := mkCredentials {
  token : option string;
  refresh_token : option string;
  token_uri : option string;
  client_id : option string;
  client_secret : option string;
  expiry : option Z
}.

(** What [pickle.load] can return: [None], a credentials object, or an
    object without the attributes that [required_fields] lists. *)
Inductive unpickled : Type :=
| UNone
| UCredentials (c : Credentials)
| UForeign.

(** The top-level keys of a client configuration: of [credentials.json],
    or of the dictionary [_prompt_for_client_config] returns. *)
Record ClientConfig : Type := mkClientConfig {
  keys : list string
}.

Inductive event : Type :=
| ERefresh (c : Credentials)          (* [creds.refresh(Request())] *)
| EPrompt                             (* [_prompt_for_client_config] *)
| EAuthorize (cfg : ClientConfig)     (* [flow.run_local_server] *)
| ESave (c : Credentials)             (* the token file is written *)
| EBuild (c : Credentials).           (* [build('gmail', 'v1', ...)] *)

Record outcome (Service : Type) : Type := mkOutcome {
  returned : result Service;
  events : list event;
  token_file_after : Store.file
}.
Arguments mkOutcome {Service}.
Arguments returned {Service}.
Arguments events {Service}.
Arguments token_file_after {Service}.

Section Service.

Variable Service : Type.

(** The clock and the margin [google.auth] keeps before the expiry. *)
Variable now : Z.
Variable REFRESH_THRESHOLD : Z.

(** [str(e)]: the text an f-string puts for the exception [e]. *)
Variable str : exn → string.

(** The collaborators: pickle, the token file, the token endpoint, the
    credentials file, the prompt, the interactive flow and the discovery
    client.
    - [token_file_writable] tells whether [open(self.token_file, 'wb')]
      succeeds, and [open_error] is what it raises when it does not.
    - [pickle_dump c] gives the portions of the pickle that reach the file
      and whether [pickle.dump] raised after them; [pickle_error c] is what
      it raised.
    - [load_client_config] is the outcome of everything the first [try]
      of the flow does before it decides on the prompt: opening and parsing
      the credentials file and testing it for its sections.
    - [prompt_for_client_config k] is the outcome of the call number [k]
      of [_prompt_for_client_config] in this run: the dictionary it
      returns, or the exception that [input] raised.
    - [run_local_server] stands for [InstalledAppFlow.from_client_config]
      followed by [flow.run_local_server]. *)
Variable unpickle : string → result unpickled.
Variable token_file_writable : bool.
Variable open_error : exn.
Variable pickle_dump : Credentials → list string * bool.
Variable pickle_error : Credentials → exn.
Variable refresh : Credentials → result Credentials.
Variable load_client_config : result ClientConfig.
Variable prompt_for_client_config : nat → result ClientConfig.
Variable run_local_server : ClientConfig → result Credentials.
Variable build : Credentials → result Service.

(** [creds.expired] and [creds.valid] *)
Definition expired (c : Credentials) : bool :=
  match expiry c with
  | None => false
  | Some e => (e - REFRESH_THRESHOLD <=? now)%Z
  end.

Definition valid (c : Credentials) : bool :=
  bool_decide (token c ≠ None) && negb (expired c).

(** The first block: load the stored credential, if any. *)
Definition load_creds (token_file : Store.file) : option Credentials :=
  match Store.content token_file with
  | Some bytes =>
      match unpickle bytes with
      | Ok (UCredentials c) => Some c
      | Ok UNone => None
      | Ok UForeign => None
      | Raise _ => None
      end
  | None => None
  end.

(** The last block: [build], whose exception becomes a [ValueError] that
    quotes it. *)
Definition finish (token_file : Store.file) (evs : list event)
    (c : Credentials) : outcome Service :=
  match build c with
  | Ok service => mkOutcome (Ok service) (evs ++ [EBuild c])%list token_file
  | Raise e =>
      mkOutcome (Raise (ValueError ("Failed to build Gmail service: " +:+ str e)))
        (evs ++ [EBuild c])%list token_file
  end.

(** The first [try] of the flow and its handler: the client configuration
    the flow is started with.  The prompt is called inside the [try] when
    the credentials file has neither section, and in the handler when
    anything inside the [try] raised, the prompt included; the handler is
    not guarded, so an exception of the prompt called there leaves
    [_get_gmail_service] as it is. *)
Definition client_config_for_flow (evs : list event)
    : result ClientConfig * list event :=
  match load_client_config with
  | Ok client_config =>
      if bool_decide ("web" ∈ keys client_config)
         || bool_decide ("installed" ∈ keys client_config)
      then (Ok client_config, evs)
      else
        match prompt_for_client_config 0 with
        | Ok prompted => (Ok prompted, (evs ++ [EPrompt])%list)
        | Raise _ => (prompt_for_client_config 1, (evs ++ [EPrompt; EPrompt])%list)
        end
  | Raise _ => (prompt_for_client_config 0, (evs ++ [EPrompt])%list)
  end.

(** The interactive flow, and the save that follows it.  Any exception
    of the flow or of the save becomes a [ValueError] that quotes it. *)
Definition authorize (token_file : Store.file) (evs : list event)
    : outcome Service :=
  let '(chosen, evs) := client_config_for_flow evs in
  match chosen with
  | Raise e => mkOutcome (Raise e) evs token_file
  | Ok cfg =>
      let failed (e : exn) : result Service :=
        Raise (ValueError ("Failed to authenticate: " +:+ str e)) in
      match run_local_server cfg with
      | Ok c =>
          let evs := (evs ++ [EAuthorize cfg])%list in
          if token_file_writable then
            let '(flushes, raised) := pickle_dump c in
            let token_file := Store.save token_file flushes in
            if raised : bool
            then mkOutcome (failed (pickle_error c)) (evs ++ [ESave c])%list token_file
            else finish token_file (evs ++ [ESave c])%list c
          else mkOutcome (failed open_error) evs token_file
      | Raise e =>
          mkOutcome (failed e) (evs ++ [EAuthorize cfg])%list token_file
      end
  end.

Definition _get_gmail_service (token_file : Store.file) : outcome Service :=
  match load_creds token_file with
  | Some c =>
      if valid c then finish token_file [] c
      else if expired c && Py.truthy_opt (refresh_token c)
      then match refresh c with
           | Ok c' => finish token_file [ERefresh c] c'
           | Raise _ => authorize token_file [ERefresh c]
           end
      else finish token_file [] c
  | None => authorize token_file []
  end.

(** A network call: the token endpoint or the interactive flow. *)
Definition network (e : event) : bool :=
  match e with
  | ERefresh _ | EAuthorize _ => true
  | _ => false
  end.

Definition writes (e : event) : bool :=
  match e with
  | ESave _ => true
  | _ => false
  end.

End Service.

End Auth.

(** ** [get_messages]

    The remote service is a pair of functions: [list_messages] answers
    [users.messages.list] with the [messages] field of the response
    ([None] when the field is absent), [get] answers [users.messages.get]
    for an id and a format.  The calls made are recorded in order. *)

Record MessageRef : Type := mkRef {
  msg_id : option string
}.

Inductive call : Type :=
| CallList (q : string) (max_results : Z)
| CallGet (message_id format : string).

Section Listing.

Variable list_messages : string → Z → result (option (list MessageRef)).
Variable get_remote : string → string → result Message.

(** The loop over [messages]: [message_list] is the list built so far and
    [calls] the calls made so far. *)
Fixpoint fetch_loop (include_body : bool) (messages : list MessageRef)
    (message_list : list Message) (calls : list call)
    : result (list Message) * list call :=
  match messages with
  | [] => (Ok message_list, calls)
  | msg :: rest =>
      match subscript "id" (msg_id msg) with
      | Raise e => (Raise e, calls)
      | Ok i =>
          let format := if include_body then "full" else "metadata" in
          match get_remote i format with
          | Ok message_data =>
              fetch_loop include_body rest (message_list ++ [message_data])%list
                (calls ++ [CallGet i format])%list
          | Raise e => (Raise e, (calls ++ [CallGet i format])%list)
          end
      end
  end.

Definition get_messages (query : string) (max_results : Z) (include_body : bool)
    : result (list Message) * list call :=
  match list_messages query max_results with
  | Raise e => (Raise e, [CallList query max_results])
  | Ok results =>
      fetch_loop include_body (default [] results) [] [CallList query max_results]
  end.

End Listing.

(** * Concrete messages

    The inputs on which the model is run below. *)

(** A fetched message with the given headers. *)
Definition with_headers (hs : list Header) : Message :=
  mkMessage (Some (mkPart (Some "text/plain") (Some hs) (Some (mkBody None)) None)) None.

(** The value of the last header of a given name in a header list. *)
Fixpoint find_last (key : string) (hs : list Header) : option string :=
  match hs with
  | [] => None
  | h :: rest =>
      match find_last key rest with
      | Some v => Some v
      | None => if String.eqb (name h) key then Some (value h) else None
      end
  end.

Definition text_part (text : string) : MessagePart :=
  mkPart (Some "text/plain") (Some [])
    (Some (mkBody (Some (Base64.urlsafe_b64encode text)))) None.

Definition thread_original : Message :=
  with_headers [mkHeader "From" "Alice <alice@example.com>";
                mkHeader "Subject" "Hello";
                mkHeader "Message-ID" "<c>";
                mkHeader "References" "<a> <b>"].

Definition no_message_id : Message :=
  with_headers [mkHeader "From" "Alice <alice@example.com>";
                mkHeader "References" "<a> <b>"].

Definition two_addresses : Message :=
  with_headers [mkHeader "From" "A <a@x>, B <b@y>"].

Definition bare_address : Message :=
  with_headers [mkHeader "From" "alice@example.com"].

Definition open_bracket : Message :=
  with_headers [mkHeader "From" "<alice@example.com"].

Definition upper_subject : Message :=
  with_headers [mkHeader "SUBJECT" "Hello"; mkHeader "From" "alice@example.com"].

Definition already_replied : Message :=
  with_headers [mkHeader "Subject" "Re: Hello"].

(** A message fetched in raw format whose text is [raw_message]. *)
Definition raw_of (raw_message : string) : Message :=
  mkMessage None (Some (Base64.urlsafe_b64encode raw_message)).

Definition forwarded_text : string :=
  "Subject: Fwd: Hello" +:+ LF +:+ "X-Note: a:b:c" +:+ LF +:+ LF +:+ "body text".

(** The container structure of an outbound message: a leaf with its
    content type, or a multipart group with its subtype and children. *)
#[warnings="-register-all"]
Inductive shape : Type :=
| Leaf (content_type : string)
| Group (subtype : string) (children : list shape).

Fixpoint shape_of (m : mime) : shape :=
  match m with
  | MIMEMultipart subtype _ children => Group subtype (map shape_of children)
  | _ => Leaf (Remote.content_type m)
  end.

Definition shape_of_result (r : result mime) : option shape :=
  match r with
  | Ok m => Some (shape_of m)
  | Raise _ => None
  end.

(** The structure the specification asks of [encode]: a single text/plain
    part for a plain body alone, plain and HTML under an alternative group,
    and, with attachments, the body and each attachment as siblings of a
    mixed group. *)
Definition encode_shape_spec (html : bool) (attachment_types : list string) : shape :=
  let body :=
    if html then Group "alternative" [Leaf "text/plain"; Leaf "text/html"]
    else Leaf "text/plain" in
  match attachment_types with
  | [] => body
  | _ => Group "mixed" (body :: map Leaf attachment_types)
  end.

Definition is_attachment (m : mime) : Prop :=
  match m with
  | MIMEBase _ _ _ _ => True
  | _ => False
  end.

Definition attachment_filename (m : mime) : string :=
  match m with
  | MIMEBase _ _ _ filename => filename
  | _ => ""
  end.

(** A file system with one file, /tmp/report.pdf. *)
Definition one_file (path : string) : bool := String.eqb path "/tmp/report.pdf".
Definition read_pdf (path : string) : result string :=
  if one_file path then Ok "%PDF" else Raise (OSError path).
Definition guess_pdf (path : string) : option string * option string :=
  (Some "application/pdf", None).

(** The [data] of the direct sub-parts that declare text/plain and carry
    data, in order. *)
Definition text_plain_data (ps : list MessagePart) : list string :=
  omap (λ part,
          if bool_decide (mimeType part = Some "text/plain")
          then body part ≫= data else None) ps.

(** Each payload decoded on its own, the first failure raised. *)
Fixpoint decode_each (payloads : list string) : result (list string) :=
  match payloads with
  | [] => Ok []
  | body_data :: rest =>
      let* body_text := decode_data body_data in
      let* texts := decode_each rest in
      Ok (body_text :: texts)
  end.

Definition result_map {A B : Type} (f : A → B) (r : result A) : result B :=
  match r with
  | Ok a => Ok (f a)
  | Raise e => Raise e
  end.

(** A sub-part as the API delivers it: it declares its type, and a
    text/plain part has a body. *)
Definition well_formed_part (part : MessagePart) : Prop :=
  mimeType part ≠ None
  ∧ (mimeType part = Some "text/plain" → body part ≠ None).

(** A single-part HTML message: no sub-parts, the markup in the top-level
    body. *)
Definition html_only : Message :=
  mkMessage
    (Some (mkPart (Some "text/html") (Some [])
             (Some (mkBody (Some "PHA-aGk8L3A-"))) None))
    None.

(** A single-part binary message whose body is the one byte 0xFF. *)
Definition binary_only : Message :=
  mkMessage
    (Some (mkPart (Some "application/octet-stream") (Some [])
             (Some (mkBody (Some "_w=="))) None))
    None.

Definition foo_bar : Message :=
  mkMessage
    (Some (mkPart (Some "multipart/mixed") (Some []) (Some (mkBody None))
             (Some [mkPart (Some "text/plain") (Some []) (Some (mkBody (Some "Zm9v"))) None;
                    mkPart (Some "image/png") (Some []) (Some (mkBody (Some "iVBORw=="))) None;
                    mkPart (Some "text/plain") (Some []) (Some (mkBody (Some "YmFy"))) None])))
    None.

(** The numbers below [k], for checks by enumeration. *)
Definition below (k : nat) : list N := map N.of_nat (seq 0 k).

(** What decoding needs of the character that encodes a sextet: it is ASCII,
    it is not the padding character, and it maps back to the sextet. *)
Definition sextet_char_ok (n : N) : bool :=
  let c := Base64.urlsafe_encode_translation (Base64.table_b2a n) in
  let c' := Base64.urlsafe_decode_translation c in
  (N_of_ascii c <? 128)%N
  && negb (Ascii.eqb c' Base64.PAD)
  && (Base64.table_a2b c' =? n)%N.

(** What decoding needs of the sextets of the octets [x], [y] and of [y],
    [z]: they are below 64 and the decoder's shifts rebuild the octets. *)
Definition sextets_xy_ok (x y : N) : bool :=
  let s0 := Base64.sextet0 x in
  let s1 := Base64.sextet1 x y in
  (s0 <? 64)%N && (s1 <? 64)%N
  && (N.lor (N.shiftl s0 2) (N.shiftr s1 4) mod 256 =? x)%N
  && (N.land s1 15 =? N.shiftr y 4)%N
  && (N.land (Base64.sextet1 x 0) 15 =? 0)%N.

Definition sextets_yz_ok (y z : N) : bool :=
  let s2 := Base64.sextet2 y z in
  let s3 := Base64.sextet3 z in
  (s2 <? 64)%N && (s3 <? 64)%N
  && (N.lor (N.shiftl (N.shiftr y 4) 4) (N.shiftr s2 2) mod 256 =? y)%N
  && (N.land s2 3 =? N.shiftr z 6)%N
  && (N.lor (N.shiftl (N.shiftr z 6) 6) s3 mod 256 =? z)%N.

(** A stored credential with a token that expires at time 2000, and a world
    in which the clock shows 1000, pickles are the token text, and the
    discovery client hands back the credential it was given. *)
Definition stored_credential : Auth.Credentials :=
  Auth.mkCredentials (Some "ya29.token") (Some "1//refresh")
    (Some "https://oauth2.googleapis.com/token") (Some "id") (Some "secret")
    (Some 2000%Z).

Definition unpickle_stored (bytes : string) : result Auth.unpickled :=
  if String.eqb bytes "pickled" then Ok (Auth.UCredentials stored_credential)
  else Raise (ValueError "unpickling failed").

(** [str] on the exceptions of the runs below, which carry their text. *)
Definition exn_text (e : exn) : string :=
  match e with
  | KeyError key => "'" +:+ key +:+ "'"
  | ValueError msg => msg
  | BinasciiError msg => msg
  | UnicodeDecodeError => "'utf-8' codec can't decode bytes"
  | OSError msg => msg
  | EOFError msg => msg
  | HeaderParseError msg => msg
  | HttpError msg => msg
  end.

(** A prompt that is answered with a desktop-client dictionary, and one
    that finds the standard input closed. *)
Definition prompt_answered (k : nat) : result Auth.ClientConfig :=
  Ok (Auth.mkClientConfig ["installed"]).

Definition prompt_at_eof (k : nat) : result Auth.ClientConfig :=
  Raise (EOFError "EOF when reading a line").

Definition fast_path_run : Auth.outcome Auth.Credentials :=
  Auth._get_gmail_service Auth.Credentials 1000%Z 225%Z exn_text
    unpickle_stored true (OSError "token.pickle") (λ _, (["pickled"], false))
    (λ _, ValueError "cannot pickle")
    (λ c, Raise (ValueError "refresh must not be called"))
    (Raise (OSError "credentials.json"))
    prompt_answered
    (λ _, Raise (ValueError "the flow must not be run"))
    Ok
    (Store.mkFile (Some "pickled") false).

Definition old_store : Store.file := Store.mkFile (Some "OLD") false.

(** The client configuration the interactive flow is started with: the one
    read from the credentials file when it has a "web" or an "installed"
    section, the prompted one otherwise. *)
Definition chosen_config (load_client_config : result Auth.ClientConfig)
    (prompt_for_client_config : Auth.ClientConfig) : Auth.ClientConfig :=
  match load_client_config with
  | Ok client_config =>
      if bool_decide ("web" ∈ Auth.keys client_config)
         || bool_decide ("installed" ∈ Auth.keys client_config)
      then client_config
      else prompt_for_client_config
  | Raise _ => prompt_for_client_config
  end.

(** Whether the prompt is shown before the flow. *)
Definition prompted (load_client_config : result Auth.ClientConfig) : list Auth.event :=
  match load_client_config with
  | Ok client_config =>
      if bool_decide ("web" ∈ Auth.keys client_config)
         || bool_decide ("installed" ∈ Auth.keys client_config)
      then []
      else [Auth.EPrompt]
  | Raise _ => [Auth.EPrompt]
  end.

Definition is_refresh (e : Auth.event) : bool :=
  match e with Auth.ERefresh _ => true | _ => false end.

Definition is_authorize (e : Auth.event) : bool :=
  match e with Auth.EAuthorize _ => true | _ => false end.

Definition is_build (e : Auth.event) : bool :=
  match e with Auth.EBuild _ => true | _ => false end.

(** An expired credential with a refresh token, and one without. *)
Definition expired_credential : Auth.Credentials :=
  Auth.mkCredentials (Some "ya29.old") (Some "1//refresh")
    (Some "https://oauth2.googleapis.com/token") (Some "id") (Some "secret")
    (Some 900%Z).

Definition refreshed_credential : Auth.Credentials :=
  Auth.mkCredentials (Some "ya29.new") (Some "1//refresh")
    (Some "https://oauth2.googleapis.com/token") (Some "id") (Some "secret")
    (Some 4600%Z).

Definition unrefreshable_credential : Auth.Credentials :=
  Auth.mkCredentials (Some "ya29.old") None
    (Some "https://oauth2.googleapis.com/token") (Some "id") (Some "secret")
    (Some 900%Z).

(** A world for the runs below: the clock shows 1000, the pickle of a
    credential is its access token, refreshing gives [refreshed_credential],
    the credentials file has an "installed" section and the flow hands out
    [stored_credential]. *)
Definition unpickle_token (bytes : string) : result Auth.unpickled :=
  if String.eqb bytes "ya29.old" then Ok (Auth.UCredentials expired_credential)
  else if String.eqb bytes "ya29.token" then Ok (Auth.UCredentials stored_credential)
  else if String.eqb bytes "no-refresh" then Ok (Auth.UCredentials unrefreshable_credential)
  else Raise (ValueError "unpickling failed").

Definition pickle_token (c : Auth.Credentials) : list string * bool :=
  ([default "" (Auth.token c)], false).

Definition run_world (refresh : Auth.Credentials → result Auth.Credentials)
    (run_local_server : Auth.ClientConfig → result Auth.Credentials)
    (pickle_dump : Auth.Credentials → list string * bool)
    (token_file : Store.file) : Auth.outcome Auth.Credentials :=
  Auth._get_gmail_service Auth.Credentials 1000%Z 225%Z exn_text unpickle_token true
    (OSError "token.pickle") pickle_dump (λ _, ValueError "cannot pickle") refresh
    (Ok (Auth.mkClientConfig ["installed"]))
    prompt_answered run_local_server Ok token_file.

(** The same world with a token file that cannot be opened for writing. *)
Definition run_read_only (refresh : Auth.Credentials → result Auth.Credentials)
    (run_local_server : Auth.ClientConfig → result Auth.Credentials)
    (token_file : Store.file) : Auth.outcome Auth.Credentials :=
  Auth._get_gmail_service Auth.Credentials 1000%Z 225%Z exn_text unpickle_token false
    (OSError "[Errno 13] Permission denied: 'token.pickle'") pickle_token
    (λ _, ValueError "cannot pickle") refresh
    (Ok (Auth.mkClientConfig ["installed"]))
    prompt_answered run_local_server Ok token_file.

(** The same world with a credentials file that has neither section, or
    that cannot be read, and a closed standard input. *)
Definition run_unattended (load_client_config : result Auth.ClientConfig)
    (token_file : Store.file) : Auth.outcome Auth.Credentials :=
  Auth._get_gmail_service Auth.Credentials 1000%Z 225%Z exn_text unpickle_token true
    (OSError "token.pickle") pickle_token (λ _, ValueError "cannot pickle")
    (λ _, Ok refreshed_credential) load_client_config
    prompt_at_eof (λ _, Ok stored_credential) Ok token_file.

(** The two ways into the interactive flow: nothing usable was loaded from
    the token file, or the loaded credential is expired, has a refresh token
    and its refresh raised.  [evs] is what has happened before the flow. *)
Definition needs_flow (now REFRESH_THRESHOLD : Z)
    (unpickle : string → result Auth.unpickled)
    (refresh : Auth.Credentials → result Auth.Credentials)
    (token_file : Store.file) (evs : list Auth.event) : Prop :=
  (Auth.load_creds unpickle token_file = None ∧ evs = [])
  ∨ (∃ c e,
       Auth.load_creds unpickle token_file = Some c
       ∧ Auth.expired now REFRESH_THRESHOLD c = true
       ∧ Py.truthy_opt (Auth.refresh_token c) = true
       ∧ refresh c = Raise e
       ∧ evs = [Auth.ERefresh c]).

(** How many of the events satisfy [p]. *)
Definition count_events (p : Auth.event → bool) (evs : list Auth.event) : nat :=
  length (List.filter p evs).

(** The format [get_messages] asks for. *)
Definition listing_format (include_body : bool) : string :=
  if include_body then "full" else "metadata".

(** A mailbox with the two messages "m1" and "m2", and one in which "m2"
    cannot be fetched. *)
Definition two_refs (q : string) (max_results : Z) : result (option (list MessageRef)) :=
  Ok (Some [mkRef (Some "m1"); mkRef (Some "m2"); mkRef (Some "m3")]).

Definition fetch_any (message_id format : string) : result Message :=
  Ok (mkMessage None (Some message_id)).

Definition fetch_but_m2 (message_id format : string) : result Message :=
  if String.eqb message_id "m2" then Raise (OSError "HttpError 404")
  else Ok (mkMessage None (Some message_id)).

(** The parts attached to an outbound message. *)
Definition mime_children (m : mime) : list mime :=
  match m with
  | MIMEMultipart _ _ children => children
  | _ => []
  end.

(** The content type [send_message] settles on for an attachment: the
    guessed one, or the generic binary type when nothing was guessed or an
    encoding was detected. *)
Definition content_type_for (guess_type : string → option string * option string)
    (file_path : string) : string :=
  match guess_type file_path with
  | (Some ct, None) => ct
  | _ => "application/octet-stream"
  end.

(** A file system with a readable report and a file that cannot be read. *)
Definition two_files (path : string) : bool :=
  String.eqb path "/tmp/report.pdf" || String.eqb path "/root/secret.key".
Definition read_report (path : string) : result string :=
  if String.eqb path "/tmp/report.pdf" then Ok "%PDF" else Raise (OSError path).

(** The first part of a forward: the caller's note, when one is given,
    above the banner. *)
Definition forward_note (additional_body : option string) : string :=
  match additional_body with
  | Some a => if Py.truthy a then a +:+ LF +:+ LF +:+ banner else banner
  | None => banner
  end.

(** The separator of header block and body: an empty line. *)
Definition blank_line : string := String "010" (String "010" "").

(** The Subject rule of a forward. *)
Definition fwd_subject (v : string) : string :=
  if Py.startswith (Py.strip v) "Fwd:" then Py.strip v else "Fwd: " +:+ Py.strip v.

Definition crlf_text : string :=
  "Subject: Hello" +:+ String "013" LF +:+ String "013" LF +:+ "body text".

Definition plain_text_mail : string :=
  "From: alice@example.com" +:+ LF +:+ "Subject: Hello" +:+ LF +:+ "X-Note: a:b"
  +:+ LF +:+ LF +:+ "body text" +:+ LF +:+ LF +:+ "more".

(** The lines of a raw message that [forward_message] takes headers from:
    those before the first empty line that contain a colon. *)
Definition header_lines (raw_message : string) : list string :=
  filter (λ line, Py.contains ":" line = true)
    (Py.split LF (Py.first (Py.split (LF +:+ LF) raw_message))).

(** A line cut at its first colon: the name before it and the value after
    it, further colons included; nothing when the line has no colon. *)
Fixpoint cut_at_first_colon (line : string) : option (string * string) :=
  match line with
  | "" => None
  | String c rest =>
      if Ascii.eqb c ":" then Some ("", rest)
      else
        match cut_at_first_colon rest with
        | Some (k, v) => Some (String c k, v)
        | None => None
        end
  end.

(** The value of the last line whose name is exactly [key]. *)
Fixpoint find_last_line (key : string) (lines : list string) : option string :=
  match lines with
  | [] => None
  | line :: rest =>
      match find_last_line key rest with
      | Some v => Some v
      | None =>
          match cut_at_first_colon line with
          | Some (k, v) => if String.eqb k key then Some v else None
          | None => None
          end
      end
  end.

(** A raw message whose Subject line is written in capitals, and one with
    two Subject lines, the second with colons in its value. *)
Definition upper_subject_text : string :=
  "SUBJECT: Hello" +:+ LF +:+ "From: alice@example.com" +:+ LF +:+ LF +:+ "body".

Definition two_subjects_text : string :=
  "Subject: first" +:+ LF +:+ "Subject: re: a:b" +:+ LF +:+ LF +:+ "body".

(** A body with a CR LF line end, and the same text with a line feed. *)
Definition crlf_body : string :=
  "line1" +:+ String "013" (String "010" "line2").

Definition lf_body : string := "line1" +:+ String "010" "line2".

(** The carriage return, as a string to search for. *)
Definition CR : string := String Email.CR "".

(** [carries ps texts]: the direct sub-parts [ps] are, in order, text/plain
    parts whose data is the base64url encoding of the UTF-8 texts [texts],
    mixed with parts that declare another type (whatever they hold or
    contain) and text/plain parts whose body has no data. *)
Inductive carries : list MessagePart → list string → Prop :=
| carries_nil : carries [] []
| carries_text (text : string) (hs : option (list Header))
    (nested : option (list MessagePart)) (ps : list MessagePart)
    (texts : list string) :
    Utf8.valid text = true →
    carries ps texts →
    carries (mkPart (Some "text/plain") hs
               (Some (mkBody (Some (Base64.urlsafe_b64encode text)))) nested :: ps)
            (text :: texts)
| carries_other (mime_type : string) (hs : option (list Header))
    (b : option MessagePartBody) (nested : option (list MessagePart))
    (ps : list MessagePart) (texts : list string) :
    mime_type ≠ "text/plain" →
    carries ps texts →
    carries (mkPart (Some mime_type) hs b nested :: ps) texts
| carries_no_data (hs : option (list Header)) (nested : option (list MessagePart))
    (ps : list MessagePart) (texts : list string) :
    carries ps texts →
    carries (mkPart (Some "text/plain") hs (Some (mkBody None)) nested :: ps) texts.

(** An HTML mail with an attachment, as mail clients send it: the text/plain
    alternative sits one level down, inside multipart/alternative. *)
Definition html_mail_with_attachment : Message :=
  mkMessage
    (Some (mkPart (Some "multipart/mixed") (Some []) (Some (mkBody None))
             (Some [mkPart (Some "multipart/alternative") (Some [])
                      (Some (mkBody None))
                      (Some [mkPart (Some "text/plain") (Some [])
                               (Some (mkBody (Some "aGVsbG8="))) None;
                             mkPart (Some "text/html") (Some [])
                               (Some (mkBody (Some "PHA-aGk8L3A-"))) None]);
                    mkPart (Some "application/pdf") (Some [])
                      (Some (mkBody None)) None])))
    None.

(** A message whose second sub-part lacks its declared type. *)
Definition untyped_part : Message :=
  mkMessage
    (Some (mkPart (Some "multipart/mixed") (Some []) (Some (mkBody None))
             (Some [mkPart (Some "text/plain") (Some [])
                      (Some (mkBody (Some "Zm9v"))) None;
                    mkPart None (Some []) (Some (mkBody None)) None;
                    mkPart (Some "text/plain") (Some [])
                      (Some (mkBody (Some "YmFy"))) None])))
    None.

(** * Tests of the model on concrete inputs *)

Example split_angle :
  Py.split "<" "A <a@x>, B <b@y>" = ["A "; "a@x>, B "; "b@y>"].
Proof. reflexivity. Qed.

Example split_first_colon : Py.split_max ":" 1 "a:b:c" = ["a"; "b:c"].
Proof. reflexivity. Qed.

Example split_blank_line :
  Py.split (LF +:+ LF) ("a" +:+ LF +:+ LF +:+ LF +:+ "b") = ["a"; LF +:+ "b"].
Proof. reflexivity. Qed.

Example split_empty : Py.split "<" "" = [""].
Proof. reflexivity. Qed.

Example strip_spaces : Py.strip "  Fwd: x  " = "Fwd: x".
Proof. reflexivity. Qed.

Example b64encode_hello : Base64.urlsafe_b64encode "hello" = "aGVsbG8=".
Proof. reflexivity. Qed.

Example b64decode_hello : Base64.urlsafe_b64decode "aGVsbG8=" = Ok "hello".
Proof. reflexivity. Qed.

Example b64decode_unpadded :
  Base64.urlsafe_b64decode "aGVsbG8" = Raise (BinasciiError "Incorrect padding").
Proof. reflexivity. Qed.

Example b64decode_lone_character :
  Base64.urlsafe_b64decode "aGVsbG8gd29ybGQhX"
  = Raise (BinasciiError "Invalid base64-encoded string: number of data characters (17) cannot be 1 more than a multiple of 4").
Proof. reflexivity. Qed.

Example utf8_ascii : Utf8.valid "hello" = true.
Proof. reflexivity. Qed.

Example utf8_lone_continuation : Utf8.valid (String "128" "") = false.
Proof. reflexivity. Qed.

(** Two text/plain parts "foo" and "bar" and one non-text part. *)
Example decode_foo_bar :
  get_message_body
    (mkMessage
       (Some (mkPart (Some "multipart/mixed") (Some []) (Some (mkBody None))
                (Some [text_part "foo";
                       mkPart (Some "image/png") (Some [])
                         (Some (mkBody (Some "iVBORw=="))) None;
                       text_part "bar"])))
       None)
  = Ok ("foo" +:+ LF +:+ "bar").
Proof. reflexivity. Qed.

(** * Strings: appending, prefixes and splitting at a character *)

Lemma append_cons (c : ascii) (s t : string) :
  String c s +:+ t = String c (s +:+ t).
Proof. reflexivity. Qed.

Lemma append_nil_r (s : string) : s +:+ "" = s.
Proof.
  induction s as [|c s IH]; [reflexivity|].
  rewrite append_cons, IH. reflexivity.
Qed.

Lemma append_assoc (s t u : string) : (s +:+ t) +:+ u = s +:+ (t +:+ u).
Proof.
  induction s as [|c s IH]; [reflexivity|].
  rewrite !append_cons, IH. reflexivity.
Qed.

Lemma prefix_nil (s : string) : String.prefix "" s = true.
Proof. destruct s; reflexivity. Qed.

Lemma prefix_append (p s : string) : String.prefix p (p +:+ s) = true.
Proof.
  induction p as [|c p IH]; [apply prefix_nil|].
  rewrite append_cons. simpl. destruct (ascii_dec c c); [exact IH | congruence].
Qed.

Lemma prefix_char (c a : ascii) (s : string) :
  String.prefix (String c "") (String a s) = bool_decide (c = a).
Proof.
  simpl. destruct (ascii_dec c a) as [->|Hne].
  - rewrite prefix_nil, bool_decide_eq_true_2; reflexivity.
  - rewrite bool_decide_eq_false_2; [reflexivity | exact Hne].
Qed.

Lemma contains_char_cons (c a : ascii) (s : string) :
  Py.contains (String c "") (String a s)
  = bool_decide (c = a) || Py.contains (String c "") s.
Proof. unfold Py.contains at 1. fold Py.contains. rewrite prefix_char. reflexivity. Qed.

Lemma contains_char_append (c : ascii) (s t : string) :
  Py.contains (String c "") (s +:+ t)
  = Py.contains (String c "") s || Py.contains (String c "") t.
Proof.
  induction s as [|a s IH].
  - reflexivity.
  - rewrite append_cons, !contains_char_cons, IH, orb_assoc. reflexivity.
Qed.

Lemma split_char_cons (c a : ascii) (s : string) :
  Py.split (String c "") (String a s)
  = if bool_decide (c = a) then "" :: Py.split (String c "") s
    else Py.cons_head a (Py.split (String c "") s).
Proof.
  unfold Py.split. cbn [Py.split_go]. rewrite prefix_char. reflexivity.
Qed.

Lemma split_char_absent (c : ascii) (s : string) :
  Py.contains (String c "") s = false → Py.split (String c "") s = [s].
Proof.
  induction s as [|a s IH]; [reflexivity|].
  rewrite contains_char_cons, split_char_cons.
  intros [Ha Hs]%orb_false_elim. rewrite Ha, (IH Hs). reflexivity.
Qed.

(** The last piece of a split is what follows the last separator. *)
Lemma split_char_last (c : ascii) (pre x : string) :
  Py.contains (String c "") x = false →
  Py.last (Py.split (String c "") (pre +:+ String c x)) = x.
Proof.
  intros Hx.
  assert (H : ∃ h t, Py.split (String c "") (pre +:+ String c x) = (h :: t ++ [x])%list).
  { induction pre as [|a pre (h & t & IH)].
    - exists "", []. change ("" +:+ String c x) with (String c x).
      rewrite split_char_cons, bool_decide_eq_true_2 by reflexivity.
      rewrite (split_char_absent _ _ Hx). reflexivity.
    - rewrite append_cons, split_char_cons, IH.
      destruct (bool_decide (c = a)).
      + exists "", (h :: t). reflexivity.
      + exists (String a h), t. reflexivity. }
  destruct H as (h & t & ->). unfold Py.last.
  change (h :: t ++ [x])%list with ((h :: t) ++ [x])%list.
  apply last_last.
Qed.

(** The first piece of a split is what precedes the first separator. *)
Lemma first_cons_head (a : ascii) (l : list string) :
  Py.first (Py.cons_head a l) = String a (Py.first l).
Proof. destruct l; reflexivity. Qed.

Lemma split_char_first (c : ascii) (x post : string) :
  Py.contains (String c "") x = false →
  Py.first (Py.split (String c "") (x +:+ String c post)) = x.
Proof.
  induction x as [|a x IH]; intros Hx.
  - change ("" +:+ String c post) with (String c post).
    rewrite split_char_cons, bool_decide_eq_true_2 by reflexivity. reflexivity.
  - rewrite contains_char_cons in Hx. apply orb_false_elim in Hx as [Ha Hx].
    rewrite append_cons, split_char_cons, Ha, first_cons_head, (IH Hx). reflexivity.
Qed.

(** A piece is never longer than the string, and shorter when the separator
    occurs. *)
Lemma last_cons_cons (x h : string) (t : list string) :
  Py.last (x :: h :: t) = Py.last (h :: t).
Proof. reflexivity. Qed.

Lemma split_nonempty (c : ascii) (s : string) :
  ∃ h t, Py.split (String c "") s = h :: t.
Proof.
  destruct s as [|b s]; [eexists _, _; reflexivity|].
  rewrite split_char_cons. destruct (bool_decide (c = b)); [eexists _, _; reflexivity|].
  destruct (Py.split (String c "") s); eexists _, _; reflexivity.
Qed.

Lemma split_char_last_length (c : ascii) (s : string) :
  (String.length (Py.last (Py.split (String c "") s)) ≤ String.length s)%nat
  ∧ (Py.contains (String c "") s = true →
     (String.length (Py.last (Py.split (String c "") s)) < String.length s)%nat).
Proof.
  induction s as [|a s [IH1 IH2]].
  - split; [reflexivity | discriminate].
  - rewrite split_char_cons, contains_char_cons.
    destruct (split_nonempty c s) as (h & t & Hs). rewrite Hs in *.
    destruct (bool_decide (c = a)) eqn:Ha; simpl orb.
    + rewrite last_cons_cons. simpl String.length. split; intros; lia.
    + unfold Py.cons_head. destruct t as [|h' t].
      * unfold Py.last in *. cbn [List.last] in *. simpl String.length. split; [lia|].
        intros Hc. specialize (IH2 Hc). lia.
      * rewrite last_cons_cons. rewrite last_cons_cons in IH1, IH2.
        simpl String.length. split; [lia|].
        intros Hc. specialize (IH2 Hc). lia.
Qed.

Lemma split_char_first_length (c : ascii) (s : string) :
  (String.length (Py.first (Py.split (String c "") s)) ≤ String.length s)%nat
  ∧ (Py.contains (String c "") s = true →
     (String.length (Py.first (Py.split (String c "") s)) < String.length s)%nat).
Proof.
  induction s as [|a s [IH1 IH2]].
  - split; [reflexivity | discriminate].
  - rewrite split_char_cons, contains_char_cons.
    destruct (bool_decide (c = a)) eqn:Ha; simpl orb.
    + simpl. split; intros; lia.
    + rewrite first_cons_head. simpl String.length. split; [lia|].
      intros Hc. specialize (IH2 Hc). lia.
Qed.

(** * Header dictionaries *)

Lemma headers_dict_lookup_from (hs : list Header) (d : gmap string string) (key : string) :
  foldl (λ d h, <[name h := value h]> d) d hs !! key
  = match find_last key hs with
    | Some v => Some v
    | None => d !! key
    end.
Proof.
  revert d. induction hs as [|h hs IH]; intros d; [reflexivity|].
  cbn [foldl find_last]. rewrite IH.
  destruct (find_last key hs); [reflexivity|].
  destruct (String.eqb_spec (name h) key) as [<-|Hne].
  - apply lookup_insert_eq.
  - apply lookup_insert_ne, Hne.
Qed.

(** Looking a name up in the dictionary gives the last header stored under
    exactly that name. *)
Lemma headers_dict_lookup (hs : list Header) (key : string) :
  headers_dict hs !! key = find_last key hs.
Proof.
  unfold headers_dict. rewrite headers_dict_lookup_from.
  destruct (find_last key hs); [reflexivity | apply lookup_empty].
Qed.

Lemma find_last_none (key : string) (hs : list Header) :
  (∀ h, In h hs → name h ≠ key) → find_last key hs = None.
Proof.
  induction hs as [|h hs IH]; intros Hall; [reflexivity|].
  cbn [find_last]. rewrite IH by (intros h' Hin; apply Hall; right; exact Hin).
  destruct (String.eqb_spec (name h) key) as [Heq|Hne]; [|reflexivity].
  exfalso. apply (Hall h); [left; reflexivity | exact Heq].
Qed.

(** * The headers of a reply *)

Section ReplyHeaders.

Variables (original : Message) (p : MessagePart) (hs : list Header).
Variables (body : string) (html_body : option string).
Hypothesis Hpayload : payload original = Some p.
Hypothesis Hheaders : headers p = Some hs.

Let d := headers_dict hs.
Let reply := reply_to_message original body html_body.

Lemma reply_returns : ∃ m, reply = Ok m.
Proof.
  unfold reply, reply_to_message. rewrite Hpayload. cbn [subscript bind].
  rewrite Hheaders. cbn [subscript bind]. eexists. reflexivity.
Qed.

Lemma reply_to :
  header_of "To" reply
  = Some (Py.first (Py.split ">" (Py.last (Py.split "<" (get d "From"))))).
Proof.
  unfold reply, reply_to_message. rewrite Hpayload. cbn [subscript bind].
  rewrite Hheaders. reflexivity.
Qed.

Lemma reply_subject :
  header_of "Subject" reply
  = Some (if Py.startswith (get d "Subject") "Re:" then get d "Subject"
          else "Re: " +:+ get d "Subject").
Proof.
  unfold reply, reply_to_message. rewrite Hpayload. cbn [subscript bind].
  rewrite Hheaders. cbn [subscript bind header_of mime_headers assoc String.eqb Ascii.eqb Bool.eqb].
  fold d. destruct (Py.startswith (get d "Subject") "Re:"); reflexivity.
Qed.

Lemma reply_in_reply_to :
  header_of "In-Reply-To" reply = Some (get d "Message-ID").
Proof.
  unfold reply, reply_to_message. rewrite Hpayload. cbn [subscript bind].
  rewrite Hheaders. reflexivity.
Qed.

Lemma reply_references :
  header_of "References" reply
  = Some (if Py.truthy (get d "Message-ID")
          then if Py.truthy (get d "References")
               then get d "References" +:+ " " +:+ get d "Message-ID"
               else get d "Message-ID"
          else get d "References").
Proof.
  unfold reply, reply_to_message. rewrite Hpayload. cbn [subscript bind].
  rewrite Hheaders. reflexivity.
Qed.

End ReplyHeaders.

(** * Threading headers of a reply *)

(** C1 (amended).  The reply's In-Reply-To is the original's Message-ID
    (empty when there is none).  When the Message-ID is present and not
    empty, References is the original's References followed by one space
    and the Message-ID, or the Message-ID alone when the original's
    References is absent or empty.  When the Message-ID is absent or empty,
    In-Reply-To is empty and References is the original's References
    unchanged (empty when absent): nothing is fabricated. *)
Theorem reply_threading (original : Message) (p : MessagePart)
    (hs : list Header) (body : string) (html_body : option string) :
  payload original = Some p →
  headers p = Some hs →
  let d := headers_dict hs in
  let reply := reply_to_message original body html_body in
  header_of "In-Reply-To" reply = Some (get d "Message-ID")
  ∧ (∀ mid refs,
       d !! "Message-ID" = Some mid → mid ≠ "" →
       d !! "References" = Some refs → refs ≠ "" →
       header_of "References" reply = Some (refs +:+ " " +:+ mid))
  ∧ (∀ mid,
       d !! "Message-ID" = Some mid → mid ≠ "" →
       (d !! "References" = None ∨ d !! "References" = Some "") →
       header_of "References" reply = Some mid)
  ∧ ((d !! "Message-ID" = None ∨ d !! "Message-ID" = Some "") →
     header_of "In-Reply-To" reply = Some ""
     ∧ header_of "References" reply = Some (get d "References")).
Proof.
  intros Hp Hh d reply.
  pose proof (reply_in_reply_to original p hs body html_body Hp Hh) as Hirt.
  pose proof (reply_references original p hs body html_body Hp Hh) as Href.
  fold d reply in Hirt, Href.
  split; [exact Hirt|]. split; [|split].
  - intros mid refs Hmid Hne Hrefs Hne'. rewrite Href. unfold get.
    rewrite Hmid, Hrefs. cbn [default].
    destruct mid; [congruence|]. destruct refs; [congruence|]. reflexivity.
  - intros mid Hmid Hne Hrefs. rewrite Href. unfold get. rewrite Hmid. cbn [default].
    destruct mid; [congruence|]. destruct Hrefs as [-> | ->]; reflexivity.
  - intros Hmid. rewrite Hirt, Href. unfold get.
    destruct Hmid as [-> | ->]; split; reflexivity.
Qed.

Lemma reply_threading_witness :
  header_of "References" (reply_to_message thread_original "Thanks" None)
  = Some "<a> <b> <c>".
Proof.
  destruct (reply_threading thread_original _ _ "Thanks" None eq_refl eq_refl)
    as (_ & H & _).
  apply (H "<c>" "<a> <b>").
  - rewrite headers_dict_lookup. reflexivity.
  - discriminate.
  - rewrite headers_dict_lookup. reflexivity.
  - discriminate.
Defined.

(** C1 as stated fails: the original has References but no Message-ID, and
    the reply's References is the original's, not the empty string. *)
Lemma reply_references_without_message_id :
  headers_dict
    [mkHeader "From" "Alice <alice@example.com>"; mkHeader "References" "<a> <b>"]
    !! "Message-ID" = None
  ∧ header_of "In-Reply-To" (reply_to_message no_message_id "Thanks" None) = Some ""
  ∧ header_of "References" (reply_to_message no_message_id "Thanks" None)
    = Some "<a> <b>"
  ∧ header_of "References" (reply_to_message no_message_id "Thanks" None) ≠ Some "".
Proof.
  assert (H : header_of "References" (reply_to_message no_message_id "Thanks" None)
              = Some "<a> <b>").
  { rewrite (reply_references no_message_id _ _ "Thanks" None eq_refl eq_refl).
    unfold get. rewrite !headers_dict_lookup. reflexivity. }
  split; [rewrite headers_dict_lookup; reflexivity|]. split; [|split].
  - rewrite (reply_in_reply_to no_message_id _ _ "Thanks" None eq_refl eq_refl).
    unfold get. rewrite headers_dict_lookup. reflexivity.
  - exact H.
  - rewrite H. discriminate.
Qed.

(** * The address a reply is sent to *)

(** C5 (amended).  The reply's To is the bare address of the last
    <...>-delimited group of the original's From: the text after the last
    '<' up to the next '>'.  What lies outside that group, earlier groups
    included, is discarded. *)
Theorem reply_target_address (original : Message) (p : MessagePart)
    (hs : list Header) (body : string) (html_body : option string)
    (pre addr post : string) :
  payload original = Some p →
  headers p = Some hs →
  get (headers_dict hs) "From" = pre +:+ "<" +:+ addr +:+ ">" +:+ post →
  Py.contains "<" addr = false →
  Py.contains ">" addr = false →
  Py.contains "<" post = false →
  header_of "To" (reply_to_message original body html_body) = Some addr.
Proof.
  intros Hp Hh Hfrom Hlt Hgt Hpost.
  rewrite (reply_to original p hs body html_body Hp Hh), Hfrom.
  change ("<" +:+ addr +:+ ">" +:+ post) with (String "<" (addr +:+ String ">" post)).
  rewrite split_char_last.
  - rewrite split_char_first by exact Hgt. reflexivity.
  - rewrite contains_char_append, Hlt, contains_char_cons, Hpost. reflexivity.
Qed.

Lemma reply_target_address_witness :
  header_of "To" (reply_to_message two_addresses "Thanks" None) = Some "b@y".
Proof.
  apply (reply_target_address two_addresses _ _ "Thanks" None "A <a@x>, B " "b@y" "" eq_refl eq_refl).
  - unfold get. rewrite headers_dict_lookup. reflexivity.
  - reflexivity.
  - reflexivity.
  - reflexivity.
Defined.

(** C5 as stated fails: with two <...>-delimited addresses in From the
    reply goes to the last one, not the first. *)
Lemma reply_target_is_last_address :
  headers_dict [mkHeader "From" "A <a@x>, B <b@y>"] !! "From"
  = Some "A <a@x>, B <b@y>"
  ∧ header_of "To" (reply_to_message two_addresses "Thanks" None) = Some "b@y"
  ∧ header_of "To" (reply_to_message two_addresses "Thanks" None) ≠ Some "a@x".
Proof.
  assert (H : header_of "To" (reply_to_message two_addresses "Thanks" None) = Some "b@y").
  { rewrite (reply_to two_addresses _ _ "Thanks" None eq_refl eq_refl).
    unfold get. rewrite headers_dict_lookup. reflexivity. }
  split; [rewrite headers_dict_lookup; reflexivity|]. split; [exact H|]. rewrite H. discriminate.
Qed.

(** C10 (amended).  With the headers present the reply is built without
    raising; a From value without angle brackets is the reply's To,
    unmodified; and the bracket rule alters exactly the From values that
    contain '<' or '>' (one of them is enough). *)
Theorem reply_target_without_brackets (original : Message) (p : MessagePart)
    (hs : list Header) (body : string) (html_body : option string) :
  payload original = Some p →
  headers p = Some hs →
  let from := get (headers_dict hs) "From" in
  let reply := reply_to_message original body html_body in
  (∃ m, reply = Ok m)
  ∧ (Py.contains "<" from = false → Py.contains ">" from = false →
     header_of "To" reply = Some from)
  ∧ (header_of "To" reply = Some from
     ↔ Py.contains "<" from = false ∧ Py.contains ">" from = false).
Proof.
  intros Hp Hh from reply.
  pose proof (reply_to original p hs body html_body Hp Hh) as Hto.
  fold from reply in Hto.
  assert (Hkeep : Py.contains "<" from = false → Py.contains ">" from = false →
                  header_of "To" reply = Some from).
  { intros Hlt Hgt. rewrite Hto, (split_char_absent _ _ Hlt).
    unfold Py.last. cbn [List.last]. rewrite (split_char_absent _ _ Hgt). reflexivity. }
  split; [exact (reply_returns original p hs body html_body Hp Hh)|].
  split; [exact Hkeep|]. split; [|intros [Hlt Hgt]; auto].
  rewrite Hto. intros [= Heq].
  pose proof (split_char_last_length "<" from) as [Hl1 Hl2].
  pose proof (split_char_first_length ">" (Py.last (Py.split "<" from))) as [Hf1 Hf2].
  rewrite Heq in Hf1, Hf2.
  destruct (Py.contains "<" from) eqn:Hlt.
  - specialize (Hl2 eq_refl). lia.
  - split; [reflexivity|].
    rewrite (split_char_absent _ _ Hlt) in Hf2. unfold Py.last in Hf2. cbn [List.last] in Hf2.
    destruct (Py.contains ">" from); [specialize (Hf2 eq_refl); lia | reflexivity].
Qed.

Lemma reply_target_without_brackets_witness :
  header_of "To" (reply_to_message bare_address "Thanks" None)
  = Some "alice@example.com".
Proof.
  destruct (reply_target_without_brackets bare_address _ _ "Thanks" None eq_refl eq_refl)
    as (_ & H & _).
  unfold get in H. rewrite headers_dict_lookup in H.
  apply H; reflexivity.
Defined.

(** C10 as stated fails on its last clause: a From value with '<' but no
    '>' is altered as well. *)
Lemma reply_target_open_bracket :
  headers_dict [mkHeader "From" "<alice@example.com"] !! "From"
  = Some "<alice@example.com"
  ∧ Py.contains ">" "<alice@example.com" = false
  ∧ header_of "To" (reply_to_message open_bracket "Thanks" None)
    = Some "alice@example.com"
  ∧ header_of "To" (reply_to_message open_bracket "Thanks" None)
    ≠ Some "<alice@example.com".
Proof.
  assert (H : header_of "To" (reply_to_message open_bracket "Thanks" None)
              = Some "alice@example.com").
  { rewrite (reply_to open_bracket _ _ "Thanks" None eq_refl eq_refl).
    unfold get. rewrite headers_dict_lookup. reflexivity. }
  split; [rewrite headers_dict_lookup; reflexivity|]. split; [reflexivity|]. split; [exact H|].
  rewrite H. discriminate.
Qed.

(** * Subject prefixes *)

Section ForwardSubject.

Variables (original : Message) (data bytes raw_message : string).
Variables (d : gmap string string) (to : string) (additional_body : option string).
Hypothesis Hraw : raw original = Some data.
Hypothesis Hb64 : Base64.urlsafe_b64decode data = Ok bytes.
Hypothesis Hutf8 : Utf8.decode bytes = Ok raw_message.
Hypothesis Hdict : raw_headers raw_message = Ok d.

Lemma forward_subject :
  header_of "Subject" (forward_message original to additional_body)
  = Some (if Py.startswith (Py.strip (get d "Subject")) "Fwd:"
          then Py.strip (get d "Subject")
          else "Fwd: " +:+ Py.strip (get d "Subject")).
Proof.
  unfold forward_message. rewrite Hraw. cbn [subscript bind].
  rewrite Hb64. cbn [bind]. rewrite Hutf8. cbn [bind]. rewrite Hdict.
  cbn [bind header_of mime_headers assoc String.eqb Ascii.eqb Bool.eqb].
  destruct (Py.startswith (Py.strip (get d "Subject")) "Fwd:"); reflexivity.
Qed.

End ForwardSubject.

Lemma startswith_append (p s : string) : Py.startswith (p +:+ s) p = true.
Proof. apply prefix_append. Qed.

(** C6.  A reply's Subject is the original's with "Re: " put in front only
    when the original's does not start with "Re:" (compared byte for byte):
    a Subject "Re: X" stays "Re: X", and replying to a message that carries
    a reply's Subject leaves that Subject as it is.  A forward's Subject
    follows the same rule with "Fwd:", on the stripped Subject of the raw
    message. *)
Theorem subject_prefix_idempotent :
  (∀ (original : Message) (p : MessagePart) (hs : list Header)
     (body : string) (html_body : option string),
     payload original = Some p →
     headers p = Some hs →
     let s := get (headers_dict hs) "Subject" in
     let r := header_of "Subject" (reply_to_message original body html_body) in
     (Py.startswith s "Re:" = true → r = Some s)
     ∧ (Py.startswith s "Re:" = false → r = Some ("Re: " +:+ s))
     ∧ (∀ X, s = "Re: " +:+ X → r = Some ("Re: " +:+ X))
     ∧ (∀ (original' : Message) (p' : MessagePart) (hs' : list Header)
          (body' : string) (html_body' : option string),
          payload original' = Some p' →
          headers p' = Some hs' →
          Some (get (headers_dict hs') "Subject") = r →
          header_of "Subject" (reply_to_message original' body' html_body') = r))
  ∧ (∀ (original : Message) (data bytes raw_message : string)
       (d : gmap string string) (to : string) (additional_body : option string),
       raw original = Some data →
       Base64.urlsafe_b64decode data = Ok bytes →
       Utf8.decode bytes = Ok raw_message →
       raw_headers raw_message = Ok d →
       let s := Py.strip (get d "Subject") in
       let r := header_of "Subject" (forward_message original to additional_body) in
       (Py.startswith s "Fwd:" = true → r = Some s)
       ∧ (Py.startswith s "Fwd:" = false → r = Some ("Fwd: " +:+ s))
       ∧ (∀ X, s = "Fwd: " +:+ X → r = Some ("Fwd: " +:+ X))).
Proof.
  split.
  - intros original p hs body html_body Hp Hh s r.
    pose proof (reply_subject original p hs body html_body Hp Hh) as Hr.
    fold s r in Hr.
    assert (Hprefixed : ∃ t, r = Some t ∧ Py.startswith t "Re:" = true).
    { rewrite Hr. destruct (Py.startswith s "Re:") eqn:Hs.
      - exists s. split; [reflexivity | exact Hs].
      - exists ("Re: " +:+ s). split; [reflexivity|].
        change ("Re: " +:+ s) with ("Re:" +:+ String " " s). apply startswith_append. }
    split; [|split; [|split]].
    + intros Hs. rewrite Hr, Hs. reflexivity.
    + intros Hs. rewrite Hr, Hs. reflexivity.
    + intros X HX. rewrite Hr, HX.
      change ("Re: " +:+ X) with ("Re:" +:+ String " " X).
      rewrite startswith_append. reflexivity.
    + intros original' p' hs' body' html_body' Hp' Hh' Hsame.
      rewrite (reply_subject original' p' hs' body' html_body' Hp' Hh').
      destruct Hprefixed as (t & Ht & Hpre). rewrite Ht in Hsame |- *.
      injection Hsame as ->. rewrite Hpre. reflexivity.
  - intros original data bytes raw_message d to additional_body Hraw Hb64 Hutf8 Hd s r.
    pose proof (forward_subject original data bytes raw_message d to additional_body
                  Hraw Hb64 Hutf8 Hd) as Hr.
    fold s r in Hr.
    split; [|split].
    + intros Hs. rewrite Hr, Hs. reflexivity.
    + intros Hs. rewrite Hr, Hs. reflexivity.
    + intros X HX. rewrite Hr, HX.
      change ("Fwd: " +:+ X) with ("Fwd:" +:+ String " " X).
      rewrite startswith_append. reflexivity.
Qed.

Lemma subject_prefix_idempotent_witness :
  header_of "Subject" (reply_to_message thread_original "Thanks" None)
  = Some "Re: Hello"
  ∧ header_of "Subject" (reply_to_message already_replied "Thanks" None)
    = Some "Re: Hello"
  ∧ header_of "Subject" (forward_message (raw_of forwarded_text) "bob@example.com" None)
    = Some "Fwd: Hello".
Proof.
  destruct subject_prefix_idempotent as [Hreply Hforward].
  destruct (Hreply thread_original _ _ "Thanks" None eq_refl eq_refl)
    as (_ & Hadd & _ & Hagain).
  assert (H1 : header_of "Subject" (reply_to_message thread_original "Thanks" None)
               = Some "Re: Hello").
  { rewrite Hadd.
    - unfold get. rewrite headers_dict_lookup. reflexivity.
    - unfold get. rewrite headers_dict_lookup. reflexivity. }
  split; [exact H1|]. split.
  - rewrite (Hagain already_replied _ _ "Thanks" None eq_refl eq_refl); [exact H1|].
    rewrite H1. unfold get. rewrite headers_dict_lookup. reflexivity.
  - assert (Hd : ∃ d, raw_headers forwarded_text = Ok d
                      ∧ Py.strip (get d "Subject") = "Fwd: Hello").
    { eexists. split; [reflexivity|]. vm_compute. reflexivity. }
    destruct Hd as (d & Hd & Hs).
    destruct (Hforward (raw_of forwarded_text) _ _ forwarded_text d "bob@example.com" None
                eq_refl ltac:(vm_compute; reflexivity) ltac:(vm_compute; reflexivity) Hd)
      as (Hkeep & _).
    rewrite Hkeep; rewrite Hs; reflexivity.
Defined.

(** * Header extraction *)

Lemma split_go_exhausted (sep s : string) : Py.split_go sep (Some 0) 0 s = [s].
Proof. destruct s; reflexivity. Qed.

(** A line that contains a colon splits at its first colon into exactly a
    name and a value, whatever colons the value contains. *)
Lemma split_first_colon_pair (line : string) :
  Py.contains ":" line = true →
  ∃ k v, Py.split_max ":" 1 line = [k; v] ∧ line = k +:+ ":" +:+ v.
Proof.
  induction line as [|a line IH]; [discriminate|].
  rewrite contains_char_cons. unfold Py.split_max. cbn [Py.split_go].
  rewrite prefix_char. destruct (bool_decide_reflect (":"%char = a)) as [<-|Hne].
  - intros _. exists "", line. cbn [fmap option_fmap option_map pred String.length Nat.sub].
    rewrite split_go_exhausted. split; reflexivity.
  - cbn [orb]. intros Hc. destruct (IH Hc) as (k & v & Hkv & Hline).
    unfold Py.split_max in Hkv. rewrite Hkv. exists (String a k), v.
    split; [reflexivity|]. rewrite Hline at 1. reflexivity.
Qed.

Lemma dict_of_lines_returns (lines : list string) (d : gmap string string) :
  ∃ d', dict_of_lists d
          (map (Py.split_max ":" 1)
             (filter (λ line, Py.contains ":" line = true) lines)) = Ok d'.
Proof.
  revert d. induction lines as [|line lines IH]; intros d.
  - exists d. reflexivity.
  - rewrite filter_cons. destruct (decide (Py.contains ":" line = true)) as [Hc|Hc].
    + destruct (split_first_colon_pair line Hc) as (k & v & Hkv & _).
      cbn [map]. rewrite Hkv. cbn [dict_of_lists]. apply IH.
    + apply IH.
Qed.

(** Building the header dictionary of a raw message never raises. *)
Lemma raw_headers_returns (raw_message : string) :
  ∃ d, raw_headers raw_message = Ok d.
Proof. unfold raw_headers. apply dict_of_lines_returns. Qed.

(** * The structure of a sent message *)

Lemma split_first_slash_pair (content_type : string) :
  Py.contains "/" content_type = true →
  ∃ k v, Py.split_max "/" 1 content_type = [k; v].
Proof.
  induction content_type as [|a t IH]; [discriminate|].
  rewrite contains_char_cons. unfold Py.split_max. cbn [Py.split_go].
  rewrite prefix_char. destruct (bool_decide_reflect ("/"%char = a)) as [<-|Hne].
  - intros _. exists "", t. cbn [fmap option_fmap option_map pred String.length Nat.sub].
    rewrite split_go_exhausted. reflexivity.
  - cbn [orb]. intros Hc. destruct (IH Hc) as (k & v & Hkv).
    unfold Py.split_max in Hkv. rewrite Hkv. exists (String a k), v. reflexivity.
Qed.

Lemma split_octet_stream :
  Py.split_max "/" 1 "application/octet-stream" = ["application"; "octet-stream"].
Proof. vm_compute. reflexivity. Qed.

Section SendStructure.

Variable isfile : string → bool.
Variable read_file : string → result string.
Variable guess_type : string → option string * option string.

Abbreviation attach := (attach_all isfile read_file guess_type).
Abbreviation send := (send_message isfile read_file guess_type).

(** One part per path that is a file, in the order of the paths, each an
    attachment named by the base name of its path. *)
Lemma attach_all_files (paths : list string) (files : list mime) :
  attach paths = Ok files →
  Forall is_attachment files
  ∧ map attachment_filename files
    = map basename (filter (λ path, isfile path = true) paths).
Proof.
  revert files. induction paths as [|path paths IH]; intros files.
  - intros [= <-]. split; [constructor | reflexivity].
  - cbn [attach_all]. rewrite filter_cons.
    unfold attachment_part.
    destruct (isfile path) eqn:Hfile.
    + destruct (guess_type path) as [ct enc].
      destruct (Py.split_max "/" 1 _) as [|main_type [|sub_type [|? ?]]];
        cbn [bind]; try discriminate.
      destruct (read_file path) as [content|e]; cbn [bind]; [|discriminate].
      destruct (attach paths) as [others|e]; cbn [bind]; [|discriminate].
      intros [= <-]. destruct (IH others eq_refl) as [Hall Hnames].
      rewrite decide_True by reflexivity.
      split; [constructor; [exact I | exact Hall]|].
      cbn [map attachment_filename]. rewrite Hnames. reflexivity.
    + cbn [bind]. destruct (attach paths) as [others|e]; cbn [bind]; [|discriminate].
      intros [= <-]. rewrite decide_False by discriminate. apply IH. reflexivity.
Qed.

(** The attachments are read when every path that is a file can be read
    and has a guessed content type with a slash in it. *)
Lemma attach_all_returns (paths : list string) :
  (∀ path, In path paths → isfile path = true →
     (∃ content, read_file path = Ok content)
     ∧ ∀ ct, guess_type path = (Some ct, None) → Py.contains "/" ct = true) →
  ∃ files, attach paths = Ok files.
Proof.
  induction paths as [|path paths IH]; intros Hall.
  - exists []. reflexivity.
  - destruct IH as [others Hothers]; [intros q Hq; apply Hall; right; exact Hq|].
    cbn [attach_all]. rewrite Hothers.
    unfold attachment_part.
    destruct (isfile path) eqn:Hfile; [|eexists; reflexivity].
    destruct (Hall path (or_introl eq_refl) Hfile) as [[content Hread] Htype].
    destruct (guess_type path) as [[ct|] [enc|]];
      try (rewrite split_octet_stream, Hread; eexists; reflexivity).
    destruct (split_first_slash_pair ct (Htype ct eq_refl)) as (k & v & ->).
    rewrite Hread. eexists. reflexivity.
Qed.

(** Without an HTML body everything is attached to one multipart/mixed
    container, the plain body first. *)
Lemma send_message_mixed (to subject body : string)
    (cc bcc html_body : option string) (attachments : option (list string))
    (files : list mime) :
  Py.truthy_opt html_body = false →
  attach (default [] attachments) = Ok files →
  send to subject body cc bcc html_body attachments
  = Ok (MIMEMultipart "mixed"
          ([("To", to); ("Subject", subject)]
           ++ optional_header "Cc" cc ++ optional_header "Bcc" bcc)%list
          (MIMEText body "plain" :: files)).
Proof.
  intros Hhtml Hfiles. unfold send_message. rewrite Hhtml.
  assert (Hatt : match attachments with
                 | Some l => attach l
                 | None => Ok []
                 end = Ok files).
  { destruct attachments; exact Hfiles. }
  rewrite Hatt. cbn [bind].
  destruct html_body as [[|? ?]|]; try discriminate; reflexivity.
Qed.

(** C2 (amended).  The message is always one multipart container whose
    first child is the text/plain body.  Without an HTML body the
    container is multipart/mixed and its children are the body followed by
    one attachment per path that is a file, in order, as siblings; for a
    plain body alone it is a multipart/mixed container holding the single
    text/plain part.  With an HTML body and no attachments the container
    is multipart/alternative and holds the plain and the HTML body. *)
Theorem send_message_structure (to subject body : string)
    (cc bcc html_body : option string) (attachments : option (list string)) :
  let sent := send to subject body cc bcc html_body attachments in
  (Py.truthy_opt html_body = false →
   (∀ files, attach (default [] attachments) = Ok files →
      ∃ hdrs, sent = Ok (MIMEMultipart "mixed" hdrs (MIMEText body "plain" :: files))
              ∧ Forall is_attachment files
              ∧ map attachment_filename files
                = map basename
                    (filter (λ path, isfile path = true) (default [] attachments)))
   ∧ (default [] attachments = [] →
      shape_of_result sent = Some (Group "mixed" [Leaf "text/plain"])))
  ∧ (∀ h, html_body = Some h → Py.truthy h = true →
     default [] attachments = [] →
     ∃ hdrs, sent = Ok (MIMEMultipart "alternative" hdrs
                          [MIMEText body "plain"; MIMEText h "html"]))
  ∧ ((∀ path, In path (default [] attachments) → isfile path = true →
        (∃ content, read_file path = Ok content)
        ∧ ∀ ct, guess_type path = (Some ct, None) → Py.contains "/" ct = true) →
     ∃ subtype hdrs children,
       sent = Ok (MIMEMultipart subtype hdrs (MIMEText body "plain" :: children))).
Proof.
  intros sent. split; [|split].
  - intros Hhtml. split.
    + intros files Hfiles. eexists.
      split; [|exact (attach_all_files _ _ Hfiles)].
      apply send_message_mixed; assumption.
    + intros Hnone. unfold sent, send_message. rewrite Hhtml.
      destruct attachments as [l|]; simpl in Hnone; [subst l|];
        cbn [attach_all bind];
        destruct html_body as [[|? ?]|]; try discriminate; reflexivity.
  - intros h -> Hh Hnone. eexists.
    unfold sent, send_message. cbn [Py.truthy_opt]. rewrite Hh.
    destruct attachments as [l|]; simpl in Hnone; [subst l|]; reflexivity.
  - intros Hall. destruct (attach_all_returns _ Hall) as [files Hfiles].
    assert (Hatt : match attachments with
                   | Some l => attach l
                   | None => Ok []
                   end = Ok files).
    { destruct attachments; exact Hfiles. }
    unfold sent, send_message. rewrite Hatt. cbn [bind].
    eexists _, _, _. reflexivity.
Qed.

End SendStructure.

Lemma send_message_structure_witness :
  shape_of_result
    (send_message one_file read_pdf guess_pdf "bob@example.com" "Report" "See attached."
       None None None (Some ["/tmp/report.pdf"; "/tmp/missing.txt"]))
  = Some (Group "mixed" [Leaf "text/plain"; Leaf "application/pdf"])
  ∧ shape_of_result
      (send_message one_file read_pdf guess_pdf "bob@example.com" "Hi" "plain"
         None None (Some "<p>html</p>") None)
    = Some (Group "alternative" [Leaf "text/plain"; Leaf "text/html"]).
Proof.
  split.
  - destruct (send_message_structure one_file read_pdf guess_pdf
                "bob@example.com" "Report" "See attached." None None None
                (Some ["/tmp/report.pdf"; "/tmp/missing.txt"])) as [[H _] _];
      [reflexivity|].
    destruct (H [MIMEBase "application" "pdf" "%PDF" "report.pdf"] eq_refl)
      as (hdrs & -> & _).
    reflexivity.
  - destruct (send_message_structure one_file read_pdf guess_pdf
                "bob@example.com" "Hi" "plain" None None (Some "<p>html</p>") None)
      as (_ & H & _).
    destruct (H "<p>html</p>" eq_refl eq_refl eq_refl) as (hdrs & ->).
    reflexivity.
Defined.

(** C2 as stated fails.  A plain body alone is sent as a multipart/mixed
    container around the text part, not as a single text/plain part; and an
    HTML body with an attachment is sent as one multipart/alternative
    container that holds the attachment next to the two bodies. *)
Lemma send_message_containers :
  shape_of_result
    (send_message one_file read_pdf guess_pdf "bob@example.com" "Hi" "hello"
       None None None None)
  = Some (Group "mixed" [Leaf "text/plain"])
  ∧ shape_of_result
      (send_message one_file read_pdf guess_pdf "bob@example.com" "Hi" "hello"
         None None None None)
    ≠ Some (encode_shape_spec false [])
  ∧ shape_of_result
      (send_message one_file read_pdf guess_pdf "bob@example.com" "Report" "See attached."
         None None (Some "<p>See attached.</p>") (Some ["/tmp/report.pdf"]))
    = Some (Group "alternative"
              [Leaf "text/plain"; Leaf "text/html"; Leaf "application/pdf"])
  ∧ shape_of_result
      (send_message one_file read_pdf guess_pdf "bob@example.com" "Report" "See attached."
         None None (Some "<p>See attached.</p>") (Some ["/tmp/report.pdf"]))
    ≠ Some (encode_shape_spec true ["application/pdf"]).
Proof.
  split; [reflexivity|]. split; [discriminate|].
  split; [reflexivity|]. discriminate.
Qed.

(** * Decoding the text of an inbound message *)

Lemma body_loop_raise (e : exn) (ps : list MessagePart) :
  foldl body_loop_step (Raise e) ps = Raise e.
Proof. induction ps as [|part ps IH]; [reflexivity | exact IH]. Qed.

(** The loop over the sub-parts collects, after what it already holds, the
    decoded text of every text/plain sub-part that carries data. *)
Lemma body_loop_spec (ps : list MessagePart) (acc : list string) :
  Forall well_formed_part ps →
  foldl body_loop_step (Ok acc) ps
  = result_map (λ texts, acc ++ texts)%list (decode_each (text_plain_data ps)).
Proof.
  intros Hwf. revert acc. induction Hwf as [|part ps [Hmt Hbody] _ IH]; intros acc.
  - cbn. rewrite app_nil_r. reflexivity.
  - cbn [foldl]. unfold text_plain_data. cbn [omap list_omap].
    fold (text_plain_data ps). unfold body_loop_step at 2. cbn [bind].
    destruct (mimeType part) as [mt|] eqn:Emt; [|congruence]. cbn [subscript bind].
    destruct (String.eqb_spec mt "text/plain") as [->|Hne].
    + rewrite bool_decide_eq_true_2 by reflexivity.
      destruct (body part) as [b|] eqn:Eb; [|exfalso; apply Hbody; reflexivity].
      cbn [subscript bind mbind option_bind].
      destruct (data b) as [body_data|].
      * cbn [decode_each]. destruct (decode_data body_data) as [body_text|e]; cbn [bind].
        -- rewrite IH. destruct (decode_each (text_plain_data ps)); cbn [bind result_map];
             [rewrite <- app_assoc|]; reflexivity.
        -- apply body_loop_raise.
      * apply IH.
    + rewrite bool_decide_eq_false_2 by congruence. apply IH.
Qed.

(** C4 (amended).  Without a payload the text is empty.  With sub-parts, the
    text is the base64url- and UTF-8-decoded data of each direct sub-part
    that declares text/plain and carries data, each decoded on its own and
    joined by single newlines, every other sub-part being ignored; it is
    the empty string when there is no such sub-part, and an exception only
    when one of those payloads does not decode.  Without sub-parts, the text
    is the decoded top-level body when it carries data, whatever type the
    message declares, and the empty string otherwise. *)
Theorem get_message_body_spec (message : Message) :
  (payload message = None → get_message_body message = Ok "")
  ∧ (∀ p ps,
       payload message = Some p → parts p = Some ps →
       Forall well_formed_part ps →
       get_message_body message
       = result_map (Py.join LF) (decode_each (text_plain_data ps))
       ∧ (text_plain_data ps = [] → get_message_body message = Ok "")
       ∧ (∀ texts, decode_each (text_plain_data ps) = Ok texts →
            get_message_body message = Ok (Py.join LF texts)))
  ∧ (∀ p,
       payload message = Some p → parts p = None →
       get_message_body message
       = match body p ≫= data with
         | Some body_data => decode_data body_data
         | None => Ok ""
         end).
Proof.
  split; [|split].
  - intros Hp. unfold get_message_body. rewrite Hp. reflexivity.
  - intros p ps Hp Hps Hwf.
    assert (Heq : get_message_body message
                  = result_map (Py.join LF) (decode_each (text_plain_data ps))).
    { unfold get_message_body. rewrite Hp, Hps, (body_loop_spec ps [] Hwf).
      destruct (decode_each (text_plain_data ps)); reflexivity. }
    split; [exact Heq|]. split.
    + intros Hnone. rewrite Heq, Hnone. reflexivity.
    + intros texts Htexts. rewrite Heq, Htexts. reflexivity.
  - intros p Hp Hps. unfold get_message_body. rewrite Hp, Hps.
    destruct (body p) as [[[body_data|]]|]; cbn [mbind option_bind data bind];
      [|reflexivity|reflexivity].
    destruct (decode_data body_data); reflexivity.
Qed.

Lemma get_message_body_spec_witness :
  get_message_body foo_bar = Ok ("foo" +:+ LF +:+ "bar").
Proof.
  destruct (get_message_body_spec foo_bar) as (_ & H & _).
  destruct (H _ _ eq_refl eq_refl) as (_ & _ & Hdecoded).
  - repeat constructor; cbn; congruence.
  - apply (Hdecoded ["foo"; "bar"]). reflexivity.
Defined.

(** C4 as stated fails.  A single-part text/html message has no text/plain
    content anywhere, yet its markup is returned; and a single-part binary
    message whose body is not UTF-8 makes the decoding raise. *)
Lemma get_message_body_without_text_plain :
  (∀ p, payload html_only = Some p → has_text_plain p = false)
  ∧ get_message_body html_only = Ok "<p>hi</p>"
  ∧ get_message_body html_only ≠ Ok ""
  ∧ (∀ p, payload binary_only = Some p → has_text_plain p = false)
  ∧ get_message_body binary_only = Raise UnicodeDecodeError.
Proof.
  split; [intros p [= <-]; reflexivity|].
  split; [reflexivity|]. split; [discriminate|].
  split; [intros p [= <-]; reflexivity|]. reflexivity.
Qed.

(** * base64url: decoding what was encoded *)

Lemma forallb_below (P : N → bool) (k : nat) :
  forallb P (below k) = true → ∀ n, (n < N.of_nat k)%N → P n = true.
Proof.
  intros Hall n Hn. rewrite forallb_forall in Hall. apply Hall.
  unfold below. rewrite <- (N2Nat.id n). apply in_map, in_seq. lia.
Qed.

Lemma sextet_char_ok_all (n : N) : (n < 64)%N → sextet_char_ok n = true.
Proof. apply (forallb_below sextet_char_ok 64). vm_compute. reflexivity. Qed.

Lemma sextets_xy_ok_all (x y : N) :
  (x < 256)%N → (y < 256)%N → sextets_xy_ok x y = true.
Proof.
  intros Hx Hy.
  apply (forallb_below (λ x, forallb (sextets_xy_ok x) (below 256)) 256) in Hx;
    [|vm_compute; reflexivity].
  exact (forallb_below _ 256 Hx y Hy).
Qed.

Lemma sextets_yz_ok_all (y z : N) :
  (y < 256)%N → (z < 256)%N → sextets_yz_ok y z = true.
Proof.
  intros Hy Hz.
  apply (forallb_below (λ y, forallb (sextets_yz_ok y) (below 256)) 256) in Hy;
    [|vm_compute; reflexivity].
  exact (forallb_below _ 256 Hy z Hz).
Qed.

Lemma string_ind3 (P : string → Prop) :
  P "" →
  (∀ a, P (String a "")) →
  (∀ a b, P (String a (String b ""))) →
  (∀ a b c rest, P rest → P (String a (String b (String c rest)))) →
  ∀ s, P s.
Proof.
  intros H0 H1 H2 H3 s.
  assert (H : P s ∧ (∀ a, P (String a s)) ∧ (∀ a b, P (String a (String b s)))).
  { induction s as [|c s (IH0 & IH1 & IH2)].
    - auto.
    - split; [apply IH1|]. split; [intros a; apply IH2|]. intros a b. apply H3, IH0. }
  apply H.
Qed.

Section Base64RoundTrip.

Import Base64.

Let enc := urlsafe_encode_translation.
Let dec := urlsafe_decode_translation.

(** The character that the encoder writes for a sextet, as the decoder
    sees it after both translations. *)
Let wire (n : N) : ascii := dec (enc (table_b2a n)).

Lemma wire_not_pad (n : N) : (n < 64)%N → Ascii.eqb (wire n) PAD = false.
Proof.
  intros Hn. pose proof (sextet_char_ok_all n Hn) as H. unfold sextet_char_ok in H.
  apply andb_prop in H as [H _]. apply andb_prop in H as [_ H].
  apply negb_true_iff in H. exact H.
Qed.

Lemma wire_sextet (n : N) : (n < 64)%N → table_a2b (wire n) = n.
Proof.
  intros Hn. pose proof (sextet_char_ok_all n Hn) as H. unfold sextet_char_ok in H.
  apply andb_prop in H as [_ H]. apply N.eqb_eq in H. exact H.
Qed.

Lemma encoded_ascii (n : N) : (n < 64)%N → (N_of_ascii (enc (table_b2a n)) <? 128)%N = true.
Proof.
  intros Hn. pose proof (sextet_char_ok_all n Hn) as H. unfold sextet_char_ok in H.
  apply andb_prop in H as [H _]. apply andb_prop in H as [H _]. exact H.
Qed.

Lemma a2b_sextet (n : N) (rest : string) (quad_pos leftchar pads written : N) :
  (n < 64)%N →
  a2b_loop (String (wire n) rest) quad_pos leftchar pads written
  = if (quad_pos =? 0)%N then a2b_loop rest 1 n 0 written
    else if (quad_pos =? 1)%N then
      emit (N.lor (N.shiftl leftchar 2) (N.shiftr n 4))
           (a2b_loop rest 2 (N.land n 15) 0 (written + 1))
    else if (quad_pos =? 2)%N then
      emit (N.lor (N.shiftl leftchar 4) (N.shiftr n 2))
           (a2b_loop rest 3 (N.land n 3) 0 (written + 1))
    else emit (N.lor (N.shiftl leftchar 6) n) (a2b_loop rest 0 0 0 (written + 1)).
Proof.
  intros Hn. cbn [a2b_loop]. rewrite (wire_not_pad n Hn), (wire_sextet n Hn).
  destruct (N.leb_spec 64 n) as [Hle|_]; [lia | reflexivity].
Qed.

Lemma a2b_pad (rest : string) (quad_pos leftchar pads written : N) :
  a2b_loop (String (dec (enc PAD)) rest) quad_pos leftchar pads written
  = if (2 <=? quad_pos)%N then
      if (4 <=? quad_pos + (pads + 1))%N then Ok ""
      else a2b_loop rest quad_pos leftchar (pads + 1) written
    else a2b_loop rest quad_pos leftchar pads written.
Proof. reflexivity. Qed.

Lemma byte_of_ascii (a : ascii) (n : N) :
  (n mod 256 =? N_of_ascii a)%N = true → byte n = a.
Proof.
  intros H. apply N.eqb_eq in H. unfold byte. rewrite H. apply ascii_N_embedding.
Qed.

Lemma octet_bound (a : ascii) : (N_of_ascii a < 256)%N.
Proof. apply N_ascii_bounded. Qed.

(** Decides the closed comparisons of the decoder's padding test. *)
Ltac eval_leb :=
  repeat match goal with
         | |- context [N.leb ?a ?b] =>
             let v := eval vm_compute in (N.leb a b) in
             match v with
             | true => change (N.leb a b) with true
             | false => change (N.leb a b) with false
             end
         end.

Ltac split_ok H :=
  repeat match type of H with
         | (_ && _) = true => let H' := fresh H in apply andb_prop in H as [H H']
         end.

(** Decoding the encoding of [data] gives [data] back, and the encoding
    is ASCII. *)
Lemma a2b_b2a (data : string) :
  (∀ written,
     a2b_loop (translate dec (translate enc (b2a_base64 data))) 0 0 0 written = Ok data)
  ∧ is_ascii (translate enc (b2a_base64 data)) = true.
Proof.
  induction data as [|a|a b|a b c rest [IHdec IHascii]] using string_ind3.
  - split; reflexivity.
  - pose proof (sextets_xy_ok_all _ 0 (octet_bound a) eq_refl) as Hxy.
    unfold sextets_xy_ok in Hxy. split_ok Hxy.
    apply N.ltb_lt in Hxy, Hxy3. apply N.eqb_eq in Hxy0.
    cbn [b2a_base64 translate is_ascii]. fold enc dec.
    fold (wire (sextet0 (N_of_ascii a))) (wire (sextet1 (N_of_ascii a) 0)).
    split.
    + intros written. rewrite !a2b_sextet by assumption. cbn [N.eqb Pos.eqb].
      rewrite !a2b_pad. eval_leb. cbn [emit].
      rewrite (byte_of_ascii a _ Hxy2). reflexivity.
    + rewrite !encoded_ascii by assumption. reflexivity.
  - pose proof (sextets_xy_ok_all _ _ (octet_bound a) (octet_bound b)) as Hxy.
    pose proof (sextets_yz_ok_all _ 0 (octet_bound b) eq_refl) as Hyz.
    unfold sextets_xy_ok in Hxy. unfold sextets_yz_ok in Hyz.
    split_ok Hxy. split_ok Hyz.
    apply N.ltb_lt in Hxy, Hxy3, Hyz. apply N.eqb_eq in Hxy1.
    cbn [b2a_base64 translate is_ascii]. fold enc dec.
    fold (wire (sextet0 (N_of_ascii a))) (wire (sextet1 (N_of_ascii a) (N_of_ascii b)))
      (wire (sextet2 (N_of_ascii b) 0)).
    split.
    + intros written. rewrite !a2b_sextet by assumption. cbn [N.eqb Pos.eqb].
      rewrite !a2b_pad. eval_leb. cbn [emit].
      rewrite Hxy1, (byte_of_ascii a _ Hxy2), (byte_of_ascii b _ Hyz2). reflexivity.
    + rewrite !encoded_ascii by assumption. reflexivity.
  - pose proof (sextets_xy_ok_all _ _ (octet_bound a) (octet_bound b)) as Hxy.
    pose proof (sextets_yz_ok_all _ _ (octet_bound b) (octet_bound c)) as Hyz.
    unfold sextets_xy_ok in Hxy. unfold sextets_yz_ok in Hyz.
    split_ok Hxy. split_ok Hyz.
    apply N.ltb_lt in Hxy, Hxy3, Hyz, Hyz3. apply N.eqb_eq in Hxy1, Hyz1.
    cbn [b2a_base64 translate is_ascii]. fold enc dec.
    fold (wire (sextet0 (N_of_ascii a))) (wire (sextet1 (N_of_ascii a) (N_of_ascii b)))
      (wire (sextet2 (N_of_ascii b) (N_of_ascii c))) (wire (sextet3 (N_of_ascii c))).
    split.
    + intros written. rewrite !a2b_sextet by assumption. cbn [N.eqb Pos.eqb].
      rewrite IHdec. cbn [emit].
      rewrite Hxy1, Hyz1, (byte_of_ascii a _ Hxy2), (byte_of_ascii b _ Hyz2),
        (byte_of_ascii c _ Hyz0).
      reflexivity.
    + rewrite !encoded_ascii by assumption. exact IHascii.
Qed.

Lemma urlsafe_b64decode_encode (data : string) :
  urlsafe_b64decode (urlsafe_b64encode data) = Ok data.
Proof.
  unfold urlsafe_b64decode, urlsafe_b64encode, a2b_base64.
  destruct (a2b_b2a data) as [Hdec Hascii]. unfold enc, dec in Hdec, Hascii.
  rewrite Hascii. apply Hdec.
Qed.

End Base64RoundTrip.

(** * Round trip of a plain body *)

Lemma utf8_valid_append_bounded (n : nat) (s t : string) :
  (String.length s ≤ n)%nat →
  Utf8.valid s = true → Utf8.valid t = true → Utf8.valid (s +:+ t) = true.
Proof.
  revert s. induction n as [|n IH]; intros s Hlen Hs Ht.
  - destruct s; [exact Ht | simpl in Hlen; lia].
  - destruct s as [|a s1]; [exact Ht|].
    simpl in Hlen. rewrite append_cons. cbn [Utf8.valid] in Hs |- *.
    destruct (Utf8.between 0 127 a); [apply IH; [lia | exact Hs | exact Ht]|].
    destruct s1 as [|b s2]; [discriminate|].
    simpl in Hlen. rewrite append_cons.
    destruct (Utf8.between 194 223 a).
    { apply andb_prop in Hs as [-> Hs]. apply IH; [lia | exact Hs | exact Ht]. }
    destruct s2 as [|c s3]; [discriminate|].
    simpl in Hlen. rewrite append_cons.
    destruct (Utf8.between 224 224 a).
    { apply andb_prop in Hs as [-> Hs]. apply IH; [lia | exact Hs | exact Ht]. }
    destruct (Utf8.between 237 237 a).
    { apply andb_prop in Hs as [-> Hs]. apply IH; [lia | exact Hs | exact Ht]. }
    destruct (Utf8.between 225 239 a).
    { apply andb_prop in Hs as [-> Hs]. apply IH; [lia | exact Hs | exact Ht]. }
    destruct s3 as [|d s4]; [discriminate|].
    simpl in Hlen. rewrite append_cons.
    destruct (Utf8.between 240 240 a).
    { apply andb_prop in Hs as [-> Hs]. apply IH; [lia | exact Hs | exact Ht]. }
    destruct (Utf8.between 241 243 a).
    { apply andb_prop in Hs as [-> Hs]. apply IH; [lia | exact Hs | exact Ht]. }
    destruct (Utf8.between 244 244 a); [|discriminate].
    apply andb_prop in Hs as [-> Hs]. apply IH; [lia | exact Hs | exact Ht].
Qed.

Lemma utf8_valid_append (s t : string) :
  Utf8.valid s = true → Utf8.valid t = true → Utf8.valid (s +:+ t) = true.
Proof. apply (utf8_valid_append_bounded (String.length s)). reflexivity. Qed.

Lemma newlines_valid (nl : string) : Remote.newlines nl = true → Utf8.valid nl = true.
Proof.
  induction nl as [|c nl IH]; [reflexivity|].
  cbn [Remote.newlines Utf8.valid]. intros [Hc Hnl]%andb_prop.
  assert (Hascii : Utf8.between 0 127 c = true).
  { unfold Remote.newline in Hc. apply orb_prop in Hc as [Hc | Hc];
      apply Ascii.eqb_eq in Hc; subst c; reflexivity. }
  rewrite Hascii. apply IH, Hnl.
Qed.

Lemma chomp_newlines (nl : string) : Remote.newlines nl = true → Remote.chomp nl = "".
Proof.
  induction nl as [|c nl IH]; [reflexivity|].
  cbn [Remote.newlines Remote.chomp]. intros [Hc Hnl]%andb_prop.
  rewrite (IH Hnl), Hc. reflexivity.
Qed.

(** Line endings appended to a text disappear in the normalisation. *)
Lemma chomp_append_newlines (s nl : string) :
  Remote.newlines nl = true → Remote.chomp (s +:+ nl) = Remote.chomp s.
Proof.
  intros Hnl. induction s as [|c s IH]; [apply chomp_newlines, Hnl|].
  rewrite append_cons. cbn [Remote.chomp]. rewrite IH. reflexivity.
Qed.

Lemma decode_data_encoded (text : string) :
  Utf8.valid text = true → decode_data (Base64.urlsafe_b64encode text) = Ok text.
Proof.
  intros Hvalid. unfold decode_data. rewrite urlsafe_b64decode_encode.
  cbn [bind]. unfold Utf8.decode. rewrite Hvalid. reflexivity.
Qed.

(** An ASCII text is valid UTF-8. *)
Lemma ascii_valid (s : string) : Base64.is_ascii s = true → Utf8.valid s = true.
Proof.
  induction s as [|c s IH]; [reflexivity|].
  cbn [Base64.is_ascii Utf8.valid]. intros [Hc Hs]%andb_prop.
  assert (Hlow : Utf8.between 0 127 c = true).
  { unfold Utf8.between. apply N.ltb_lt in Hc.
    apply andb_true_intro. split; apply N.leb_le; lia. }
  rewrite Hlow. apply IH, Hs.
Qed.

Lemma write_lines_cons (c : ascii) (rest : string) :
  Email.write_lines (String c rest)
  = if Ascii.eqb c Email.CR then
      match rest with
      | String c' rest' =>
          if Ascii.eqb c' Email.NL then String Email.NL (Email.write_lines rest')
          else String Email.NL (Email.write_lines rest)
      | "" => String Email.NL ""
      end
    else String c (Email.write_lines rest).
Proof. reflexivity. Qed.

Lemma is_ascii_cons (c : ascii) (s : string) :
  Base64.is_ascii (String c s) = (N_of_ascii c <? 128)%N && Base64.is_ascii s.
Proof. reflexivity. Qed.

(** Writing a text line by line keeps it ASCII. *)
Lemma write_lines_ascii (s : string) :
  Base64.is_ascii s = true → Base64.is_ascii (Email.write_lines s) = true.
Proof.
  assert (H : (Base64.is_ascii s = true → Base64.is_ascii (Email.write_lines s) = true)
              ∧ ∀ c, Base64.is_ascii (String c s) = true →
                     Base64.is_ascii (Email.write_lines (String c s)) = true).
  { induction s as [|a s [IH0 IH1]].
    - split; [reflexivity|]. intros c. rewrite write_lines_cons.
      destruct (Ascii.eqb c Email.CR); [reflexivity | exact id].
    - split; [apply IH1|]. intros c Hc.
      rewrite is_ascii_cons in Hc. apply andb_prop in Hc as [Hc Hrest].
      rewrite write_lines_cons. destruct (Ascii.eqb c Email.CR).
      + destruct (Ascii.eqb a Email.NL).
        * rewrite is_ascii_cons in Hrest. apply andb_prop in Hrest as [_ Hs].
          rewrite is_ascii_cons, (IH0 Hs). reflexivity.
        * rewrite is_ascii_cons, (IH1 a Hrest). reflexivity.
      + rewrite is_ascii_cons, Hc, (IH1 a Hrest). reflexivity. }
  apply H.
Qed.

(** A text without a carriage return is written as it is. *)
Lemma write_lines_without_cr (s : string) :
  Py.contains CR s = false → Email.write_lines s = s.
Proof.
  induction s as [|c s IH]; [reflexivity|].
  unfold CR. rewrite contains_char_cons. intros [Hc Hs]%orb_false_elim.
  rewrite write_lines_cons.
  assert (Hne : Ascii.eqb c Email.CR = false).
  { apply Ascii.eqb_neq. intros ->. rewrite bool_decide_eq_true_2 in Hc by reflexivity.
    discriminate. }
  rewrite Hne, (IH Hs). reflexivity.
Qed.

(** What is serialised for a text is valid UTF-8 when the text is. *)
Lemma text_content_valid (text : string) :
  Utf8.valid text = true → Utf8.valid (Email.text_content text) = true.
Proof.
  intros Hvalid. unfold Email.text_content.
  destruct (Base64.is_ascii text) eqn:Hascii; [|exact Hvalid].
  apply ascii_valid, write_lines_ascii, Hascii.
Qed.

(** A text that holds a non-ASCII character, or no carriage return, is
    serialised as it is. *)
Lemma text_content_kept (text : string) :
  Base64.is_ascii text = false ∨ Py.contains CR text = false →
  Email.text_content text = text.
Proof.
  unfold Email.text_content. intros [-> | Hcr]; [reflexivity|].
  destruct (Base64.is_ascii text); [apply write_lines_without_cr, Hcr | reflexivity].
Qed.

(** What is read back from a multipart message whose only part is a plain
    text. *)
Lemma single_text_read_back (subtype : string) (hdrs : list (string * string))
    (text nl : string) :
  Utf8.valid text = true →
  Remote.newlines nl = true →
  get_message_body
    (Remote.received nl (MIMEMultipart subtype hdrs [MIMEText text "plain"]))
  = Ok (Email.text_content text +:+ nl).
Proof.
  intros Hvalid Hnl. unfold get_message_body, Remote.received.
  cbn [payload parts Remote.part_of map foldl].
  unfold body_loop_step. cbn [bind mimeType subscript Remote.content_type].
  change (String.eqb ("text/" +:+ "plain") "text/plain") with true.
  cbn [body subscript bind data].
  rewrite decode_data_encoded
    by (apply utf8_valid_append;
        [apply text_content_valid, Hvalid | apply newlines_valid, Hnl]).
  reflexivity.
Qed.

(** C3 (amended).  A message with only a plain body (no HTML body, no
    attachments) is built as one multipart/mixed container holding the body
    as its single text part.  Serialised, submitted and read back, its text
    is the body as the serialiser wrote it, followed by the line ending
    [nl] the service leaves after the part, which trailing newline
    normalisation removes.  A body that is pure ASCII is written line by
    line, every CR LF and every lone CR becoming a line feed; a body that
    holds a non-ASCII character travels in base64 and comes back octet for
    octet.  So a body without a carriage return, or with a non-ASCII
    character, is read back as it was, up to trailing newlines. *)
Theorem plain_body_round_trip
    (isfile : string → bool) (read_file : string → result string)
    (guess_type : string → option string * option string)
    (to subject plain_body : string) (cc bcc html_body : option string)
    (attachments : option (list string)) (nl : string) :
  Py.truthy_opt html_body = false →
  default [] attachments = [] →
  Utf8.valid plain_body = true →
  Remote.newlines nl = true →
  let m := MIMEMultipart "mixed"
             ([("To", to); ("Subject", subject)]
              ++ optional_header "Cc" cc ++ optional_header "Bcc" bcc)%list
             [MIMEText plain_body "plain"] in
  let written := Email.text_content plain_body in
  send_message isfile read_file guess_type to subject plain_body cc bcc html_body
    attachments = Ok m
  ∧ get_message_body (Remote.received nl m) = Ok (written +:+ nl)
  ∧ Remote.chomp (written +:+ nl) = Remote.chomp written
  ∧ (Base64.is_ascii plain_body = true → written = Email.write_lines plain_body)
  ∧ (Base64.is_ascii plain_body = false ∨ Py.contains CR plain_body = false →
     written = plain_body
     ∧ get_message_body (Remote.received nl m) = Ok (plain_body +:+ nl)
     ∧ Remote.chomp (plain_body +:+ nl) = Remote.chomp plain_body
     ∧ (nl = "" → get_message_body (Remote.received nl m) = Ok plain_body)).
Proof.
  intros Hhtml Hatt Hbody Hnl m written.
  assert (Hread : get_message_body (Remote.received nl m) = Ok (written +:+ nl)).
  { apply single_text_read_back; assumption. }
  split; [apply send_message_mixed; [exact Hhtml | rewrite Hatt; reflexivity]|].
  split; [exact Hread|].
  split; [apply chomp_append_newlines, Hnl|].
  split.
  { intros Hascii. unfold written, Email.text_content. rewrite Hascii. reflexivity. }
  intros Hkept. pose proof (text_content_kept plain_body Hkept) as Hsame.
  fold written in Hsame. rewrite Hsame in Hread.
  split; [exact Hsame|]. split; [exact Hread|].
  split; [apply chomp_append_newlines, Hnl|].
  intros ->. rewrite Hread, append_nil_r. reflexivity.
Qed.

Lemma plain_body_round_trip_witness :
  ∃ m,
    send_message one_file read_pdf guess_pdf "bob@example.com" "Hi" "hello"
      None None None None = Ok m
    ∧ get_message_body (Remote.received "" m) = Ok "hello".
Proof.
  destruct (plain_body_round_trip one_file read_pdf guess_pdf
              "bob@example.com" "Hi" "hello" None None None None ""
              eq_refl eq_refl eq_refl eq_refl) as (Hsent & _ & _ & _ & Hkept).
  eexists. split; [exact Hsent|].
  destruct (Hkept (or_intror eq_refl)) as (_ & _ & _ & Hexact).
  exact (Hexact eq_refl).
Defined.

(** C3 as stated fails: a plain body with a CR LF line end is read back
    with a line feed in its place, inside the text, where trailing newline
    normalisation does not reach, whether or not the service adds a line
    ending after the part. *)
Lemma plain_body_round_trip_rewrites_cr :
  ∃ m,
    send_message one_file read_pdf guess_pdf "bob@example.com" "Hi" crlf_body
      None None None None = Ok m
    ∧ get_message_body (Remote.received "" m) = Ok lf_body
    ∧ Remote.chomp lf_body ≠ Remote.chomp crlf_body
    ∧ get_message_body (Remote.received LF m) = Ok (lf_body +:+ LF)
    ∧ Remote.chomp (lf_body +:+ LF) ≠ Remote.chomp crlf_body.
Proof.
  eexists. split; [reflexivity|].
  split; [vm_compute; reflexivity|].
  split; [vm_compute; discriminate|].
  split; [vm_compute; reflexivity|].
  vm_compute. discriminate.
Qed.

(** * Obtaining the credential *)

Section FastPath.

Variable Service : Type.
Variables (now REFRESH_THRESHOLD : Z).
Variable str : exn → string.
Variable unpickle : string → result Auth.unpickled.
Variable token_file_writable : bool.
Variable open_error : exn.
Variable pickle_dump : Auth.Credentials → list string * bool.
Variable pickle_error : Auth.Credentials → exn.
Variable refresh : Auth.Credentials → result Auth.Credentials.
Variable load_client_config : result Auth.ClientConfig.
Variable prompt_for_client_config : nat → result Auth.ClientConfig.
Variable run_local_server : Auth.ClientConfig → result Auth.Credentials.
Variable build : Auth.Credentials → result Service.

Abbreviation get_service :=
  (Auth._get_gmail_service Service now REFRESH_THRESHOLD str unpickle
     token_file_writable open_error pickle_dump pickle_error refresh
     load_client_config prompt_for_client_config run_local_server build).

(** C8.  When the token file holds a credential that is valid (it has an
    access token and that token has not expired), the connector hands
    exactly that credential to the service builder and does nothing else:
    no refresh at the token endpoint, no interactive flow, and the token
    file is left as it was. *)
Theorem valid_credential_fast_path (token_file : Store.file)
    (bytes : string) (c : Auth.Credentials) :
  Store.content token_file = Some bytes →
  unpickle bytes = Ok (Auth.UCredentials c) →
  Auth.valid now REFRESH_THRESHOLD c = true →
  let out := get_service token_file in
  Auth.events out = [Auth.EBuild c]
  ∧ existsb Auth.network (Auth.events out) = false
  ∧ existsb Auth.writes (Auth.events out) = false
  ∧ Auth.token_file_after out = token_file
  ∧ (∀ service, build c = Ok service → Auth.returned out = Ok service).
Proof.
  intros Hcontent Hload Hvalid out.
  assert (Hout : out = Auth.finish Service str build token_file [] c).
  { unfold out, Auth._get_gmail_service, Auth.load_creds.
    rewrite Hcontent, Hload, Hvalid. reflexivity. }
  rewrite Hout. unfold Auth.finish.
  destruct (build c) as [service|e]; cbn.
  - repeat split. intros service' [= <-]. reflexivity.
  - repeat split. discriminate.
Qed.

End FastPath.

Lemma valid_credential_fast_path_witness :
  Auth.events fast_path_run = [Auth.EBuild stored_credential]
  ∧ Auth.token_file_after fast_path_run = Store.mkFile (Some "pickled") false
  ∧ Auth.returned fast_path_run = Ok stored_credential.
Proof.
  destruct (valid_credential_fast_path Auth.Credentials 1000%Z 225%Z exn_text
              unpickle_stored true (OSError "token.pickle") (λ _, (["pickled"], false))
              (λ _, ValueError "cannot pickle")
              (λ c, Raise (ValueError "refresh must not be called"))
              (Raise (OSError "credentials.json"))
              prompt_answered
              (λ _, Raise (ValueError "the flow must not be run"))
              Ok
              (Store.mkFile (Some "pickled") false) "pickled" stored_credential
              eq_refl eq_refl eq_refl) as (Hev & _ & _ & Hfile & Hret).
  split; [exact Hev|]. split; [exact Hfile|]. exact (Hret stored_credential eq_refl).
Defined.

(** * Saving the credential *)

Lemma save_flushes_final (flushes : list string) (f : Store.file) (acc : string) :
  Store.content f = Some acc →
  Store.final f (map Store.Flush flushes ++ [Store.Close])
  = Store.mkFile (Some (acc +:+ Store.concat flushes)) false.
Proof.
  revert f acc. induction flushes as [|b flushes IH]; intros f acc Hacc.
  - cbn. rewrite Hacc, append_nil_r. reflexivity.
  - cbn [map app]. unfold Store.final. cbn [foldl]. fold (Store.final).
    change (foldl Store.step ?g ?l) with (Store.final g l).
    rewrite (IH _ (acc +:+ b)).
    + cbn [Store.concat]. rewrite append_assoc. reflexivity.
    + cbn [Store.step Store.content]. rewrite Hacc. reflexivity.
Qed.

Lemma save_flushes_states (flushes : list string) (f : Store.file) (acc : string) :
  Store.content f = Some acc →
  ∀ st, In st (Store.run f (map Store.Flush flushes ++ [Store.Close])) →
    ∃ k, Store.content st = Some (acc +:+ Store.concat (take k flushes)).
Proof.
  revert f acc. induction flushes as [|b flushes IH]; intros f acc Hacc st Hin.
  - cbn in Hin. destruct Hin as [<- | []]. exists 0%nat. cbn.
    rewrite Hacc, append_nil_r. reflexivity.
  - cbn [map app Store.run] in Hin. destruct Hin as [<- | Hin].
    + exists 1%nat. cbn. rewrite Hacc. cbn. rewrite append_nil_r. reflexivity.
    + assert (Hc : Store.content (Store.step f (Store.Flush b)) = Some (acc +:+ b)).
      { cbn [Store.step Store.content]. rewrite Hacc. reflexivity. }
      destruct (IH _ (acc +:+ b) Hc st Hin) as [k Hk].
      exists (S k). rewrite Hk. cbn [take Store.concat]. rewrite append_assoc. reflexivity.
Qed.

(** C9 (amended).  Saving overwrites the token file in place.  Opening it
    for writing empties it before anything is written, so from then on the
    previous contents are gone; every later state holds the portions of the
    new pickle flushed so far; and the file ends up closed, holding what was
    flushed, also when pickling raised part-way.  The write is scoped, not
    an atomic replace. *)
Theorem save_overwrites_in_place (f : Store.file) (flushes : list string) :
  let states := Store.run f (Store.save_ops flushes) in
  hd_error states = Some (Store.mkFile (Some "") true)
  ∧ (∀ st, In st states →
       ∃ k, Store.content st = Some (Store.concat (take k flushes)))
  ∧ Store.save f flushes = Store.mkFile (Some (Store.concat flushes)) false.
Proof.
  intros states. split; [reflexivity|]. split.
  - intros st Hin. unfold states, Store.save_ops in Hin. cbn [Store.run] in Hin.
    destruct Hin as [<- | Hin]; [exists 0%nat; reflexivity|].
    exact (save_flushes_states flushes (Store.step f Store.OpenWb) "" eq_refl st Hin).
  - unfold Store.save, Store.save_ops.
    change (Store.final f (Store.OpenWb :: ?l))
      with (Store.final (Store.step f Store.OpenWb) l).
    rewrite (save_flushes_final flushes (Store.step f Store.OpenWb) "" eq_refl).
    reflexivity.
Qed.

Lemma save_overwrites_in_place_witness :
  hd_error (Store.run old_store (Store.save_ops ["NEW"]))
  = Some (Store.mkFile (Some "") true)
  ∧ Store.save old_store ["NEW"] = Store.mkFile (Some "NEW") false.
Proof.
  destruct (save_overwrites_in_place old_store ["NEW"]) as (Hopen & _ & Hfinal).
  split; [exact Hopen | exact Hfinal].
Defined.

(** C9 as stated fails: while the new credential is being saved over an
    old one, the file is observed empty, holding neither the old contents
    nor the new ones. *)
Lemma save_is_not_atomic :
  In (Store.mkFile (Some "") true) (Store.run old_store (Store.save_ops ["NEW"]))
  ∧ ¬ Store.atomic old_store "NEW" (Store.run old_store (Store.save_ops ["NEW"])).
Proof.
  split; [left; reflexivity|].
  intros Hatomic. destruct (Hatomic (Store.mkFile (Some "") true)) as [H | H];
    [left; reflexivity | discriminate H | discriminate H].
Qed.

(** * More on obtaining the credential *)

Section AuthPaths.

Variable Service : Type.
Variables (now REFRESH_THRESHOLD : Z).
Variable str : exn → string.
Variable unpickle : string → result Auth.unpickled.
Variable token_file_writable : bool.
Variable open_error : exn.
Variable pickle_dump : Auth.Credentials → list string * bool.
Variable pickle_error : Auth.Credentials → exn.
Variable refresh : Auth.Credentials → result Auth.Credentials.
Variable load_client_config : result Auth.ClientConfig.
Variable prompt_for_client_config : nat → result Auth.ClientConfig.
Variable run_local_server : Auth.ClientConfig → result Auth.Credentials.
Variable build : Auth.Credentials → result Service.

Abbreviation service_for :=
  (Auth._get_gmail_service Service now REFRESH_THRESHOLD str unpickle
     token_file_writable open_error pickle_dump pickle_error refresh
     load_client_config prompt_for_client_config run_local_server build).

Abbreviation authorize_from :=
  (Auth.authorize Service str token_file_writable open_error pickle_dump
     pickle_error load_client_config prompt_for_client_config run_local_server
     build).

Abbreviation config_for :=
  (Auth.client_config_for_flow load_client_config prompt_for_client_config).

Abbreviation load_from := (Auth.load_creds unpickle).
Abbreviation is_expired := (Auth.expired now REFRESH_THRESHOLD).
Abbreviation is_valid := (Auth.valid now REFRESH_THRESHOLD).

Lemma expired_not_valid (c : Auth.Credentials) :
  is_expired c = true → is_valid c = false.
Proof. intros H. unfold Auth.valid. rewrite H. apply andb_false_r. Qed.

(** The outcome of the build step. *)
Lemma finish_outcome (token_file : Store.file) (evs : list Auth.event)
    (c : Auth.Credentials) :
  let out := Auth.finish Service str build token_file evs c in
  Auth.events out = (evs ++ [Auth.EBuild c])%list
  ∧ Auth.token_file_after out = token_file
  ∧ (∀ service, build c = Ok service → Auth.returned out = Ok service)
  ∧ (∀ e, build c = Raise e →
       Auth.returned out
       = Raise (ValueError ("Failed to build Gmail service: " +:+ str e))).
Proof.
  unfold Auth.finish. destruct (build c) as [service|e]; cbn.
  - split; [reflexivity|]. split; [reflexivity|].
    split; [intros s [= <-]; reflexivity | discriminate].
  - split; [reflexivity|]. split; [reflexivity|].
    split; [discriminate | intros e' [= <-]; reflexivity].
Qed.

(** Choosing the client configuration adds nothing but prompts to what
    has happened. *)
Lemma config_for_prompts (evs : list Auth.event) :
  ∃ k, (config_for evs).2 = (evs ++ repeat Auth.EPrompt k)%list.
Proof.
  unfold Auth.client_config_for_flow.
  destruct load_client_config as [client_config|e].
  - destruct (bool_decide ("web" ∈ Auth.keys client_config)
              || bool_decide ("installed" ∈ Auth.keys client_config)).
    + exists 0%nat. cbn. rewrite app_nil_r. reflexivity.
    + destruct (prompt_for_client_config 0);
        [exists 1%nat | exists 2%nat]; reflexivity.
  - exists 1%nat. reflexivity.
Qed.

Lemma prompts_unseen (p : Auth.event → bool) (k : nat) :
  p Auth.EPrompt = false →
  count_events p (repeat Auth.EPrompt k) = 0%nat
  ∧ existsb p (repeat Auth.EPrompt k) = false.
Proof.
  intros Hp. unfold count_events.
  induction k as [|k [IHc IHe]]; [split; reflexivity|].
  cbn [repeat List.filter existsb]. rewrite Hp. split; [exact IHc | exact IHe].
Qed.

(** The interactive flow, by the outcome of its steps. *)
Lemma authorize_outcome (token_file : Store.file) (evs : list Auth.event) :
  let out := authorize_from token_file evs in
  let failed (e : exn) : result Service :=
    Raise (ValueError ("Failed to authenticate: " +:+ str e)) in
  match config_for evs with
  | (Raise e, shown) => out = Auth.mkOutcome (Raise e) shown token_file
  | (Ok cfg, shown) =>
      let started := (shown ++ [Auth.EAuthorize cfg])%list in
      match run_local_server cfg with
      | Raise e => out = Auth.mkOutcome (failed e) started token_file
      | Ok c =>
          if token_file_writable then
            if (pickle_dump c).2 then
              out = Auth.mkOutcome (failed (pickle_error c))
                      (started ++ [Auth.ESave c])%list
                      (Store.save token_file (pickle_dump c).1)
            else
              out = Auth.finish Service str build
                      (Store.save token_file (pickle_dump c).1)
                      (started ++ [Auth.ESave c])%list c
          else
            out = Auth.mkOutcome (failed open_error) started token_file
      end
  end.
Proof.
  unfold Auth.authorize.
  destruct (config_for evs) as [[cfg|e] shown]; [|reflexivity].
  destruct (run_local_server cfg) as [c|e]; [|reflexivity].
  destruct token_file_writable; [|reflexivity].
  destruct (pickle_dump c) as [flushes [|]]; reflexivity.
Qed.

Lemma load_stored (token_file : Store.file) (bytes : string) (c : Auth.Credentials) :
  Store.content token_file = Some bytes →
  unpickle bytes = Ok (Auth.UCredentials c) →
  load_from token_file = Some c.
Proof. intros Hc Hu. unfold Auth.load_creds. rewrite Hc, Hu. reflexivity. Qed.

(** Nothing is loaded when the token file is missing or does not unpickle
    to a credentials object. *)
Lemma load_nothing (token_file : Store.file) :
  (Store.content token_file = None
   ∨ ∃ bytes, Store.content token_file = Some bytes
              ∧ ∀ c, unpickle bytes ≠ Ok (Auth.UCredentials c)) →
  load_from token_file = None.
Proof.
  unfold Auth.load_creds. intros [-> | (bytes & -> & Hno)]; [reflexivity|].
  destruct (unpickle bytes) as [[| c |]|e]; try reflexivity.
  exfalso. apply (Hno c). reflexivity.
Qed.

Lemma needs_flow_authorizes (token_file : Store.file) (evs : list Auth.event) :
  needs_flow now REFRESH_THRESHOLD unpickle refresh token_file evs →
  service_for token_file = authorize_from token_file evs.
Proof.
  unfold Auth._get_gmail_service.
  intros [[-> ->] | (c & e & -> & Hexp & Htok & Href & ->)]; [reflexivity|].
  rewrite (expired_not_valid c Hexp), Hexp, Htok, Href. reflexivity.
Qed.

(** Before the flow nothing was built and nothing was written. *)
Lemma needs_flow_events (token_file : Store.file) (evs : list Auth.event) :
  needs_flow now REFRESH_THRESHOLD unpickle refresh token_file evs →
  existsb is_build evs = false
  ∧ existsb Auth.writes evs = false
  ∧ count_events is_authorize evs = 0%nat.
Proof.
  intros [[_ ->] | (c & e & _ & _ & _ & _ & ->)]; repeat split.
Qed.

Lemma save_content (f : Store.file) (flushes : list string) :
  Store.save f flushes = Store.mkFile (Some (Store.concat flushes)) false.
Proof.
  unfold Store.save, Store.save_ops.
  change (Store.final f (Store.OpenWb :: ?l))
    with (Store.final (Store.step f Store.OpenWb) l).
  rewrite (save_flushes_final flushes (Store.step f Store.OpenWb) "" eq_refl).
  reflexivity.
Qed.

(** An expired credential with a refresh token is refreshed at the token
    endpoint and the refreshed credential goes to the service builder; the
    interactive flow is not run, and the token file is not written: the
    refreshed credential is not persisted. *)
Theorem refreshed_credential_not_saved (token_file : Store.file)
    (bytes : string) (c c' : Auth.Credentials) :
  Store.content token_file = Some bytes →
  unpickle bytes = Ok (Auth.UCredentials c) →
  is_expired c = true →
  Py.truthy_opt (Auth.refresh_token c) = true →
  refresh c = Ok c' →
  let out := service_for token_file in
  Auth.events out = [Auth.ERefresh c; Auth.EBuild c']
  ∧ Auth.token_file_after out = token_file
  ∧ (∀ service, build c' = Ok service → Auth.returned out = Ok service).
Proof.
  intros Hc Hu Hexp Htok Href out.
  assert (Hout : out = Auth.finish Service str build token_file [Auth.ERefresh c] c').
  { unfold out, Auth._get_gmail_service. rewrite (load_stored _ _ _ Hc Hu).
    rewrite (expired_not_valid c Hexp), Hexp, Htok, Href. reflexivity. }
  rewrite Hout.
  destruct (finish_outcome token_file [Auth.ERefresh c] c') as (Hev & Hfile & Hret & _).
  split; [exact Hev|]. split; [exact Hfile | exact Hret].
Qed.

(** A loaded credential that is not valid and cannot be refreshed (it is
    not expired, or it has no refresh token) is handed to the service
    builder as it is: no refresh, no interactive flow, no write. *)
Theorem unrefreshable_credential_is_used (token_file : Store.file)
    (bytes : string) (c : Auth.Credentials) :
  Store.content token_file = Some bytes →
  unpickle bytes = Ok (Auth.UCredentials c) →
  is_valid c = false →
  is_expired c = false ∨ Py.truthy_opt (Auth.refresh_token c) = false →
  let out := service_for token_file in
  Auth.events out = [Auth.EBuild c]
  ∧ Auth.token_file_after out = token_file
  ∧ (∀ service, build c = Ok service → Auth.returned out = Ok service).
Proof.
  intros Hc Hu Hvalid Hno out.
  assert (Hout : out = Auth.finish Service str build token_file [] c).
  { unfold out, Auth._get_gmail_service. rewrite (load_stored _ _ _ Hc Hu), Hvalid.
    destruct Hno as [-> | ->]; [reflexivity | rewrite andb_false_r; reflexivity]. }
  rewrite Hout.
  destruct (finish_outcome token_file [] c) as (Hev & Hfile & Hret & _).
  split; [exact Hev|]. split; [exact Hfile | exact Hret].
Qed.

(** When the interactive flow is started and raises, or the token file
    cannot be opened for writing after it, the connector raises
    ValueError("Failed to authenticate: " + str(e)), where e is the
    exception of the flow, or that of [open] when the flow had returned;
    the service builder is never called and the token file is left as it
    was. *)
Theorem failed_authorization (token_file : Store.file)
    (evs shown : list Auth.event) (cfg : Auth.ClientConfig) :
  needs_flow now REFRESH_THRESHOLD unpickle refresh token_file evs →
  config_for evs = (Ok cfg, shown) →
  (∃ e, run_local_server cfg = Raise e) ∨ token_file_writable = false →
  let out := service_for token_file in
  (∃ e,
     Auth.returned out = Raise (ValueError ("Failed to authenticate: " +:+ str e))
     ∧ (run_local_server cfg = Raise e
        ∨ (∃ c, run_local_server cfg = Ok c) ∧ e = open_error))
  ∧ Auth.token_file_after out = token_file
  ∧ existsb is_build (Auth.events out) = false
  ∧ existsb Auth.writes (Auth.events out) = false.
Proof.
  intros Hneeds Hcfg Hfail out. unfold out.
  destruct (needs_flow_events _ _ Hneeds) as (Hb & Hw & _).
  assert (Hshown : existsb is_build shown = false ∧ existsb Auth.writes shown = false).
  { destruct (config_for_prompts evs) as [k Hk]. rewrite Hcfg in Hk. cbn [snd] in Hk.
    rewrite Hk, !existsb_app, Hb, Hw.
    split; apply (prompts_unseen _ k); reflexivity. }
  destruct Hshown as [Hsb Hsw].
  rewrite (needs_flow_authorizes _ _ Hneeds).
  pose proof (authorize_outcome token_file evs) as H. cbv zeta in H.
  rewrite Hcfg in H.
  assert (Hout : ∃ e,
            authorize_from token_file evs
            = Auth.mkOutcome
                (Raise (ValueError ("Failed to authenticate: " +:+ str e)))
                (shown ++ [Auth.EAuthorize cfg])%list token_file
            ∧ (run_local_server cfg = Raise e
               ∨ (∃ c, run_local_server cfg = Ok c) ∧ e = open_error)).
  { destruct (run_local_server cfg) as [c|e] eqn:Hrun.
    - destruct Hfail as [[e He] | Hw']; [discriminate He|].
      destruct token_file_writable; [discriminate Hw'|].
      exists open_error. split; [exact H|].
      right. split; [exists c; reflexivity | reflexivity].
    - exists e. split; [exact H | left; reflexivity]. }
  destruct Hout as (e & -> & He).
  cbn [Auth.returned Auth.token_file_after Auth.events].
  split; [exists e; split; [reflexivity | exact He]|].
  split; [reflexivity|].
  rewrite !existsb_app, Hsb, Hsw. split; reflexivity.
Qed.

(** When [pickle.dump] raises after the flow has returned, the connector
    raises ValueError("Failed to authenticate: " + str(e)) for the
    exception e of [pickle.dump], and the token file is left holding only
    what was flushed before the exception: its previous contents are lost. *)
Theorem failed_pickle_loses_store (token_file : Store.file)
    (evs shown : list Auth.event) (cfg : Auth.ClientConfig)
    (c : Auth.Credentials) (flushes : list string) :
  needs_flow now REFRESH_THRESHOLD unpickle refresh token_file evs →
  config_for evs = (Ok cfg, shown) →
  run_local_server cfg = Ok c →
  token_file_writable = true →
  pickle_dump c = (flushes, true) →
  let out := service_for token_file in
  Auth.returned out
  = Raise (ValueError ("Failed to authenticate: " +:+ str (pickle_error c)))
  ∧ Auth.token_file_after out = Store.mkFile (Some (Store.concat flushes)) false
  ∧ existsb is_build (Auth.events out) = false.
Proof.
  intros Hneeds Hcfg Hrun Hw Hdump out. unfold out.
  destruct (needs_flow_events _ _ Hneeds) as (Hb & _ & _).
  assert (Hsb : existsb is_build shown = false).
  { destruct (config_for_prompts evs) as [k Hk]. rewrite Hcfg in Hk. cbn [snd] in Hk.
    rewrite Hk, !existsb_app, Hb. apply (prompts_unseen _ k). reflexivity. }
  rewrite (needs_flow_authorizes _ _ Hneeds).
  pose proof (authorize_outcome token_file evs) as H. cbv zeta in H.
  rewrite Hcfg, Hrun, Hdump in H. rewrite Hw in H |- *. cbn [fst snd] in H. rewrite H.
  cbn [Auth.returned Auth.token_file_after Auth.events].
  rewrite !existsb_app, Hsb, save_content. repeat split.
Qed.

(** The prompt is not guarded where the handler of the first [try] calls
    it.  When the credentials file cannot be used and the prompt raises
    there (as the first prompt when reading the file raised, as the second
    when the file has neither section and the first prompt raised as
    well), its exception leaves the connector as it is, not wrapped in a
    ValueError; the flow is not started and the token file is left as it
    was. *)
Theorem failed_prompt_propagates (token_file : Store.file)
    (evs : list Auth.event) (e : exn) :
  needs_flow now REFRESH_THRESHOLD unpickle refresh token_file evs →
  let out := service_for token_file in
  (∀ e0,
     load_client_config = Raise e0 →
     prompt_for_client_config 0 = Raise e →
     Auth.returned out = Raise e
     ∧ Auth.events out = (evs ++ [Auth.EPrompt])%list
     ∧ Auth.token_file_after out = token_file)
  ∧ (∀ client_config e0,
       load_client_config = Ok client_config →
       "web" ∉ Auth.keys client_config →
       "installed" ∉ Auth.keys client_config →
       prompt_for_client_config 0 = Raise e0 →
       prompt_for_client_config 1 = Raise e →
       Auth.returned out = Raise e
       ∧ Auth.events out = (evs ++ [Auth.EPrompt; Auth.EPrompt])%list
       ∧ Auth.token_file_after out = token_file).
Proof.
  intros Hneeds out. unfold out.
  rewrite (needs_flow_authorizes _ _ Hneeds).
  pose proof (authorize_outcome token_file evs) as H. cbv zeta in H.
  unfold Auth.client_config_for_flow in H.
  split.
  - intros e0 Hload Hprompt. rewrite Hload in H |- *. rewrite Hprompt in H.
    rewrite H. repeat split.
  - intros client_config e0 Hload Hweb Hinstalled Hfirst Hsecond.
    rewrite Hload in H |- *.
    rewrite (bool_decide_eq_false_2 _ Hweb), (bool_decide_eq_false_2 _ Hinstalled),
      Hfirst, Hsecond in H.
    cbn [orb] in H. rewrite H. repeat split.
Qed.

Lemma count_events_app (p : Auth.event → bool) (l1 l2 : list Auth.event) :
  count_events p (l1 ++ l2) = (count_events p l1 + count_events p l2)%nat.
Proof. unfold count_events. rewrite List.filter_app, length_app. reflexivity. Qed.

(** In every run: a service is returned only as the result of the service
    builder, which is then the last thing that happened; the token file
    differs from what it was only if a save took place; and the token
    endpoint and the interactive flow are each used at most once. *)
Theorem service_run_invariants (token_file : Store.file) :
  let out := service_for token_file in
  (∀ service, Auth.returned out = Ok service →
     ∃ evs c, Auth.events out = (evs ++ [Auth.EBuild c])%list ∧ build c = Ok service)
  ∧ (existsb Auth.writes (Auth.events out) = false →
     Auth.token_file_after out = token_file)
  ∧ (count_events is_refresh (Auth.events out) ≤ 1)%nat
  ∧ (count_events is_authorize (Auth.events out) ≤ 1)%nat.
Proof.
  intros out.
  assert (Hfinish : ∀ tf evs c,
            let o := Auth.finish Service str build tf evs c in
            (∀ service, Auth.returned o = Ok service →
               ∃ evs' c', Auth.events o = (evs' ++ [Auth.EBuild c'])%list
                          ∧ build c' = Ok service)
            ∧ Auth.events o = (evs ++ [Auth.EBuild c])%list
            ∧ Auth.token_file_after o = tf).
  { intros tf evs c. unfold Auth.finish. destruct (build c) as [s|e] eqn:Hb; cbn.
    - split; [|split; reflexivity]. intros s' [= <-]. exists evs, c. split; [reflexivity | exact Hb].
    - split; [discriminate | split; reflexivity]. }
  assert (Hauth : ∀ evs,
            (count_events is_refresh evs ≤ 1)%nat →
            count_events is_authorize evs = 0%nat →
            existsb Auth.writes evs = false →
            let o := authorize_from token_file evs in
            (∀ service, Auth.returned o = Ok service →
               ∃ evs' c', Auth.events o = (evs' ++ [Auth.EBuild c'])%list
                          ∧ build c' = Ok service)
            ∧ (existsb Auth.writes (Auth.events o) = false →
               Auth.token_file_after o = token_file)
            ∧ (count_events is_refresh (Auth.events o) ≤ 1)%nat
            ∧ (count_events is_authorize (Auth.events o) ≤ 1)%nat).
  { intros evs Hr Ha Hw.
    pose proof (authorize_outcome token_file evs) as H. cbv zeta in H. cbv zeta.
    destruct (config_for_prompts evs) as [k Hk].
    destruct (prompts_unseen is_refresh k eq_refl) as [Hpr _].
    destruct (prompts_unseen is_authorize k eq_refl) as [Hpa _].
    destruct (prompts_unseen Auth.writes k eq_refl) as [_ Hpw].
    destruct (config_for evs) as [[cfg|e] shown]; cbn [snd] in Hk; subst shown.
    - destruct (run_local_server cfg) as [c|e].
      + destruct token_file_writable.
        * destruct (pickle_dump c) as [flushes [|]]; cbn [fst snd] in H; rewrite H.
          -- cbn [Auth.returned Auth.events Auth.token_file_after].
             split; [discriminate|]. split.
             { rewrite !existsb_app. cbn. rewrite !orb_true_r. discriminate. }
             rewrite !count_events_app, Hpr, Hpa, Ha. cbn. split; lia.
          -- destruct (Hfinish (Store.save token_file flushes)
                         (((evs ++ repeat Auth.EPrompt k) ++ [Auth.EAuthorize cfg])
                          ++ [Auth.ESave c])%list c) as (Hret & Hev & Hf).
             split; [exact Hret|]. rewrite Hev. split.
             { rewrite !existsb_app. cbn. rewrite !orb_true_r. discriminate. }
             rewrite !count_events_app, Hpr, Hpa, Ha. cbn. split; lia.
        * rewrite H. cbn [Auth.returned Auth.events Auth.token_file_after].
          split; [discriminate|]. split; [reflexivity|].
          rewrite !count_events_app, Hpr, Hpa, Ha. cbn. split; lia.
      + rewrite H. cbn [Auth.returned Auth.events Auth.token_file_after].
        split; [discriminate|]. split; [reflexivity|].
        rewrite !count_events_app, Hpr, Hpa, Ha. cbn. split; lia.
    - rewrite H. cbn [Auth.returned Auth.events Auth.token_file_after].
      split; [discriminate|]. split; [reflexivity|].
      rewrite !count_events_app, Hpr, Hpa, Ha. split; lia. }
  unfold out, Auth._get_gmail_service.
  destruct (load_from token_file) as [c|].
  - destruct (is_valid c).
    + destruct (Hfinish token_file [] c) as (Hret & Hev & Hf).
      split; [exact Hret|]. rewrite Hev, Hf. repeat split; cbn; lia.
    + destruct (is_expired c && Py.truthy_opt (Auth.refresh_token c)).
      * destruct (refresh c) as [c'|e].
        -- destruct (Hfinish token_file [Auth.ERefresh c] c') as (Hret & Hev & Hf).
           split; [exact Hret|]. rewrite Hev, Hf. repeat split; cbn; lia.
        -- apply Hauth; [cbn; lia | reflexivity | reflexivity].
      * destruct (Hfinish token_file [] c) as (Hret & Hev & Hf).
        split; [exact Hret|]. rewrite Hev, Hf. repeat split; cbn; lia.
  - apply Hauth; [cbn; lia | reflexivity | reflexivity].
Qed.

End AuthPaths.

(** ** Runs in which the prompt is answered

    The prompt, wherever the connector shows it, returns the dictionary
    [prompt_for_client_config]. *)

Section AuthFlow.

Variable Service : Type.
Variables (now REFRESH_THRESHOLD : Z).
Variable str : exn → string.
Variable unpickle : string → result Auth.unpickled.
Variable token_file_writable : bool.
Variable open_error : exn.
Variable pickle_dump : Auth.Credentials → list string * bool.
Variable pickle_error : Auth.Credentials → exn.
Variable refresh : Auth.Credentials → result Auth.Credentials.
Variable load_client_config : result Auth.ClientConfig.
Variable prompt_for_client_config : Auth.ClientConfig.
Variable run_local_server : Auth.ClientConfig → result Auth.Credentials.
Variable build : Auth.Credentials → result Service.

Abbreviation service_for :=
  (Auth._get_gmail_service Service now REFRESH_THRESHOLD str unpickle
     token_file_writable open_error pickle_dump pickle_error refresh
     load_client_config (λ _ : nat, Ok prompt_for_client_config)
     run_local_server build).

Abbreviation is_valid := (Auth.valid now REFRESH_THRESHOLD).
Abbreviation config := (chosen_config load_client_config prompt_for_client_config).

(** An answered prompt is shown once at most, and the flow is started with
    the configuration of the credentials file or with the prompted one. *)
Lemma config_for_answered (evs : list Auth.event) :
  Auth.client_config_for_flow load_client_config
    (λ _ : nat, Ok prompt_for_client_config) evs
  = (Ok config, (evs ++ prompted load_client_config)%list).
Proof.
  unfold Auth.client_config_for_flow, chosen_config, prompted.
  destruct load_client_config as [client_config|e]; [|reflexivity].
  destruct (bool_decide ("web" ∈ Auth.keys client_config)
            || bool_decide ("installed" ∈ Auth.keys client_config));
    [rewrite app_nil_r|]; reflexivity.
Qed.

(** A run that gets through the flow and the save. *)
Lemma authorized_run (token_file : Store.file) (evs : list Auth.event)
    (c : Auth.Credentials) (flushes : list string) :
  needs_flow now REFRESH_THRESHOLD unpickle refresh token_file evs →
  run_local_server config = Ok c →
  token_file_writable = true →
  pickle_dump c = (flushes, false) →
  service_for token_file
  = Auth.finish Service str build (Store.save token_file flushes)
      (((evs ++ prompted load_client_config) ++ [Auth.EAuthorize config])
       ++ [Auth.ESave c])%list c.
Proof.
  intros Hneeds Hrun Hw Hdump.
  rewrite (needs_flow_authorizes Service now REFRESH_THRESHOLD str unpickle
             token_file_writable open_error pickle_dump pickle_error refresh
             load_client_config (λ _ : nat, Ok prompt_for_client_config)
             run_local_server build _ _ Hneeds).
  pose proof (authorize_outcome Service str token_file_writable open_error
                pickle_dump pickle_error load_client_config
                (λ _ : nat, Ok prompt_for_client_config) run_local_server build
                token_file evs) as H.
  cbv zeta in H. rewrite config_for_answered, Hrun, Hdump in H.
  rewrite Hw in H |- *. cbn [fst snd] in H. exact H.
Qed.

(** When the interactive flow is needed and succeeds, and the pickle is
    written, the new credential replaces the contents of the token file and
    goes to the service builder; the prompt is shown only when the
    credentials file could not be used (and is answered, as everywhere in
    this section). *)
Theorem authorization_is_persisted (token_file : Store.file)
    (evs : list Auth.event) (c : Auth.Credentials) (flushes : list string) :
  needs_flow now REFRESH_THRESHOLD unpickle refresh token_file evs →
  run_local_server config = Ok c →
  token_file_writable = true →
  pickle_dump c = (flushes, false) →
  let out := service_for token_file in
  Auth.events out
  = (evs ++ prompted load_client_config
         ++ [Auth.EAuthorize config; Auth.ESave c; Auth.EBuild c])%list
  ∧ Auth.token_file_after out = Store.mkFile (Some (Store.concat flushes)) false
  ∧ (∀ service, build c = Ok service → Auth.returned out = Ok service).
Proof.
  intros Hneeds Hrun Hw Hdump out. unfold out.
  rewrite (authorized_run _ _ _ _ Hneeds Hrun Hw Hdump).
  destruct (finish_outcome Service str build (Store.save token_file flushes)
              (((evs ++ prompted load_client_config) ++ [Auth.EAuthorize config])
               ++ [Auth.ESave c])%list c) as (Hev & Hfile & Hret & _).
  split; [|split; [|exact Hret]].
  - rewrite Hev, <- !app_assoc. reflexivity.
  - rewrite Hfile. apply save_content.
Qed.

(** After a first run that went through the interactive flow and saved the
    credential, a second run on the token file it left loads that
    credential and, while it is valid, goes straight to the service builder:
    no second authorization. *)
Theorem second_run_reuses_saved_credential (token_file : Store.file)
    (evs : list Auth.event) (c : Auth.Credentials) (flushes : list string) :
  needs_flow now REFRESH_THRESHOLD unpickle refresh token_file evs →
  run_local_server config = Ok c →
  token_file_writable = true →
  pickle_dump c = (flushes, false) →
  unpickle (Store.concat flushes) = Ok (Auth.UCredentials c) →
  is_valid c = true →
  let first_run := service_for token_file in
  let second_run := service_for (Auth.token_file_after first_run) in
  Auth.events second_run = [Auth.EBuild c]
  ∧ Auth.token_file_after second_run = Auth.token_file_after first_run.
Proof.
  intros Hneeds Hrun Hw Hdump Hload Hvalid first_run second_run.
  assert (Hfile : Auth.token_file_after first_run
                  = Store.mkFile (Some (Store.concat flushes)) false).
  { unfold first_run. rewrite (authorized_run _ _ _ _ Hneeds Hrun Hw Hdump).
    destruct (finish_outcome Service str build (Store.save token_file flushes)
                (((evs ++ prompted load_client_config) ++ [Auth.EAuthorize config])
                 ++ [Auth.ESave c])%list c) as (_ & -> & _).
    apply save_content. }
  unfold second_run. rewrite Hfile.
  unfold Auth._get_gmail_service.
  rewrite (load_stored unpickle (Store.mkFile (Some (Store.concat flushes)) false)
             (Store.concat flushes) c eq_refl Hload), Hvalid.
  destruct (finish_outcome Service str build
              (Store.mkFile (Some (Store.concat flushes)) false) [] c)
    as (Hev & Hf & _).
  split; [exact Hev | exact Hf].
Qed.

End AuthFlow.

Lemma refreshed_credential_not_saved_witness :
  Auth.events (run_world (λ _, Ok refreshed_credential)
                 (λ _, Raise (ValueError "the flow must not be run")) pickle_token
                 (Store.mkFile (Some "ya29.old") false))
  = [Auth.ERefresh expired_credential; Auth.EBuild refreshed_credential]
  ∧ Auth.token_file_after
      (run_world (λ _, Ok refreshed_credential)
         (λ _, Raise (ValueError "the flow must not be run")) pickle_token
         (Store.mkFile (Some "ya29.old") false))
    = Store.mkFile (Some "ya29.old") false.
Proof.
  destruct (refreshed_credential_not_saved Auth.Credentials 1000%Z 225%Z exn_text
              unpickle_token true (OSError "token.pickle") pickle_token
              (λ _, ValueError "cannot pickle") (λ _, Ok refreshed_credential)
              (Ok (Auth.mkClientConfig ["installed"])) prompt_answered
              (λ _, Raise (ValueError "the flow must not be run")) Ok
              (Store.mkFile (Some "ya29.old") false) "ya29.old"
              expired_credential refreshed_credential
              eq_refl eq_refl eq_refl eq_refl eq_refl) as (Hev & Hfile & _).
  split; [exact Hev | exact Hfile].
Defined.

Lemma unrefreshable_credential_is_used_witness :
  Auth.events (run_world (λ _, Ok refreshed_credential)
                 (λ _, Ok stored_credential) pickle_token
                 (Store.mkFile (Some "no-refresh") false))
  = [Auth.EBuild unrefreshable_credential].
Proof.
  destruct (unrefreshable_credential_is_used Auth.Credentials 1000%Z 225%Z exn_text
              unpickle_token true (OSError "token.pickle") pickle_token
              (λ _, ValueError "cannot pickle") (λ _, Ok refreshed_credential)
              (Ok (Auth.mkClientConfig ["installed"])) prompt_answered
              (λ _, Ok stored_credential) Ok
              (Store.mkFile (Some "no-refresh") false) "no-refresh"
              unrefreshable_credential
              eq_refl eq_refl eq_refl (or_intror eq_refl)) as (Hev & _).
  exact Hev.
Defined.

Lemma authorization_is_persisted_witness :
  Auth.token_file_after
    (run_world (λ _, Ok refreshed_credential) (λ _, Ok stored_credential) pickle_token
       (Store.mkFile None false))
  = Store.mkFile (Some "ya29.token") false
  ∧ Auth.returned
      (run_world (λ _, Ok refreshed_credential) (λ _, Ok stored_credential) pickle_token
         (Store.mkFile None false))
    = Ok stored_credential.
Proof.
  destruct (authorization_is_persisted Auth.Credentials 1000%Z 225%Z exn_text
              unpickle_token true (OSError "token.pickle") pickle_token
              (λ _, ValueError "cannot pickle") (λ _, Ok refreshed_credential)
              (Ok (Auth.mkClientConfig ["installed"])) (Auth.mkClientConfig ["installed"])
              (λ _, Ok stored_credential) Ok
              (Store.mkFile None false) [] stored_credential ["ya29.token"]
              (or_introl (conj eq_refl eq_refl)) eq_refl eq_refl eq_refl)
    as (_ & Hfile & Hret).
  split; [exact Hfile | exact (Hret stored_credential eq_refl)].
Defined.

Lemma failed_authorization_witness :
  Auth.returned
    (run_world (λ _, Raise (ValueError "invalid_grant"))
       (λ _, Raise (ValueError "access_denied")) pickle_token
       (Store.mkFile (Some "ya29.old") false))
  = Raise (ValueError "Failed to authenticate: access_denied")
  ∧ Auth.token_file_after
      (run_world (λ _, Raise (ValueError "invalid_grant"))
         (λ _, Raise (ValueError "access_denied")) pickle_token
         (Store.mkFile (Some "ya29.old") false))
    = Store.mkFile (Some "ya29.old") false.
Proof.
  destruct (failed_authorization Auth.Credentials 1000%Z 225%Z exn_text
              unpickle_token true (OSError "token.pickle") pickle_token
              (λ _, ValueError "cannot pickle")
              (λ _, Raise (ValueError "invalid_grant"))
              (Ok (Auth.mkClientConfig ["installed"])) prompt_answered
              (λ _, Raise (ValueError "access_denied")) Ok
              (Store.mkFile (Some "ya29.old") false)
              [Auth.ERefresh expired_credential] [Auth.ERefresh expired_credential]
              (Auth.mkClientConfig ["installed"]))
    as ((e & Hret & He) & Hfile & _).
  - right. exists expired_credential, (ValueError "invalid_grant").
    repeat split; reflexivity.
  - reflexivity.
  - left. exists (ValueError "access_denied"). reflexivity.
  - split; [|exact Hfile].
    destruct He as [He | [[c Hc] _]]; [|discriminate Hc].
    injection He as <-. exact Hret.
Defined.

(** The same failure when the flow returns and the token file cannot be
    opened: the text quoted is that of the exception of [open]. *)
Example read_only_token_file :
  Auth.returned
    (run_read_only (λ _, Ok refreshed_credential) (λ _, Ok stored_credential)
       (Store.mkFile None false))
  = Raise (ValueError
             "Failed to authenticate: [Errno 13] Permission denied: 'token.pickle'").
Proof. reflexivity. Qed.

Lemma failed_pickle_loses_store_witness :
  Auth.token_file_after
    (run_world (λ _, Raise (ValueError "invalid_grant")) (λ _, Ok stored_credential)
       (λ _, (["part"], true)) (Store.mkFile (Some "ya29.old") false))
  = Store.mkFile (Some "part") false
  ∧ Auth.returned
      (run_world (λ _, Raise (ValueError "invalid_grant")) (λ _, Ok stored_credential)
         (λ _, (["part"], true)) (Store.mkFile (Some "ya29.old") false))
    = Raise (ValueError "Failed to authenticate: cannot pickle").
Proof.
  destruct (failed_pickle_loses_store Auth.Credentials 1000%Z 225%Z exn_text
              unpickle_token true (OSError "token.pickle") (λ _, (["part"], true))
              (λ _, ValueError "cannot pickle")
              (λ _, Raise (ValueError "invalid_grant"))
              (Ok (Auth.mkClientConfig ["installed"])) prompt_answered
              (λ _, Ok stored_credential) Ok
              (Store.mkFile (Some "ya29.old") false)
              [Auth.ERefresh expired_credential] [Auth.ERefresh expired_credential]
              (Auth.mkClientConfig ["installed"])
              stored_credential ["part"])
    as (Hret & Hfile & _).
  - right. exists expired_credential, (ValueError "invalid_grant").
    repeat split; reflexivity.
  - reflexivity.
  - reflexivity.
  - reflexivity.
  - reflexivity.
  - split; [exact Hfile | exact Hret].
Defined.

Lemma failed_prompt_propagates_witness :
  Auth.returned (run_unattended (Raise (OSError "credentials.json"))
                   (Store.mkFile None false))
  = Raise (EOFError "EOF when reading a line")
  ∧ Auth.events (run_unattended (Ok (Auth.mkClientConfig ["client_id"]))
                   (Store.mkFile None false))
    = [Auth.EPrompt; Auth.EPrompt].
Proof.
  destruct (failed_prompt_propagates Auth.Credentials 1000%Z 225%Z exn_text
              unpickle_token true (OSError "token.pickle") pickle_token
              (λ _, ValueError "cannot pickle") (λ _, Ok refreshed_credential)
              (Raise (OSError "credentials.json")) prompt_at_eof
              (λ _, Ok stored_credential) Ok
              (Store.mkFile None false) [] (EOFError "EOF when reading a line")
              (or_introl (conj eq_refl eq_refl))) as [Hunreadable _].
  destruct (failed_prompt_propagates Auth.Credentials 1000%Z 225%Z exn_text
              unpickle_token true (OSError "token.pickle") pickle_token
              (λ _, ValueError "cannot pickle") (λ _, Ok refreshed_credential)
              (Ok (Auth.mkClientConfig ["client_id"])) prompt_at_eof
              (λ _, Ok stored_credential) Ok
              (Store.mkFile None false) [] (EOFError "EOF when reading a line")
              (or_introl (conj eq_refl eq_refl))) as [_ Hneither].
  split.
  - exact (proj1 (Hunreadable (OSError "credentials.json") eq_refl eq_refl)).
  - refine (proj1 (proj2 (Hneither (Auth.mkClientConfig ["client_id"])
                            (EOFError "EOF when reading a line") eq_refl _ _
                            eq_refl eq_refl))).
    + intros Hin. inversion Hin as [|? ? ? Hin']. inversion Hin'.
    + intros Hin. inversion Hin as [|? ? ? Hin']. inversion Hin'.
Defined.

Lemma second_run_reuses_saved_credential_witness :
  Auth.events
    (run_world (λ _, Ok refreshed_credential) (λ _, Ok stored_credential) pickle_token
       (Auth.token_file_after
          (run_world (λ _, Ok refreshed_credential) (λ _, Ok stored_credential)
             pickle_token (Store.mkFile None false))))
  = [Auth.EBuild stored_credential].
Proof.
  destruct (second_run_reuses_saved_credential Auth.Credentials 1000%Z 225%Z exn_text
              unpickle_token true (OSError "token.pickle") pickle_token
              (λ _, ValueError "cannot pickle") (λ _, Ok refreshed_credential)
              (Ok (Auth.mkClientConfig ["installed"])) (Auth.mkClientConfig ["installed"])
              (λ _, Ok stored_credential) Ok
              (Store.mkFile None false) [] stored_credential ["ya29.token"]
              (or_introl (conj eq_refl eq_refl)) eq_refl eq_refl eq_refl eq_refl eq_refl)
    as (Hev & _).
  exact Hev.
Defined.

(** * Listing messages *)

Section ListingProperties.

Variable list_messages : string → Z → result (option (list MessageRef)).
Variable get_remote : string → string → result Message.

Abbreviation fetch := (fetch_loop get_remote).
Abbreviation listing := (get_messages list_messages get_remote).

Lemma fetch_loop_all (include_body : bool) (ids : list string)
    (fetched : list Message) (message_list : list Message) (calls : list call) :
  Forall2 (λ i m, get_remote i (listing_format include_body) = Ok m) ids fetched →
  fetch include_body (map (λ i, mkRef (Some i)) ids) message_list calls
  = (Ok (message_list ++ fetched)%list,
     (calls ++ map (λ i, CallGet i (listing_format include_body)) ids)%list).
Proof.
  intros Hall. revert message_list calls.
  induction Hall as [|i m ids fetched Hget _ IH]; intros message_list calls.
  - cbn. rewrite !app_nil_r. reflexivity.
  - cbn [map fetch_loop msg_id subscript]. fold (listing_format include_body).
    rewrite Hget, IH, <- !app_assoc. reflexivity.
Qed.

Lemma fetch_loop_failure (include_body : bool) (before : list string)
    (fetched : list Message) (failing : string) (after : list MessageRef) (e : exn)
    (message_list : list Message) (calls : list call) :
  Forall2 (λ i m, get_remote i (listing_format include_body) = Ok m) before fetched →
  get_remote failing (listing_format include_body) = Raise e →
  fetch include_body
    (map (λ i, mkRef (Some i)) before ++ mkRef (Some failing) :: after)%list
    message_list calls
  = (Raise e,
     (calls ++ map (λ i, CallGet i (listing_format include_body)) before
      ++ [CallGet failing (listing_format include_body)])%list).
Proof.
  intros Hall Hfail. revert message_list calls.
  induction Hall as [|i m ids fetched' Hget _ IH]; intros message_list calls.
  - cbn [map app fetch_loop msg_id subscript]. fold (listing_format include_body).
    rewrite Hfail. reflexivity.
  - cbn [map app fetch_loop msg_id subscript]. fold (listing_format include_body).
    rewrite Hget, IH, <- !app_assoc. reflexivity.
Qed.

(** When every listed message can be fetched, the result holds one message
    per listed id, in the order of the listing, each fetched in format
    "full" when the body is asked for and "metadata" otherwise; the service
    is called once for the listing and once per id. *)
Theorem get_messages_fetches_each (query : string) (max_results : Z)
    (include_body : bool) (ids : list string) (fetched : list Message) :
  list_messages query max_results = Ok (Some (map (λ i, mkRef (Some i)) ids)) →
  Forall2 (λ i m, get_remote i (listing_format include_body) = Ok m) ids fetched →
  listing query max_results include_body
  = (Ok fetched,
     CallList query max_results
     :: map (λ i, CallGet i (listing_format include_body)) ids)
  ∧ length fetched = length ids
  ∧ length (listing query max_results include_body).2 = S (length ids).
Proof.
  intros Hlist Hall.
  assert (Heq : listing query max_results include_body
                = (Ok fetched,
                   CallList query max_results
                   :: map (λ i, CallGet i (listing_format include_body)) ids)).
  { unfold get_messages. rewrite Hlist. cbn [default from_option id].
    rewrite (fetch_loop_all include_body ids fetched [] _ Hall). reflexivity. }
  split; [exact Heq|]. split.
  - symmetry. exact (Forall2_length _ _ _ Hall).
  - rewrite Heq. cbn [snd length]. rewrite length_map. reflexivity.
Qed.

(** The first message that cannot be fetched ends the listing: its error
    is raised, the messages fetched before it are dropped, and the ids
    after it are never asked for. *)
Theorem get_messages_stops_at_failure (query : string) (max_results : Z)
    (include_body : bool) (before : list string) (fetched : list Message)
    (failing : string) (after : list MessageRef) (e : exn) :
  list_messages query max_results
  = Ok (Some (map (λ i, mkRef (Some i)) before ++ mkRef (Some failing) :: after)%list) →
  Forall2 (λ i m, get_remote i (listing_format include_body) = Ok m) before fetched →
  get_remote failing (listing_format include_body) = Raise e →
  listing query max_results include_body
  = (Raise e,
     (CallList query max_results
      :: map (λ i, CallGet i (listing_format include_body)) before
      ++ [CallGet failing (listing_format include_body)])%list).
Proof.
  intros Hlist Hall Hfail. unfold get_messages. rewrite Hlist.
  cbn [default from_option id].
  rewrite (fetch_loop_failure include_body before fetched failing after e [] _ Hall Hfail).
  reflexivity.
Qed.

(** A listing without matches (no [messages] field, or an empty one) gives
    the empty list after the one listing call, and a listing that fails
    raises its error without any fetch. *)
Theorem get_messages_without_matches (query : string) (max_results : Z)
    (include_body : bool) :
  (list_messages query max_results = Ok None
   ∨ list_messages query max_results = Ok (Some []) →
   listing query max_results include_body = (Ok [], [CallList query max_results]))
  ∧ (∀ e, list_messages query max_results = Raise e →
       listing query max_results include_body
       = (Raise e, [CallList query max_results])).
Proof.
  unfold get_messages. split.
  - intros [-> | ->]; reflexivity.
  - intros e ->. reflexivity.
Qed.

End ListingProperties.

Lemma get_messages_fetches_each_witness :
  get_messages two_refs fetch_any "is:unread" 10 true
  = (Ok [mkMessage None (Some "m1"); mkMessage None (Some "m2");
         mkMessage None (Some "m3")],
     [CallList "is:unread" 10; CallGet "m1" "full"; CallGet "m2" "full";
      CallGet "m3" "full"]).
Proof.
  destruct (get_messages_fetches_each two_refs fetch_any "is:unread" 10 true
              ["m1"; "m2"; "m3"]
              [mkMessage None (Some "m1"); mkMessage None (Some "m2");
               mkMessage None (Some "m3")] eq_refl) as [H _].
  - repeat constructor.
  - exact H.
Defined.

Lemma get_messages_stops_at_failure_witness :
  get_messages two_refs fetch_but_m2 "is:unread" 10 false
  = (Raise (OSError "HttpError 404"),
     [CallList "is:unread" 10; CallGet "m1" "metadata"; CallGet "m2" "metadata"]).
Proof.
  apply (get_messages_stops_at_failure two_refs fetch_but_m2 "is:unread" 10 false
           ["m1"] [mkMessage None (Some "m1")] "m2" [mkRef (Some "m3")]
           (OSError "HttpError 404") eq_refl).
  - repeat constructor.
  - reflexivity.
Defined.

Lemma get_messages_without_matches_witness :
  get_messages (λ _ _, Ok None) fetch_any "from:nobody" 10 true
  = (Ok [], [CallList "from:nobody" 10]).
Proof.
  destruct (get_messages_without_matches (λ _ _, Ok None) fetch_any "from:nobody" 10 true)
    as [H _].
  apply H. left. reflexivity.
Defined.

(** * More on sent messages *)

(** A string that contains a character splits at its last occurrence. *)
Lemma last_occurrence (c : ascii) (s : string) :
  Py.contains (String c "") s = true →
  ∃ pre x, s = pre +:+ String c x ∧ Py.contains (String c "") x = false.
Proof.
  induction s as [|a s IH]; [discriminate|].
  rewrite contains_char_cons. destruct (Py.contains (String c "") s) eqn:Hs.
  - intros _. destruct (IH eq_refl) as (pre & x & -> & Hx).
    exists (String a pre), x. split; [reflexivity | exact Hx].
  - rewrite orb_false_r. intros Ha. apply bool_decide_eq_true in Ha as <-.
    exists "", s. split; [reflexivity | exact Hs].
Qed.

(** The base name of a path has no slash in it, and the path is the base
    name itself or a directory, a slash and the base name. *)
Lemma basename_spec (path : string) :
  Py.contains "/" (basename path) = false
  ∧ (path = basename path ∨ ∃ dir, path = dir +:+ "/" +:+ basename path).
Proof.
  unfold basename. destruct (Py.contains "/" path) eqn:Hc.
  - destruct (last_occurrence "/" path Hc) as (pre & x & -> & Hx).
    rewrite (split_char_last "/" pre x Hx).
    split; [exact Hx|]. right. exists pre. reflexivity.
  - rewrite (split_char_absent _ _ Hc). unfold Py.last. cbn [List.last].
    split; [exact Hc | left; reflexivity].
Qed.

Section SendMore.

Variable isfile : string → bool.
Variable read_file : string → result string.
Variable guess_type : string → option string * option string.

Abbreviation attach := (attach_all isfile read_file guess_type).
Abbreviation send := (send_message isfile read_file guess_type).

Lemma attachment_part_file (path : string) :
  isfile path = true →
  attachment_part isfile read_file guess_type path
  = match Py.split_max "/" 1 (content_type_for guess_type path) with
    | [main_type; sub_type] =>
        bind (read_file path)
          (λ content, Ok (Some (MIMEBase main_type sub_type content (basename path))))
    | _ => Raise (ValueError "not enough values to unpack (expected 2)")
    end.
Proof.
  intros Hfile. unfold attachment_part, content_type_for. rewrite Hfile.
  destruct (guess_type path) as [[ct|] [enc|]]; reflexivity.
Qed.

(** Every attached file part comes from a path of the list that is a file:
    it carries that file's content and is named by the path's base name. *)
Lemma attach_all_origin (paths : list string) (files : list mime) :
  attach paths = Ok files →
  ∀ a, In a files →
    ∃ path main_type sub_type content,
      a = MIMEBase main_type sub_type content (basename path)
      ∧ In path paths ∧ isfile path = true ∧ read_file path = Ok content.
Proof.
  revert files. induction paths as [|path paths IH]; intros files.
  - intros [= <-] a [].
  - cbn [attach_all]. destruct (isfile path) eqn:Hfile.
    + rewrite (attachment_part_file path Hfile).
      destruct (Py.split_max "/" 1 _) as [|main_type [|sub_type [|? ?]]];
        cbn [bind]; try discriminate.
      destruct (read_file path) as [content|e] eqn:Hread; cbn [bind]; [|discriminate].
      destruct (attach paths) as [others|e]; cbn [bind]; [|discriminate].
      intros [= <-] a [<- | Hin].
      * exists path, main_type, sub_type, content.
        split; [reflexivity|]. split; [left; reflexivity|]. split; assumption.
      * destruct (IH others eq_refl a Hin) as (q & mt & st & ct & Ha & Hq & Hrest).
        exists q, mt, st, ct. split; [exact Ha|]. split; [right; exact Hq | exact Hrest].
    + unfold attachment_part. rewrite Hfile. cbn [bind].
      destruct (attach paths) as [others|e]; cbn [bind]; [|discriminate].
      intros [= <-] a Hin.
      destruct (IH others eq_refl a Hin) as (q & mt & st & ct & Ha & Hq & Hrest).
      exists q, mt, st, ct. split; [exact Ha|]. split; [right; exact Hq | exact Hrest].
Qed.

Lemma attach_all_filter (paths : list string) :
  attach (filter (λ path, isfile path = true) paths) = attach paths.
Proof.
  induction paths as [|path paths IH]; [reflexivity|].
  rewrite filter_cons. cbn [attach_all]. destruct (isfile path) eqn:Hfile.
  - rewrite decide_True by reflexivity. cbn [attach_all]. rewrite IH. reflexivity.
  - rewrite decide_False by discriminate. rewrite IH.
    unfold attachment_part. rewrite Hfile. cbn [bind].
    destruct (attach paths); reflexivity.
Qed.

(** The parts of a sent message: the plain body, then the HTML body when
    one is given, then the attachments. *)
Lemma send_message_parts (to subject body : string)
    (cc bcc html_body : option string) (attachments : option (list string))
    (m : mime) :
  send to subject body cc bcc html_body attachments = Ok m →
  ∃ files,
    attach (default [] attachments) = Ok files
    ∧ m = MIMEMultipart
            (if Py.truthy_opt html_body then "alternative" else "mixed")
            ([("To", to); ("Subject", subject)]
             ++ optional_header "Cc" cc ++ optional_header "Bcc" bcc)%list
            (MIMEText body "plain"
             :: (if Py.truthy_opt html_body
                 then [MIMEText (default "" html_body) "html"] else [])
             ++ files)%list.
Proof.
  unfold send_message.
  assert (Hatt : match attachments with
                 | Some l => attach l
                 | None => Ok []
                 end = attach (default [] attachments)).
  { destruct attachments; reflexivity. }
  rewrite Hatt. destruct (attach (default [] attachments)) as [files|e];
    cbn [bind]; [|discriminate].
  intros [= <-]. exists files. split; [reflexivity|].
  destruct html_body as [[|? ?]|]; reflexivity.
Qed.

(** An attachment of a sent message is named without any directory
    component: its file name has no slash, it is the base name of one of
    the given paths, that path is a file, and the part carries the content
    read from it. *)
Theorem attachment_names_have_no_directory (to subject body : string)
    (cc bcc html_body : option string) (paths : list string) (m : mime) :
  send to subject body cc bcc html_body (Some paths) = Ok m →
  ∀ a, In a (mime_children m) → is_attachment a →
    Py.contains "/" (attachment_filename a) = false
    ∧ ∃ path content,
        In path paths ∧ isfile path = true ∧ read_file path = Ok content
        ∧ (path = attachment_filename a
           ∨ ∃ dir, path = dir +:+ "/" +:+ attachment_filename a)
        ∧ ∃ main_type sub_type,
            a = MIMEBase main_type sub_type content (attachment_filename a).
Proof.
  intros Hsent a Hin Hatt.
  destruct (send_message_parts _ _ _ _ _ _ _ _ Hsent) as (files & Hfiles & ->).
  cbn [mime_children default from_option id] in Hin, Hfiles.
  assert (Ha : In a files).
  { destruct Hin as [<- | Hin]; [destruct Hatt|].
    apply in_app_or in Hin as [Hin | Hin]; [|exact Hin].
    destruct (Py.truthy_opt html_body); [|destruct Hin].
    destruct Hin as [<- | []]. destruct Hatt. }
  destruct (attach_all_origin paths files Hfiles a Ha)
    as (path & mt & st & content & -> & Hpath & Hfile & Hread).
  cbn [attachment_filename].
  destruct (basename_spec path) as [Hslash Hdir].
  split; [exact Hslash|].
  exists path, content.
  split; [exact Hpath|]. split; [exact Hfile|]. split; [exact Hread|].
  split; [exact Hdir|]. exists mt, st. reflexivity.
Qed.

(** Paths that are not files are passed over without any error: the
    message is the one that would be sent with those paths left out, and
    when none of the paths is a file it is the message without
    attachments. *)
Theorem send_ignores_missing_files (to subject body : string)
    (cc bcc html_body : option string) (paths : list string) :
  send_message isfile read_file guess_type to subject body cc bcc html_body (Some paths)
  = send_message isfile read_file guess_type to subject body cc bcc html_body
      (Some (filter (λ path, isfile path = true) paths))
  ∧ ((∀ path, In path paths → isfile path = false) →
     send_message isfile read_file guess_type to subject body cc bcc html_body
       (Some paths)
     = send_message isfile read_file guess_type to subject body cc bcc html_body None).
Proof.
  split.
  - unfold send_message. rewrite attach_all_filter. reflexivity.
  - intros Hnone. unfold send_message.
    assert (Hempty : attach paths = Ok []).
    { induction paths as [|path paths IH]; [reflexivity|].
      cbn [attach_all]. unfold attachment_part.
      rewrite (Hnone path (or_introl eq_refl)). cbn [bind].
      rewrite IH by (intros q Hq; apply Hnone; right; exact Hq). reflexivity. }
    rewrite Hempty. reflexivity.
Qed.

(** An attachment that is a file but cannot be read makes the whole send
    raise the read error, whatever follows it in the list: nothing is sent
    with the attachment missing. *)
Theorem unreadable_attachment_raises (to subject body : string)
    (cc bcc html_body : option string) (before after : list string)
    (files : list mime) (path : string) (e : exn) :
  attach before = Ok files →
  isfile path = true →
  Py.contains "/" (content_type_for guess_type path) = true →
  read_file path = Raise e →
  send to subject body cc bcc html_body (Some (before ++ path :: after)%list)
  = Raise e.
Proof.
  intros Hbefore Hfile Htype Hread. unfold send_message.
  assert (Hraise : attach (before ++ path :: after)%list = Raise e).
  { clear to subject body cc bcc html_body. revert files Hbefore.
    induction before as [|q before IH]; intros files Hbefore.
    - cbn [app attach_all]. rewrite (attachment_part_file path Hfile).
      destruct (split_first_slash_pair _ Htype) as (k & v & ->).
      rewrite Hread. reflexivity.
    - cbn [app attach_all] in Hbefore |- *.
      destruct (attachment_part isfile read_file guess_type q) as [part|e'];
        cbn [bind] in Hbefore |- *; [|discriminate].
      destruct (attach before) as [others|e']; cbn [bind] in Hbefore; [|discriminate].
      rewrite (IH others eq_refl). reflexivity. }
  rewrite Hraise. reflexivity.
Qed.

(** The envelope of every message that is sent: To and Subject are the
    given ones, Cc and Bcc are set exactly when they are given and not
    empty, the container is multipart/alternative exactly when an HTML body
    is given and not empty, whatever the attachments, and the attachments
    follow the bodies inside that one container. *)
Theorem send_message_envelope (to subject body : string)
    (cc bcc html_body : option string) (attachments : option (list string))
    (m : mime) :
  send to subject body cc bcc html_body attachments = Ok m →
  header_of "To" (Ok m) = Some to
  ∧ header_of "Subject" (Ok m) = Some subject
  ∧ header_of "Cc" (Ok m) = (if Py.truthy_opt cc then cc else None)
  ∧ header_of "Bcc" (Ok m) = (if Py.truthy_opt bcc then bcc else None)
  ∧ ∃ files,
      Forall is_attachment files
      ∧ shape_of m
        = Group (if Py.truthy_opt html_body then "alternative" else "mixed")
            (Leaf "text/plain"
             :: (if Py.truthy_opt html_body then [Leaf "text/html"] else [])
             ++ map shape_of files)%list.
Proof.
  intros Hsent.
  destruct (send_message_parts _ _ _ _ _ _ _ _ Hsent) as (files & Hfiles & ->).
  cbn [header_of mime_headers].
  split; [reflexivity|]. split; [reflexivity|].
  split; [destruct cc as [[|? ?]|], bcc as [[|? ?]|]; reflexivity|].
  split; [destruct cc as [[|? ?]|], bcc as [[|? ?]|]; reflexivity|].
  exists files. split.
  - exact (proj1 (attach_all_files isfile read_file guess_type _ _ Hfiles)).
  - cbn [shape_of]. destruct (Py.truthy_opt html_body); reflexivity.
Qed.

End SendMore.

Lemma attachment_names_have_no_directory_witness :
  Py.contains "/" "report.pdf" = false
  ∧ ∃ path content,
      In path ["/tmp/report.pdf"; "/tmp/missing.txt"]
      ∧ one_file path = true ∧ read_pdf path = Ok content
      ∧ (path = "report.pdf" ∨ ∃ dir, path = dir +:+ "/" +:+ "report.pdf")
      ∧ ∃ main_type sub_type,
          MIMEBase "application" "pdf" "%PDF" "report.pdf"
          = MIMEBase main_type sub_type content "report.pdf".
Proof.
  apply (attachment_names_have_no_directory one_file read_pdf guess_pdf
           "bob@example.com" "Report" "See attached." None None None
           ["/tmp/report.pdf"; "/tmp/missing.txt"] _ eq_refl
           (MIMEBase "application" "pdf" "%PDF" "report.pdf")).
  - right. left. reflexivity.
  - exact I.
Defined.

Lemma send_ignores_missing_files_witness :
  send_message one_file read_pdf guess_pdf "bob@example.com" "Hi" "hello" None None None
    (Some ["/tmp/missing.txt"; "/tmp/also-missing.txt"])
  = send_message one_file read_pdf guess_pdf "bob@example.com" "Hi" "hello" None None None
      None.
Proof.
  apply (send_ignores_missing_files one_file read_pdf guess_pdf).
  intros path [<- | [<- | []]]; reflexivity.
Defined.

Lemma unreadable_attachment_raises_witness :
  send_message two_files read_report guess_pdf "bob@example.com" "Keys" "See attached."
    None None None (Some ["/tmp/report.pdf"; "/root/secret.key"; "/tmp/report.pdf"])
  = Raise (OSError "/root/secret.key").
Proof.
  apply (unreadable_attachment_raises two_files read_report guess_pdf
           "bob@example.com" "Keys" "See attached." None None None
           ["/tmp/report.pdf"] ["/tmp/report.pdf"]
           [MIMEBase "application" "pdf" "%PDF" "report.pdf"] "/root/secret.key"
           (OSError "/root/secret.key")); reflexivity.
Defined.

Lemma send_message_envelope_witness :
  ∃ m,
    send_message one_file read_pdf guess_pdf "bob@example.com" "Report" "See attached."
      (Some "carol@example.com") (Some "") (Some "<p>See attached.</p>")
      (Some ["/tmp/report.pdf"]) = Ok m
    ∧ header_of "Cc" (Ok m) = Some "carol@example.com"
    ∧ header_of "Bcc" (Ok m) = None.
Proof.
  eexists. split; [reflexivity|].
  destruct (send_message_envelope one_file read_pdf guess_pdf
              "bob@example.com" "Report" "See attached."
              (Some "carol@example.com") (Some "") (Some "<p>See attached.</p>")
              (Some ["/tmp/report.pdf"]) _ eq_refl) as (_ & _ & Hcc & Hbcc & _).
  split; [exact Hcc | exact Hbcc].
Defined.

(** * More on replies *)

(** A string that contains a character splits at its first occurrence. *)
Lemma first_occurrence (c : ascii) (s : string) :
  Py.contains (String c "") s = true →
  ∃ x post, s = x +:+ String c post ∧ Py.contains (String c "") x = false.
Proof.
  induction s as [|a s IH]; [discriminate|].
  rewrite contains_char_cons. destruct (bool_decide_reflect (c = a)) as [<-|Hne].
  - intros _. exists "", s. split; reflexivity.
  - cbn [orb]. intros Hs. destruct (IH Hs) as (x & post & -> & Hx).
    exists (String a x), post. split; [reflexivity|].
    rewrite contains_char_cons, Hx, bool_decide_eq_false_2 by exact Hne. reflexivity.
Qed.

Lemma split_last_absent (c : ascii) (s : string) :
  Py.contains (String c "") (Py.last (Py.split (String c "") s)) = false.
Proof.
  destruct (Py.contains (String c "") s) eqn:Hc.
  - destruct (last_occurrence c s Hc) as (pre & x & -> & Hx).
    rewrite (split_char_last c pre x Hx). exact Hx.
  - rewrite (split_char_absent _ _ Hc). exact Hc.
Qed.

(** The first piece has no separator in it, and no character that the
    string does not have. *)
Lemma split_first_absent (c d : ascii) (s : string) :
  Py.contains (String c "") (Py.first (Py.split (String c "") s)) = false
  ∧ (Py.contains (String d "") s = false →
     Py.contains (String d "") (Py.first (Py.split (String c "") s)) = false).
Proof.
  destruct (Py.contains (String c "") s) eqn:Hc.
  - destruct (first_occurrence c s Hc) as (x & post & -> & Hx).
    rewrite (split_char_first c x post Hx). split; [exact Hx|].
    rewrite contains_char_append. intros [Hd _]%orb_false_elim. exact Hd.
  - rewrite (split_char_absent _ _ Hc). split; [exact Hc | auto].
Qed.

(** Whatever the original's From and Subject are, a message object that
    [reply_to_message] builds is addressed to a text without angle
    brackets, and its Subject starts with "Re:". *)
Theorem reply_address_and_subject (original : Message) (plain_body : string)
    (html_body : option string) (m : mime) :
  reply_to_message original plain_body html_body = Ok m →
  ∃ to subject,
    header_of "To" (Ok m) = Some to
    ∧ Py.contains "<" to = false
    ∧ Py.contains ">" to = false
    ∧ header_of "Subject" (Ok m) = Some subject
    ∧ Py.startswith subject "Re:" = true.
Proof.
  intros Hbuilt.
  assert (Hfields : ∃ p hs, payload original = Some p ∧ headers p = Some hs).
  { unfold reply_to_message in Hbuilt.
    destruct (payload original) as [p|]; [|discriminate].
    cbn [subscript bind] in Hbuilt.
    destruct (headers p) as [hs|] eqn:Hh; [|discriminate].
    exists p, hs. split; [reflexivity | exact Hh]. }
  destruct Hfields as (p & hs & Hp & Hh). rewrite <- Hbuilt. eexists _, _.
  split; [exact (reply_to original p hs plain_body html_body Hp Hh)|].
  split; [|split; [|split]].
  - apply split_first_absent, split_last_absent.
  - apply (split_first_absent ">" "<").
  - exact (reply_subject original p hs plain_body html_body Hp Hh).
  - destruct (Py.startswith (get (headers_dict hs) "Subject") "Re:") eqn:Hs; [exact Hs|].
    change ("Re: " +:+ ?x) with ("Re:" +:+ String " " x). apply startswith_append.
Qed.

Lemma reply_address_and_subject_witness :
  ∃ m to subject,
    reply_to_message two_addresses "Thanks" None = Ok m
    ∧ header_of "To" (Ok m) = Some to
    ∧ Py.contains "<" to = false
    ∧ Py.contains ">" to = false
    ∧ header_of "Subject" (Ok m) = Some subject
    ∧ Py.startswith subject "Re:" = true.
Proof.
  destruct (reply_address_and_subject two_addresses "Thanks" None _ eq_refl)
    as (to & subject & H).
  eexists _, to, subject. split; [reflexivity | exact H].
Defined.

(** A reply needs the parsed headers and a forward needs the raw text.
    When the message the service returns for a reply has no payload, or a
    payload without headers, [reply_to_message] raises KeyError, and when
    the message returned for a forward lacks the raw field,
    [forward_message] raises KeyError: nothing is serialised and nothing is
    submitted. *)
Theorem wrong_format_raises (get_message : string → string → result Message)
    (as_bytes : mime → result string) (send : string → result Message)
    (message_id : string) (original : Message) (body : string)
    (html_body : option string) (to : string) (additional_body : option string) :
  (get_message message_id "full" = Ok original →
   (payload original = None →
    Connector.reply_to_message get_message as_bytes send message_id body html_body
    = Raise (KeyError "payload"))
   ∧ (∀ p, payload original = Some p → headers p = None →
        Connector.reply_to_message get_message as_bytes send message_id body html_body
        = Raise (KeyError "headers")))
  ∧ (get_message message_id "raw" = Ok original →
     raw original = None →
     Connector.forward_message get_message as_bytes send message_id to additional_body
     = Raise (KeyError "raw")).
Proof.
  split.
  - intros Hget. unfold Connector.reply_to_message. rewrite Hget. cbn [bind].
    unfold reply_to_message. split.
    + intros Hp. rewrite Hp. reflexivity.
    + intros p Hp Hh. rewrite Hp. cbn [subscript bind]. rewrite Hh. reflexivity.
  - intros Hget Hr. unfold Connector.forward_message. rewrite Hget. cbn [bind].
    unfold forward_message. rewrite Hr. reflexivity.
Qed.

Lemma wrong_format_raises_witness :
  Connector.reply_to_message (λ _ _, Ok (raw_of forwarded_text))
    (λ _, Ok "bytes") (λ _, Ok (raw_of "")) "m1" "Thanks" None
  = Raise (KeyError "payload")
  ∧ Connector.forward_message (λ _ _, Ok thread_original)
      (λ _, Ok "bytes") (λ _, Ok (raw_of "")) "m1" "bob@example.com" None
    = Raise (KeyError "raw").
Proof.
  destruct (wrong_format_raises (λ _ _, Ok (raw_of forwarded_text))
              (λ _, Ok "bytes") (λ _, Ok (raw_of "")) "m1" (raw_of forwarded_text)
              "Thanks" None "" None) as (Hreply & _).
  destruct (wrong_format_raises (λ _ _, Ok thread_original)
              (λ _, Ok "bytes") (λ _, Ok (raw_of "")) "m1" thread_original
              "" None "bob@example.com" None) as (_ & Hforward).
  split; [exact (proj1 (Hreply eq_refl) eq_refl) | exact (Hforward eq_refl eq_refl)].
Defined.

(** * More on forwards *)

Lemma split_go_step (sep : string) (m : option nat) (c : ascii) (s : string) :
  Py.split_go sep m 0 (String c s)
  = match m with
    | Some O => [String c s]
    | _ =>
        if String.prefix sep (String c s)
        then "" :: Py.split_go sep (pred <$> m) (String.length sep - 1) s
        else Py.cons_head c (Py.split_go sep m 0 s)
    end.
Proof. reflexivity. Qed.

Lemma split_go_skip (sep : string) (m : option nat) (k : nat) (c : ascii) (s : string) :
  Py.split_go sep m (S k) (String c s) = Py.split_go sep m k s.
Proof. reflexivity. Qed.

(** Without an occurrence of the separator there is one piece. *)
Lemma split_go_absent (sep : string) (m : option nat) (s : string) :
  Py.contains sep s = false → Py.split_go sep m 0 s = [s].
Proof.
  induction s as [|c s IH]; [reflexivity|].
  cbn [Py.contains]. intros [Hp Hs]%orb_false_elim.
  rewrite split_go_step, Hp, (IH Hs). destruct m as [[|n]|]; reflexivity.
Qed.

(** Whether an empty line starts at a character depends on that character
    and the next one only. *)
Lemma prefix_cons (a b : ascii) (p s : string) :
  String.prefix (String a p) (String b s)
  = if ascii_dec a b then String.prefix p s else false.
Proof. reflexivity. Qed.

Lemma prefix_blank_line (c : ascii) (h x y : string) :
  String.prefix blank_line (String c (h +:+ String "010" x))
  = String.prefix blank_line (String c (h +:+ String "010" y)).
Proof.
  unfold blank_line. rewrite !prefix_cons.
  destruct (ascii_dec "010" c); [|reflexivity].
  destruct h as [|d h].
  - change ("" +:+ ?t) with t. rewrite !prefix_cons, !prefix_nil. reflexivity.
  - rewrite !append_cons, !prefix_cons, !prefix_nil. reflexivity.
Qed.

(** Splitting at the first empty line: [head] is what precedes it when no
    empty line starts inside [head] or at its end. *)
Lemma split_at_blank_line (m : option nat) (head rest : string) :
  m ≠ Some 0%nat →
  Py.contains blank_line (head +:+ LF) = false →
  ∃ tail,
    Py.split_go blank_line m 0 (head +:+ blank_line +:+ rest) = head :: tail
    ∧ (m = Some 1%nat → tail = [rest]).
Proof.
  intros Hm. induction head as [|c h IH]; intros Hno.
  - change ("" +:+ blank_line +:+ rest) with (String "010" (String "010" rest)).
    rewrite split_go_step.
    assert (Hp : String.prefix blank_line (String "010" (String "010" rest)) = true).
    { unfold blank_line. rewrite !prefix_cons, prefix_nil.
      destruct (ascii_dec "010" "010"); [reflexivity | congruence]. }
    rewrite Hp. destruct m as [[|n]|]; [congruence| |].
    + eexists. split; [reflexivity|]. intros [= ->].
      cbn [fmap option_fmap option_map pred blank_line String.length Nat.sub].
      rewrite split_go_skip, split_go_exhausted. reflexivity.
    + eexists. split; [reflexivity | discriminate].
  - rewrite append_cons in Hno. cbn [Py.contains] in Hno.
    apply orb_false_elim in Hno as [Hp Hno].
    destruct (IH Hno) as (tail & Hsplit & Htail).
    change (String c h +:+ blank_line +:+ rest)
      with (String c (h +:+ String "010" (String "010" rest))).
    change (h +:+ blank_line +:+ rest)
      with (h +:+ String "010" (String "010" rest)) in Hsplit.
    change (h +:+ LF) with (h +:+ String "010" "") in Hp.
    rewrite split_go_step, (prefix_blank_line c h _ ""), Hp, Hsplit.
    exists tail. split; [|exact Htail].
    destruct m as [[|n]|]; [congruence| reflexivity | reflexivity].
Qed.

Lemma forward_note_is (additional_body : option string) :
  forward_note additional_body
  = match additional_body with
    | Some a => if Py.truthy a then a +:+ LF +:+ LF +:+ banner else banner
    | None => banner
    end.
Proof. reflexivity. Qed.

(** The forward of a message whose raw bytes are the text [raw_message]. *)
Lemma forward_of_text (raw_message to : string) (additional_body : option string)
    (d : gmap string string) :
  Utf8.valid raw_message = true →
  raw_headers raw_message = Ok d →
  forward_message (raw_of raw_message) to additional_body
  = Ok (MIMEMultipart "mixed"
          [("To", to); ("Subject", fwd_subject (get d "Subject"))]
          (MIMEText (forward_note additional_body) "plain"
           :: match Py.split_max (LF +:+ LF) 1 raw_message with
              | _ :: original_body :: _ => [MIMEText original_body "plain"]
              | _ => []
              end)).
Proof.
  intros Hvalid Hd. unfold forward_message, raw_of. cbn [raw subscript bind].
  rewrite urlsafe_b64decode_encode. cbn [bind]. unfold Utf8.decode. rewrite Hvalid.
  cbn [bind]. rewrite Hd. cbn [bind]. unfold fwd_subject.
  destruct (Py.startswith (Py.strip (get d "Subject")) "Fwd:"); reflexivity.
Qed.

Lemma fwd_subject_prefixed (v : string) : Py.startswith (fwd_subject v) "Fwd:" = true.
Proof.
  unfold fwd_subject. destruct (Py.startswith (Py.strip v) "Fwd:") eqn:Hs; [exact Hs|].
  change ("Fwd: " +:+ ?x) with ("Fwd:" +:+ String " " x). apply startswith_append.
Qed.

(** When the message fetched for a forward carries UTF-8 text, nothing
    raises before the message object is serialised: the object is a
    multipart/mixed message to the given recipient whose Subject starts
    with "Fwd:", whose first part is the note and banner, and which has at
    most one more part, and the outcome of [forward_message] is that of
    serialising and submitting this object.  The forward fails, then, only
    where the serialiser or the submission does. *)
Theorem forward_returns (get_message : string → string → result Message)
    (as_bytes : mime → result string) (send : string → result Message)
    (message_id raw_message to : string) (additional_body : option string) :
  get_message message_id "raw" = Ok (raw_of raw_message) →
  Utf8.valid raw_message = true →
  ∃ subject rest,
    let message :=
      MIMEMultipart "mixed" [("To", to); ("Subject", subject)]
        (MIMEText (forward_note additional_body) "plain" :: rest) in
    forward_message (raw_of raw_message) to additional_body = Ok message
    ∧ Py.startswith subject "Fwd:" = true
    ∧ (length rest ≤ 1)%nat
    ∧ Connector.forward_message get_message as_bytes send message_id to
        additional_body
      = Connector.submit as_bytes send message
    ∧ (∀ e, as_bytes message = Raise e →
         Connector.forward_message get_message as_bytes send message_id to
           additional_body = Raise e)
    ∧ (∀ bytes, as_bytes message = Ok bytes →
         Connector.forward_message get_message as_bytes send message_id to
           additional_body = send (Base64.urlsafe_b64encode bytes)).
Proof.
  intros Hget Hvalid. destruct (raw_headers_returns raw_message) as [d Hd].
  pose proof (forward_of_text _ to additional_body d Hvalid Hd) as Hbuilt.
  eexists _, _. cbv zeta.
  split; [exact Hbuilt|].
  split; [apply fwd_subject_prefixed|].
  split.
  { destruct (Py.split_max (LF +:+ LF) 1 raw_message) as [|? [|? ?]]; cbn; lia. }
  assert (Hwhole : Connector.forward_message get_message as_bytes send message_id to
                     additional_body
                   = Connector.submit as_bytes send
                       (MIMEMultipart "mixed"
                          [("To", to); ("Subject", fwd_subject (get d "Subject"))]
                          (MIMEText (forward_note additional_body) "plain"
                           :: match Py.split_max (LF +:+ LF) 1 raw_message with
                              | _ :: original_body :: _ => [MIMEText original_body "plain"]
                              | _ => []
                              end))).
  { unfold Connector.forward_message. rewrite Hget. cbn [bind].
    rewrite Hbuilt. reflexivity. }
  split; [exact Hwhole|]. rewrite Hwhole. unfold Connector.submit.
  split; [intros e -> | intros bytes ->]; reflexivity.
Qed.

(** The part forwarded as the original message is everything after the
    first empty line of the raw text, taken as it is. *)
Theorem forward_attaches_what_follows_first_blank_line
    (head original_body to : string) (additional_body : option string) :
  Utf8.valid (head +:+ blank_line +:+ original_body) = true →
  Py.contains blank_line (head +:+ LF) = false →
  ∃ subject,
    forward_message (raw_of (head +:+ blank_line +:+ original_body)) to additional_body
    = Ok (MIMEMultipart "mixed" [("To", to); ("Subject", subject)]
            [MIMEText (forward_note additional_body) "plain";
             MIMEText original_body "plain"]).
Proof.
  intros Hvalid Hhead.
  destruct (raw_headers_returns (head +:+ blank_line +:+ original_body)) as [d Hd].
  eexists. rewrite (forward_of_text _ to additional_body d Hvalid Hd).
  destruct (split_at_blank_line (Some 1%nat) head original_body
              ltac:(discriminate) Hhead) as (tail & Hsplit & Htail).
  unfold Py.split_max. change (LF +:+ LF) with blank_line.
  rewrite Hsplit, (Htail eq_refl). reflexivity.
Qed.

(** A raw text without an empty line (one that uses CR LF line ends, for
    instance) is forwarded as the note and banner alone: no part carries the
    original message. *)
Theorem forward_without_blank_line (raw_message to : string)
    (additional_body : option string) :
  Utf8.valid raw_message = true →
  Py.contains blank_line raw_message = false →
  ∃ subject,
    forward_message (raw_of raw_message) to additional_body
    = Ok (MIMEMultipart "mixed" [("To", to); ("Subject", subject)]
            [MIMEText (forward_note additional_body) "plain"]).
Proof.
  intros Hvalid Hno. destruct (raw_headers_returns raw_message) as [d Hd].
  eexists. rewrite (forward_of_text _ to additional_body d Hvalid Hd).
  unfold Py.split_max. change (LF +:+ LF) with blank_line.
  rewrite (split_go_absent _ _ _ Hno). reflexivity.
Qed.

(** Raw bytes that are not UTF-8 make the forward raise
    UnicodeDecodeError. *)
Theorem forward_rejects_non_utf8 (raw_bytes to : string)
    (additional_body : option string) (pl : option MessagePart) :
  Utf8.valid raw_bytes = false →
  forward_message (mkMessage pl (Some (Base64.urlsafe_b64encode raw_bytes)))
    to additional_body
  = Raise UnicodeDecodeError.
Proof.
  intros Hinvalid. unfold forward_message. cbn [raw subscript bind].
  rewrite urlsafe_b64decode_encode. cbn [bind]. unfold Utf8.decode.
  rewrite Hinvalid. reflexivity.
Qed.

Lemma dict_of_lists_app (d : gmap string string) (a b : list (list string)) :
  dict_of_lists d (a ++ b) = bind (dict_of_lists d a) (λ d', dict_of_lists d' b).
Proof.
  revert d. induction a as [|[|k [|v [|? ?]]] a IH]; intros d; try reflexivity.
  cbn [app dict_of_lists]. apply IH.
Qed.

(** Header lines that do not start with "key:" leave the value of [key]
    as it is. *)
Lemma dict_of_lines_other (key : string) (lines : list string)
    (d d' : gmap string string) :
  (∀ line, In line lines → Py.startswith line (key +:+ ":") = false) →
  dict_of_lists d
    (map (Py.split_max ":" 1) (filter (λ line, Py.contains ":" line = true) lines))
  = Ok d' →
  d' !! key = d !! key.
Proof.
  revert d. induction lines as [|line lines IH]; intros d Hother.
  - intros [= <-]. reflexivity.
  - rewrite filter_cons. destruct (decide (Py.contains ":" line = true)) as [Hc|Hc].
    + destruct (split_first_colon_pair line Hc) as (k & v & Hkv & Hline).
      cbn [map]. rewrite Hkv. cbn [dict_of_lists]. intros Hd.
      rewrite (IH _ (λ l Hl, Hother l (or_intror Hl)) Hd).
      apply lookup_insert_ne. intros ->.
      specialize (Hother line (or_introl eq_refl)). rewrite Hline in Hother.
      rewrite <- append_assoc in Hother. unfold Py.startswith in Hother.
      rewrite prefix_append in Hother. discriminate.
    + apply IH. intros l Hl. apply Hother. right. exact Hl.
Qed.

Lemma split_max_at_first (c : ascii) (k v : string) :
  Py.contains (String c "") k = false →
  Py.split_max (String c "") 1 (k +:+ String c v) = [k; v].
Proof.
  unfold Py.split_max. induction k as [|a k IH]; intros Hk.
  - change ("" +:+ String c v) with (String c v).
    rewrite split_go_step, prefix_char, bool_decide_eq_true_2 by reflexivity.
    cbn [fmap option_fmap option_map pred String.length Nat.sub].
    rewrite split_go_exhausted. reflexivity.
  - rewrite contains_char_cons in Hk. apply orb_false_elim in Hk as [Ha Hk].
    rewrite append_cons, split_go_step, prefix_char, Ha, (IH Hk). reflexivity.
Qed.

(** The header dictionary of a raw text whose header block has a Subject
    line with no later Subject line after it. *)
Lemma raw_headers_subject (head rest v : string) (before after : list string) :
  Py.contains blank_line (head +:+ LF) = false →
  Py.split LF head = (before ++ ("Subject:" +:+ v) :: after)%list →
  (∀ line, In line after → Py.startswith line "Subject:" = false) →
  ∃ d, raw_headers (head +:+ blank_line +:+ rest) = Ok d ∧ get d "Subject" = v.
Proof.
  intros Hhead Hlines Hafter.
  destruct (split_at_blank_line None head rest ltac:(discriminate) Hhead)
    as (tail & Hsplit & _).
  unfold raw_headers, Py.split at 2. change (LF +:+ LF) with blank_line.
  rewrite Hsplit. cbn [Py.first hd]. rewrite Hlines.
  rewrite filter_app, filter_cons, map_app.
  assert (Hcolon : Py.contains ":" ("Subject:" +:+ v) = true).
  { change ("Subject:" +:+ v) with ("Subject" +:+ String ":" v).
    rewrite contains_char_append. change (Py.contains ":" "Subject") with false.
    rewrite contains_char_cons, bool_decide_eq_true_2 by reflexivity. reflexivity. }
  rewrite decide_True by exact Hcolon. cbn [map].
  change ("Subject:" +:+ v) with ("Subject" +:+ String ":" v).
  rewrite (split_max_at_first ":" "Subject" v eq_refl).
  rewrite dict_of_lists_app.
  destruct (dict_of_lines_returns before ∅) as [d1 ->]. cbn [bind dict_of_lists].
  destruct (dict_of_lines_returns after (<["Subject" := v]> d1)) as [d Hd].
  exists d. split; [exact Hd|].
  unfold get. rewrite (dict_of_lines_other "Subject" after _ d Hafter Hd).
  rewrite lookup_insert_eq. reflexivity.
Qed.

(** For a raw text made of a header block, an empty line and a body, where
    the header block has a line "Subject:v" and no Subject line after it:
    the forward's Subject is v stripped, with "Fwd: " put in front unless
    it already starts with "Fwd:", and its parts are the note and banner
    and then the body. *)
Theorem forward_subject_from_header (head original_body v to : string)
    (additional_body : option string) (before after : list string) :
  Utf8.valid (head +:+ blank_line +:+ original_body) = true →
  Py.contains blank_line (head +:+ LF) = false →
  Py.split LF head = (before ++ ("Subject:" +:+ v) :: after)%list →
  (∀ line, In line after → Py.startswith line "Subject:" = false) →
  forward_message (raw_of (head +:+ blank_line +:+ original_body)) to additional_body
  = Ok (MIMEMultipart "mixed" [("To", to); ("Subject", fwd_subject v)]
          [MIMEText (forward_note additional_body) "plain";
           MIMEText original_body "plain"]).
Proof.
  intros Hvalid Hhead Hlines Hafter.
  destruct (raw_headers_subject head original_body v before after Hhead Hlines Hafter)
    as (d & Hd & Hv).
  rewrite (forward_of_text _ to additional_body d Hvalid Hd), Hv.
  destruct (split_at_blank_line (Some 1%nat) head original_body
              ltac:(discriminate) Hhead) as (tail & Hsplit & Htail).
  unfold Py.split_max. change (LF +:+ LF) with blank_line.
  rewrite Hsplit, (Htail eq_refl). reflexivity.
Qed.

Lemma forward_returns_witness :
  Connector.forward_message (λ _ _, Ok (raw_of plain_text_mail))
    (λ _, Raise (HeaderParseError "embedded header")) (λ _, Ok (raw_of ""))
    "m1" "bob@example.com" (Some "FYI")
  = Raise (HeaderParseError "embedded header")
  ∧ ∃ message,
      forward_message (raw_of plain_text_mail) "bob@example.com" (Some "FYI")
      = Ok message
      ∧ Connector.forward_message (λ _ _, Ok (raw_of plain_text_mail))
          (λ _, Ok "bytes") (λ raw, Ok (mkMessage None (Some raw)))
          "m1" "bob@example.com" (Some "FYI")
        = Ok (mkMessage None (Some "Ynl0ZXM=")).
Proof.
  destruct (forward_returns (λ _ _, Ok (raw_of plain_text_mail))
              (λ _, Raise (HeaderParseError "embedded header")) (λ _, Ok (raw_of ""))
              "m1" plain_text_mail "bob@example.com" (Some "FYI") eq_refl eq_refl)
    as (subject & rest & _ & _ & _ & _ & Hraise & _).
  destruct (forward_returns (λ _ _, Ok (raw_of plain_text_mail))
              (λ _, Ok "bytes") (λ raw, Ok (mkMessage None (Some raw)))
              "m1" plain_text_mail "bob@example.com" (Some "FYI") eq_refl eq_refl)
    as (subject' & rest' & Hbuilt & _ & _ & _ & _ & Hsent).
  split; [exact (Hraise _ eq_refl)|].
  eexists. split; [exact Hbuilt | exact (Hsent "bytes" eq_refl)].
Defined.

Lemma forward_attaches_what_follows_first_blank_line_witness :
  ∃ subject,
    forward_message (raw_of plain_text_mail) "bob@example.com" None
    = Ok (MIMEMultipart "mixed" [("To", "bob@example.com"); ("Subject", subject)]
            [MIMEText banner "plain";
             MIMEText ("body text" +:+ LF +:+ LF +:+ "more") "plain"]).
Proof.
  exact (forward_attaches_what_follows_first_blank_line
           ("From: alice@example.com" +:+ LF +:+ "Subject: Hello" +:+ LF +:+ "X-Note: a:b")
           ("body text" +:+ LF +:+ LF +:+ "more") "bob@example.com" None
           eq_refl eq_refl).
Defined.

Lemma forward_without_blank_line_witness :
  ∃ subject,
    forward_message (raw_of crlf_text) "bob@example.com" None
    = Ok (MIMEMultipart "mixed" [("To", "bob@example.com"); ("Subject", subject)]
            [MIMEText banner "plain"]).
Proof.
  exact (forward_without_blank_line crlf_text "bob@example.com" None eq_refl eq_refl).
Defined.

Lemma forward_rejects_non_utf8_witness :
  forward_message (mkMessage None (Some "_w==")) "bob@example.com" None
  = Raise UnicodeDecodeError.
Proof.
  exact (forward_rejects_non_utf8 (String "255" "") "bob@example.com" None None eq_refl).
Defined.

Lemma forward_subject_from_header_witness :
  forward_message (raw_of plain_text_mail) "bob@example.com" None
  = Ok (MIMEMultipart "mixed" [("To", "bob@example.com"); ("Subject", "Fwd: Hello")]
          [MIMEText banner "plain";
           MIMEText ("body text" +:+ LF +:+ LF +:+ "more") "plain"]).
Proof.
  apply (forward_subject_from_header
           ("From: alice@example.com" +:+ LF +:+ "Subject: Hello" +:+ LF +:+ "X-Note: a:b")
           ("body text" +:+ LF +:+ LF +:+ "more") " Hello" "bob@example.com" None
           ["From: alice@example.com"] ["X-Note: a:b"] eq_refl eq_refl eq_refl).
  intros line [<- | []]. reflexivity.
Defined.

(** * Header extraction, for replies and forwards *)

Lemma cut_at_first_colon_cons (c : ascii) (rest : string) :
  cut_at_first_colon (String c rest)
  = if Ascii.eqb c ":" then Some ("", rest)
    else match cut_at_first_colon rest with
         | Some (k, v) => Some (String c k, v)
         | None => None
         end.
Proof. reflexivity. Qed.

(** [split(':', 1)] cuts a line that has a colon at its first colon: the
    name has no colon, and the value is everything after that colon. *)
Lemma split_cuts_at_first_colon (line : string) :
  Py.contains ":" line = true →
  ∃ k v,
    Py.split_max ":" 1 line = [k; v]
    ∧ line = k +:+ ":" +:+ v
    ∧ Py.contains ":" k = false
    ∧ cut_at_first_colon line = Some (k, v).
Proof.
  induction line as [|a line IH]; [discriminate|].
  rewrite contains_char_cons, cut_at_first_colon_cons.
  unfold Py.split_max. cbn [Py.split_go].
  rewrite prefix_char. destruct (bool_decide_reflect (":"%char = a)) as [<-|Hne].
  - intros _. exists "", line.
    cbn [fmap option_fmap option_map pred String.length Nat.sub].
    rewrite split_go_exhausted. repeat split.
  - cbn [orb]. intros Hc. destruct (IH Hc) as (k & v & Hkv & Hline & Hk & Hcut).
    unfold Py.split_max in Hkv. rewrite Hkv, Hcut.
    assert (Ha : Ascii.eqb a ":" = false).
    { apply Ascii.eqb_neq. intros ->. apply Hne. reflexivity. }
    rewrite Ha. exists (String a k), v.
    split; [reflexivity|]. split; [rewrite Hline at 1; reflexivity|].
    split; [|reflexivity].
    rewrite contains_char_cons, Hk, bool_decide_eq_false_2 by exact Hne. reflexivity.
Qed.

(** The dictionary built from header lines holds, under each name, the
    value of the last line of exactly that name. *)
Lemma dict_of_lines_lookup (lines : list string) (d : gmap string string) :
  ∃ d',
    dict_of_lists d
      (map (Py.split_max ":" 1)
         (filter (λ line, Py.contains ":" line = true) lines)) = Ok d'
    ∧ ∀ key,
        d' !! key
        = match find_last_line key
                  (filter (λ line, Py.contains ":" line = true) lines) with
          | Some v => Some v
          | None => d !! key
          end.
Proof.
  revert d. induction lines as [|line lines IH]; intros d.
  - exists d. split; reflexivity.
  - rewrite filter_cons. destruct (decide (Py.contains ":" line = true)) as [Hc|Hc];
      [|apply IH].
    destruct (split_cuts_at_first_colon line Hc) as (k & v & Hkv & _ & _ & Hcut).
    cbn [map]. rewrite Hkv. cbn [dict_of_lists].
    destruct (IH (<[k := v]> d)) as (d' & Hd' & Hlook).
    exists d'. split; [exact Hd'|]. intros key. rewrite Hlook.
    cbn [find_last_line].
    destruct (find_last_line key (filter (λ l, Py.contains ":" l = true) lines));
      [reflexivity|].
    rewrite Hcut. destruct (String.eqb_spec k key) as [->|Hne].
    + apply lookup_insert_eq.
    + apply lookup_insert_ne. exact Hne.
Qed.

Lemma raw_headers_lookup (raw_message : string) :
  ∃ d,
    raw_headers raw_message = Ok d
    ∧ ∀ key, d !! key = find_last_line key (header_lines raw_message).
Proof.
  destruct (dict_of_lines_lookup
              (Py.split LF (Py.first (Py.split (LF +:+ LF) raw_message))) ∅)
    as (d & Hd & Hlook).
  exists d. split; [exact Hd|]. intros key. rewrite Hlook. unfold header_lines.
  destruct (find_last_line key _); [reflexivity | apply lookup_empty].
Qed.

Lemma find_last_line_none (key : string) (lines : list string) :
  (∀ line k v, In line lines → cut_at_first_colon line = Some (k, v) → k ≠ key) →
  find_last_line key lines = None.
Proof.
  induction lines as [|line lines IH]; intros Hnone; [reflexivity|].
  cbn [find_last_line].
  rewrite (IH (λ l k v Hl, Hnone l k v (or_intror Hl))).
  destruct (cut_at_first_colon line) as [[k v]|] eqn:Hcut; [|reflexivity].
  destruct (String.eqb_spec k key) as [->|Hne]; [|reflexivity].
  exfalso. exact (Hnone line key v (or_introl eq_refl) Hcut eq_refl).
Qed.

(** C7 (amended).  Extracting the headers of the original does not raise,
    whatever colons or letter case the header names and values have, and
    lookup by name is exact, not case-insensitive, on both paths.
    Reply: the reply is built from any header list; the dictionary holds,
    under each name, the value of the last header named exactly so; when no
    header is named exactly "Subject" the Subject counts as empty.
    Forward: the dictionary is built from any raw text; a header line is
    cut at its first colon only, the name being what precedes it and the
    value everything after it; the dictionary holds, under each name, the
    value of the last line of exactly that name; the forward's Subject is
    made from the value found under "Subject", and from the empty string
    when no line is named exactly "Subject". *)
Theorem header_extraction (original : Message) (p : MessagePart)
    (hs : list Header) (body : string) (html_body : option string) :
  payload original = Some p →
  headers p = Some hs →
  let reply := reply_to_message original body html_body in
  (∃ m, reply = Ok m)
  ∧ (∀ key, headers_dict hs !! key = find_last key hs)
  ∧ ((∀ h, In h hs → name h ≠ "Subject") →
     header_of "Subject" reply = Some "Re: ")
  ∧ (∀ line, Py.contains ":" line = true →
       ∃ k v,
         Py.split_max ":" 1 line = [k; v]
         ∧ line = k +:+ ":" +:+ v
         ∧ Py.contains ":" k = false
         ∧ cut_at_first_colon line = Some (k, v))
  ∧ (∀ raw_message,
       ∃ d,
         raw_headers raw_message = Ok d
         ∧ (∀ key, d !! key = find_last_line key (header_lines raw_message))
         ∧ ∀ to additional_body,
             Utf8.valid raw_message = true →
             let forward := forward_message (raw_of raw_message) to additional_body in
             header_of "Subject" forward
             = Some (fwd_subject
                       (default "" (find_last_line "Subject"
                                      (header_lines raw_message))))
             ∧ ((∀ line k v,
                   In line (header_lines raw_message) →
                   cut_at_first_colon line = Some (k, v) → k ≠ "Subject") →
                header_of "Subject" forward = Some "Fwd: ")).
Proof.
  intros Hp Hh reply.
  split; [exact (reply_returns original p hs body html_body Hp Hh)|].
  split; [intros key; apply headers_dict_lookup|].
  split.
  { intros Hnone. unfold reply.
    rewrite (reply_subject original p hs body html_body Hp Hh).
    unfold get. rewrite headers_dict_lookup, (find_last_none _ _ Hnone). reflexivity. }
  split; [exact split_cuts_at_first_colon|].
  intros raw_message.
  destruct (raw_headers_lookup raw_message) as (d & Hd & Hlook).
  exists d. split; [exact Hd|]. split; [exact Hlook|].
  intros to additional_body Hvalid forward.
  assert (Hsubject : header_of "Subject" forward
                     = Some (fwd_subject
                               (default "" (find_last_line "Subject"
                                              (header_lines raw_message))))).
  { unfold forward. rewrite (forward_of_text _ to additional_body d Hvalid Hd).
    unfold get. rewrite Hlook. reflexivity. }
  split; [exact Hsubject|].
  intros Hnone. rewrite Hsubject, (find_last_line_none _ _ Hnone). reflexivity.
Qed.

Lemma header_extraction_witness :
  header_of "Subject" (reply_to_message upper_subject "Thanks" None) = Some "Re: "
  ∧ header_of "Subject"
      (forward_message (raw_of upper_subject_text) "bob@example.com" None)
    = Some "Fwd: "
  ∧ header_of "Subject"
      (forward_message (raw_of two_subjects_text) "bob@example.com" None)
    = Some "Fwd: re: a:b".
Proof.
  destruct (header_extraction upper_subject _ _ "Thanks" None eq_refl eq_refl)
    as (_ & _ & Hreply & _ & Hforward).
  split.
  { apply Hreply. intros h [<- | [<- | []]]; discriminate. }
  split.
  - destruct (Hforward upper_subject_text) as (d & _ & _ & Hsubject).
    destruct (Hsubject "bob@example.com" None eq_refl) as [_ Hnone].
    apply Hnone. intros line k v [<- | [<- | []]] [= <- _]; discriminate.
  - destruct (Hforward two_subjects_text) as (d & _ & _ & Hsubject).
    destruct (Hsubject "bob@example.com" None eq_refl) as [Hlast _].
    exact Hlast.
Defined.

(** C7 as stated fails: a Subject stored as "SUBJECT" is not found under
    "Subject", and the reply's Subject is built from the empty string. *)
Lemma subject_lookup_is_case_sensitive :
  headers_dict [mkHeader "SUBJECT" "Hello"; mkHeader "From" "alice@example.com"]
    !! "SUBJECT" = Some "Hello"
  ∧ headers_dict [mkHeader "SUBJECT" "Hello"; mkHeader "From" "alice@example.com"]
      !! "Subject" = None
  ∧ header_of "Subject" (reply_to_message upper_subject "Thanks" None) = Some "Re: "
  ∧ header_of "Subject" (reply_to_message upper_subject "Thanks" None)
    ≠ Some "Re: Hello".
Proof.
  assert (H : header_of "Subject" (reply_to_message upper_subject "Thanks" None)
              = Some "Re: ").
  { rewrite (reply_subject upper_subject _ _ "Thanks" None eq_refl eq_refl).
    unfold get. rewrite headers_dict_lookup. reflexivity. }
  rewrite !headers_dict_lookup.
  split; [reflexivity|]. split; [reflexivity|]. split; [exact H|].
  rewrite H. discriminate.
Qed.

(** * More on decoding message bodies *)

Lemma body_loop_carries (ps : list MessagePart) (texts acc : list string) :
  carries ps texts →
  foldl body_loop_step (Ok acc) ps = Ok (acc ++ texts)%list.
Proof.
  intros Hc. revert acc.
  induction Hc as [|text hs nested ps texts Hvalid _ IH
                   |mt hs b nested ps texts Hne _ IH
                   |hs nested ps texts _ IH]; intros acc.
  - cbn. rewrite app_nil_r. reflexivity.
  - cbn [foldl]. unfold body_loop_step at 2.
    cbn [bind mimeType subscript body data].
    change (String.eqb "text/plain" "text/plain") with true. cbn iota.
    rewrite (decode_data_encoded text Hvalid). cbn [bind].
    rewrite IH, <- app_assoc. reflexivity.
  - cbn [foldl]. unfold body_loop_step at 2. cbn [bind mimeType subscript].
    destruct (String.eqb_spec mt "text/plain") as [Heq|_]; [contradiction|].
    apply IH.
  - cbn [foldl]. unfold body_loop_step at 2.
    cbn [bind mimeType subscript body data].
    change (String.eqb "text/plain" "text/plain") with true. cbn iota.
    apply IH.
Qed.

Lemma carries_app (ps qs : list MessagePart) (texts more : list string) :
  carries ps texts → carries qs more → carries (ps ++ qs) (texts ++ more).
Proof.
  intros Hp Hq. induction Hp; cbn [app]; [exact Hq | | |].
  - apply carries_text; assumption.
  - apply carries_other; assumption.
  - apply carries_no_data; assumption.
Qed.

(** The text of a message with sub-parts is the texts of its direct
    text/plain sub-parts, decoded and joined by single newlines, in order;
    sub-parts of any other declared type contribute nothing, and neither
    does what is nested inside them. *)
Theorem get_message_body_of_parts (message : Message) (p : MessagePart)
    (ps : list MessagePart) (texts : list string) :
  payload message = Some p →
  parts p = Some ps →
  carries ps texts →
  get_message_body message = Ok (Py.join LF texts).
Proof.
  intros Hp Hps Hc. unfold get_message_body.
  rewrite Hp, Hps, (body_loop_carries ps texts [] Hc). reflexivity.
Qed.

(** Text is looked for among the direct sub-parts only: when every direct
    sub-part declares a type other than text/plain, the text is empty even
    if a text/plain part is nested further down. *)
Theorem nested_text_is_not_found (message : Message) (p : MessagePart)
    (ps : list MessagePart) :
  payload message = Some p →
  parts p = Some ps →
  (∀ part, In part ps → ∃ mt, mimeType part = Some mt ∧ mt ≠ "text/plain") →
  get_message_body message = Ok "".
Proof.
  intros Hp Hps Hall.
  assert (Hc : carries ps []).
  { clear Hps. induction ps as [|part ps IH]; [constructor|].
    destruct (Hall part (or_introl eq_refl)) as (mt & Hmt & Hne).
    destruct part as [mt' hs b nested]. cbn in Hmt. subst mt'.
    apply carries_other; [exact Hne|].
    apply IH. intros q Hq. apply Hall. right. exact Hq. }
  unfold get_message_body.
  rewrite Hp, Hps, (body_loop_carries ps [] [] Hc). reflexivity.
Qed.

(** The first sub-part that cannot be handled decides the outcome, whatever
    text was collected before it and whatever follows: a sub-part without a
    declared type raises KeyError, a text/plain sub-part without a body
    raises KeyError, and a text/plain sub-part whose data does not decode
    raises the decoding error. *)
Theorem first_bad_part_raises (message : Message) (p : MessagePart)
    (before after : list MessagePart) (texts : list string) (part : MessagePart) :
  payload message = Some p →
  parts p = Some (before ++ part :: after)%list →
  carries before texts →
  (mimeType part = None →
   get_message_body message = Raise (KeyError "mimeType"))
  ∧ (mimeType part = Some "text/plain" → body part = None →
     get_message_body message = Raise (KeyError "body"))
  ∧ (∀ b body_data e,
       mimeType part = Some "text/plain" → body part = Some b →
       data b = Some body_data → decode_data body_data = Raise e →
       get_message_body message = Raise e).
Proof.
  intros Hp Hps Hc.
  assert (Hloop : ∀ e,
            body_loop_step (Ok ([] ++ texts)%list) part = Raise e →
            get_message_body message = Raise e).
  { intros e He. unfold get_message_body. rewrite Hp, Hps, foldl_app.
    rewrite (body_loop_carries before texts [] Hc). cbn [foldl].
    rewrite He, body_loop_raise. reflexivity. }
  split; [|split].
  - intros Hmt. apply Hloop. unfold body_loop_step. cbn [bind]. rewrite Hmt. reflexivity.
  - intros Hmt Hb. apply Hloop. unfold body_loop_step. cbn [bind].
    rewrite Hmt. cbn [subscript bind].
    change (String.eqb "text/plain" "text/plain") with true. cbn iota.
    rewrite Hb. reflexivity.
  - intros b body_data e Hmt Hb Hd He. apply Hloop. unfold body_loop_step. cbn [bind].
    rewrite Hmt. cbn [subscript bind].
    change (String.eqb "text/plain" "text/plain") with true. cbn iota.
    rewrite Hb. cbn [subscript bind]. rewrite Hd, He. reflexivity.
Qed.

Lemma get_message_body_of_parts_witness :
  get_message_body foo_bar = Ok ("foo" +:+ LF +:+ "bar").
Proof.
  apply (get_message_body_of_parts foo_bar _ _ ["foo"; "bar"] eq_refl eq_refl).
  apply (carries_text "foo"); [reflexivity|].
  apply carries_other; [discriminate|].
  apply (carries_text "bar"); [reflexivity|].
  constructor.
Defined.

Lemma nested_text_is_not_found_witness :
  (∀ p, payload html_mail_with_attachment = Some p → has_text_plain p = true)
  ∧ get_message_body html_mail_with_attachment = Ok "".
Proof.
  split; [intros p [= <-]; reflexivity|].
  apply (nested_text_is_not_found html_mail_with_attachment _ _ eq_refl eq_refl).
  intros part [<- | [<- | []]]; eexists; (split; [reflexivity | discriminate]).
Defined.

Lemma first_bad_part_raises_witness :
  get_message_body untyped_part = Raise (KeyError "mimeType").
Proof.
  destruct (first_bad_part_raises untyped_part _
              [mkPart (Some "text/plain") (Some []) (Some (mkBody (Some "Zm9v"))) None]
              [mkPart (Some "text/plain") (Some []) (Some (mkBody (Some "YmFy"))) None]
              ["foo"]
              (mkPart None (Some []) (Some (mkBody None)) None)
              eq_refl eq_refl) as (H & _).
  - apply (carries_text "foo"); [reflexivity | constructor].
  - exact (H eq_refl).
Defined.

(** * Reading back what was sent *)

(** Attachments come back by reference and so carry no text. *)
Lemma attachments_carry_nothing (nl : string) (files : list mime) :
  Forall is_attachment files → carries (map (Remote.part_of nl) files) [].
Proof.
  induction 1 as [|a files Ha _ IH]; [constructor|].
  destruct a as [| maintype subtype content filename |]; try destruct Ha.
  cbn [map Remote.part_of Remote.content_type].
  destruct (String.eqb_spec (maintype +:+ "/" +:+ subtype) "text/plain") as [->|Hne].
  - apply carries_no_data, IH.
  - apply carries_other; [exact Hne | exact IH].
Qed.

(** The parts of a message with a plain body, possibly an HTML body, and
    attachments carry exactly the plain body, as it was serialised. *)
Lemma bodies_carry_plain (nl plain_body : string) (html : list mime)
    (files : list mime) :
  Utf8.valid plain_body = true →
  Remote.newlines nl = true →
  (html = [] ∨ ∃ h, html = [MIMEText h "html"]) →
  Forall is_attachment files →
  carries (map (Remote.part_of nl) (MIMEText plain_body "plain" :: html ++ files))
    [Email.text_content plain_body +:+ nl].
Proof.
  intros Hvalid Hnl Hhtml Hfiles.
  cbn [map Remote.part_of Remote.content_type].
  change ("text/" +:+ "plain") with "text/plain".
  apply carries_text;
    [apply utf8_valid_append;
       [apply text_content_valid, Hvalid | apply newlines_valid, Hnl]|].
  rewrite map_app.
  change (@nil string) with (@nil string ++ @nil string)%list.
  apply carries_app; [|apply attachments_carry_nothing, Hfiles].
  destruct Hhtml as [-> | [h ->]]; [constructor|].
  cbn [map Remote.part_of Remote.content_type].
  apply carries_other; [discriminate | constructor].
Qed.


(** The text read back from a message built by [reply_to_message] is the
    reply's plain body as it was serialised, with or without an HTML body
    beside it. *)
Theorem reply_body_is_read_back (original : Message)
    (plain_body : string) (html_body : option string) (nl : string) (m : mime) :
  reply_to_message original plain_body html_body = Ok m →
  Utf8.valid plain_body = true →
  Remote.newlines nl = true →
  get_message_body (Remote.received nl m)
  = Ok (Email.text_content plain_body +:+ nl).
Proof.
  intros Hbuilt Hvalid Hnl. unfold reply_to_message in Hbuilt.
  destruct (payload original) as [p|]; [|discriminate].
  cbn [subscript bind] in Hbuilt.
  destruct (headers p) as [hs|]; [|discriminate].
  cbn [subscript bind] in Hbuilt. injection Hbuilt as <-.
  unfold get_message_body, Remote.received.
  cbn [payload parts Remote.part_of].
  rewrite (body_loop_carries _ [Email.text_content plain_body +:+ nl] []);
    [reflexivity|].
  rewrite <- (app_nil_r (match html_body with
                         | Some h => if Py.truthy h then [MIMEText h "html"] else []
                         | None => []
                         end)).
  apply bodies_carry_plain; [exact Hvalid | exact Hnl | | constructor].
  destruct html_body as [[|? ?]|];
    [left; reflexivity | right; eexists; reflexivity | left; reflexivity].
Qed.


Lemma reply_body_is_read_back_witness :
  ∃ m,
    reply_to_message thread_original crlf_body (Some "<p>Thanks</p>") = Ok m
    ∧ get_message_body (Remote.received "" m) = Ok lf_body.
Proof.
  eexists. split; [reflexivity|].
  exact (reply_body_is_read_back thread_original crlf_body (Some "<p>Thanks</p>") "" _
           eq_refl eq_refl eq_refl).
Defined.
